(** * ai-cafe: the Slack/Claude bridge (claude-slack-bot.py, artifact.py)

    A shallow embedding of the bot's message handling: the configuration
    block parser, the thread formatter, the attachments and their cache,
    the artifacts of artifact.py (to blocks, back to text, and parsed
    again), the overflow policy and the event handler, with the properties
    the specification states about them and further ones the code has.

    Conventions.  A Python [str] is a [string]; a character is a code point
    below 256.  A Python exception is a value of [exn]; a function that may
    raise returns a [pyresult].  The calls the handler makes to Slack and to
    the model that change something are recorded, in order, in a list of
    [action]s; what those services answer is given by the fields of a
    [Client] record.  What the Python library does ([ast.literal_eval],
    [float], [base64.b64encode], [bytes.decode]) is a variable of the
    sections that use it.

    Order.  The definitions come first: the model of the code, function by
    function; the vocabulary of the statements; concrete messages, events
    and services.  The facts follow, and last the code on concrete inputs. *)

From Stdlib Require Import String Ascii List Bool Arith ZArith QArith Lia.
From Stdlib Require Import DecimalString.
Import ListNotations.

Local Close Scope Q_scope.
Local Open Scope nat_scope.
Local Open Scope list_scope.
Local Open Scope string_scope.

(* ------------------------------------------------------------------ *)
(** ** Python strings *)

Module PyStr.

Definition chr (n : nat) : string := String (ascii_of_nat n) EmptyString.

(** The characters the examples need and a Rocq literal cannot hold. *)
Definition nl : string := chr 10.
Definition dq : string := chr 34.

(** [str.isspace] on code points below 256, which is also the regular
    expression class [\s] on [str] patterns. *)
Definition is_space (c : ascii) : bool :=
  let n := nat_of_ascii c in
  (((9 <=? n) && (n <=? 13)) || ((28 <=? n) && (n <=? 32))
   || (n =? 133) || (n =? 160))%nat.

(** The regular expression class [\w] on [str] patterns: the alphanumeric
    code points and the underscore. *)
Definition is_word (c : ascii) : bool :=
  let n := nat_of_ascii c in
  (((48 <=? n) && (n <=? 57)) || ((65 <=? n) && (n <=? 90)) || (n =? 95)
   || ((97 <=? n) && (n <=? 122))
   || (n =? 170) || (n =? 178) || (n =? 179) || (n =? 181) || (n =? 185)
   || (n =? 186) || ((188 <=? n) && (n <=? 190))
   || ((192 <=? n) && (n <=? 214)) || ((216 <=? n) && (n <=? 246))
   || (248 <=? n))%nat.

(** [str.lower], character by character. *)
Definition lower_char (c : ascii) : ascii :=
  let n := nat_of_ascii c in
  if (((65 <=? n) && (n <=? 90))
      || ((192 <=? n) && (n <=? 222) && negb (n =? 215)))%nat
  then ascii_of_nat (n + 32) else c.

Arguments is_space c : simpl never.
Arguments is_word c : simpl never.
Arguments lower_char c : simpl never.

Fixpoint lower (s : string) : string :=
  match s with
  | EmptyString => EmptyString
  | String c s' => String (lower_char c) (lower s')
  end.

Fixpoint lstrip (s : string) : string :=
  match s with
  | EmptyString => EmptyString
  | String c s' => if is_space c then lstrip s' else s
  end.

Fixpoint rstrip (s : string) : string :=
  match s with
  | EmptyString => EmptyString
  | String c s' =>
      match rstrip s' with
      | EmptyString => if is_space c then EmptyString else String c EmptyString
      | r => String c r
      end
  end.

(** [s.strip()] *)
Definition strip (s : string) : string := rstrip (lstrip s).

(** [s.startswith(p)] *)
Fixpoint startswith (s p : string) {struct p} : bool :=
  match p, s with
  | EmptyString, _ => true
  | String c p', String d s' => Ascii.eqb c d && startswith s' p'
  | String _ _, EmptyString => false
  end.

(** [s[n:]] and [s[:n]] for a non-negative [n]. *)
Fixpoint drop (n : nat) (s : string) : string :=
  match n, s with
  | O, _ => s
  | S n', String _ s' => drop n' s'
  | S _, EmptyString => EmptyString
  end.

Fixpoint take (n : nat) (s : string) : string :=
  match n, s with
  | S n', String c s' => String c (take n' s')
  | _, _ => EmptyString
  end.

(** The longest prefix of [s] whose characters satisfy [p], and the rest:
    what a greedy character class takes when nothing makes it give back. *)
Fixpoint span (p : ascii -> bool) (s : string) : string * string :=
  match s with
  | EmptyString => (EmptyString, EmptyString)
  | String c s' =>
      if p c then let '(a, b) := span p s' in (String c a, b)
      else (EmptyString, s)
  end.

(** [sep.join(l)] *)
Fixpoint join (sep : string) (l : list string) : string :=
  match l with
  | [] => EmptyString
  | [x] => x
  | x :: rest => x ++ sep ++ join sep rest
  end.

(** [str(n)] for a non-negative integer. *)
Definition of_nat (n : nat) : string := NilEmpty.string_of_uint (Nat.to_uint n).

Definition all_space (s : string) : Prop := lstrip s = EmptyString.

End PyStr.

(* ------------------------------------------------------------------ *)
(** ** Python values, exceptions and dictionaries *)

Module Py.

(** The exception classes the code meets.  [NotImplementedError] is what
    [LiteralFragment.literal_eval] answers outside its fragment. *)
Inductive exn : Type :=
| SyntaxError | ValueError | TypeError | KeyError | IndexError
| MemoryError | RecursionError | SlackApiError | APIError
| NotImplementedError.

Inductive pyresult (A : Type) : Type :=
| Ok (a : A)
| Raise (e : exn).
Arguments Ok {A} a.
Arguments Raise {A} e.

#[local] Set Warnings "-register-all".

(** The values a literal can denote.  A float is its (finite) value; a set
    and a dict list their members in iteration order. *)
Inductive pyval : Type :=
| PyNone
| PyBool (b : bool)
| PyInt (z : Z)
| PyFloat (q : Q)
| PyStr (s : string)
| PyTuple (l : list pyval)
| PyList (l : list pyval)
| PySet (l : list pyval)
| PyDict (l : list (pyval * pyval)).

(** [bool(v)] *)
Definition truthy (v : pyval) : bool :=
  match v with
  | PyNone => false
  | PyBool b => b
  | PyInt z => negb (Z.eqb z 0)
  | PyFloat q => negb (Qeq_bool q 0)
  | PyStr s => negb (String.eqb s "")
  | PyTuple l | PyList l | PySet l => negb (Nat.eqb (List.length l) 0)
  | PyDict l => negb (Nat.eqb (List.length l) 0)
  end.

(** The truth value of [d.get(k)]: a missing key gives [None]. *)
Definition truthy_opt (o : option pyval) : bool :=
  match o with Some v => truthy v | None => false end.

(** The number a value is, when it is one ([True] is 1). *)
Definition num_val (v : pyval) : option Q :=
  match v with
  | PyBool b => Some (inject_Z (if b then 1 else 0))
  | PyInt z => Some (inject_Z z)
  | PyFloat q => Some q
  | _ => None
  end.

(** [v == False] *)
Definition eq_False (v : pyval) : bool :=
  match num_val v with Some q => Qeq_bool q 0 | None => false end.

Fixpoint hashable (v : pyval) : bool :=
  match v with
  | PyTuple l => forallb hashable l
  | PyList _ | PySet _ | PyDict _ => false
  | _ => true
  end.

(** [a == b] on hashable values, as a dictionary compares its keys. *)
Fixpoint key_eq (a b : pyval) : bool :=
  match a, b with
  | PyNone, PyNone => true
  | PyStr s, PyStr t => String.eqb s t
  | PyTuple l, PyTuple m =>
      (fix all2 (l m : list pyval) : bool :=
         match l, m with
         | [], [] => true
         | x :: l', y :: m' => key_eq x y && all2 l' m'
         | _, _ => false
         end) l m
  | _, _ =>
      match num_val a, num_val b with
      | Some x, Some y => Qeq_bool x y
      | _, _ => false
      end
  end.

(** A [dict]: its items in insertion order. *)
Definition dict : Type := list (pyval * pyval).

(** [d.get(k)] *)
Fixpoint dict_get (d : dict) (k : pyval) : option pyval :=
  match d with
  | [] => None
  | (k0, v0) :: d' => if key_eq k0 k then Some v0 else dict_get d' k
  end.

(** [d[k] = v] for a hashable [k]: an existing key keeps its place. *)
Fixpoint dict_set (d : dict) (k v : pyval) : dict :=
  match d with
  | [] => [(k, v)]
  | (k0, v0) :: d' =>
      if key_eq k0 k then (k0, v) :: d' else (k0, v0) :: dict_set d' k v
  end.

(** [d.update(other)] for a dict [other], items in order. *)
Definition dict_merge (d other : dict) : dict :=
  fold_left (fun acc kv => dict_set acc (fst kv) (snd kv)) other d.

(** The characters of a text, each a text of length one. *)
Fixpoint chars (s : string) : list pyval :=
  match s with
  | EmptyString => []
  | String c s' => PyStr (String c EmptyString) :: chars s'
  end.

(** What iterating over a value yields, when it can be iterated over. *)
Definition iterate (v : pyval) : option (list pyval) :=
  match v with
  | PyStr s => Some (chars s)
  | PyTuple l | PyList l | PySet l => Some l
  | PyDict l => Some (map fst l)
  | _ => None
  end.

(** One element of the sequence [dict.update] is given: it must iterate
    to exactly a key and a value, and the key must be hashable. *)
Definition as_pair (v : pyval) : pyresult (pyval * pyval) :=
  match iterate v with
  | None => Raise TypeError
  | Some [k; x] => if hashable k then Ok (k, x) else Raise TypeError
  | Some _ => Raise ValueError
  end.

(** [d.update(seq)] for a sequence of pairs.  The dictionary is changed in
    place, so what was stored before an element fails stays stored: the
    result is the dictionary as it is left, and the exception if any. *)
Fixpoint dict_update_seq (d : dict) (l : list pyval) : dict * option exn :=
  match l with
  | [] => (d, None)
  | x :: l' =>
      match as_pair x with
      | Ok (k, v) => dict_update_seq (dict_set d k v) l'
      | Raise e => (d, Some e)
      end
  end.

(** [d.update(other)] for any value. *)
Definition dict_update (d : dict) (other : pyval) : dict * option exn :=
  match other with
  | PyDict l => (dict_merge d l, None)
  | _ =>
      match iterate other with
      | Some l => dict_update_seq d l
      | None => (d, Some TypeError)
      end
  end.

End Py.

Import PyStr Py.

(* ------------------------------------------------------------------ *)
(** ** ClaudeBot.parse_config_block *)

(** The key of the flag a leading bot mention sets, and of the one a
    leading [@public] sets. *)
Definition IS_BOT_MENTION : pyval := PyStr "is_bot_mention".
Definition IS_PUBLIC : pyval := PyStr "is_public".

(** The match of the pattern [^\s*{{(.+?)}}\s*] followed by a group that
    takes all the rest, with [re.DOTALL]: its two groups.  [scan_close]
    looks for the first [}}]; [.+?] takes one character before the search
    starts. *)
Fixpoint scan_close (s : string) : option (string * string) :=
  match s with
  | EmptyString => None
  | String c s' =>
      if startswith s "}}" then Some (EmptyString, drop 2 s)
      else match scan_close s' with
           | Some (body, rest) => Some (String c body, rest)
           | None => None
           end
  end.

Definition match_config_block (text : string) : option (string * string) :=
  let t := lstrip text in
  if startswith t "{{" then
    match drop 2 t with
    | EmptyString => None
    | String c r =>
        match scan_close r with
        | Some (body, rest) => Some (String c body, lstrip rest)
        | None => None
        end
    end
  else None.

(** [isinstance(v, dict)] *)
Definition isinstance_dict (v : pyval) : bool :=
  match v with PyDict _ => true | _ => false end.

(** The clause [except (SyntaxError, ValueError)]. *)
Definition caught (e : exn) : bool :=
  match e with SyntaxError | ValueError => true | _ => false end.

Section ConfigBlock.

(** [self.bot_user_id], and [ast.literal_eval] of the Python library. *)
Variable bot_user_id : string.
Variable literal_eval : string -> pyresult pyval.

Definition bot_mention : string := "<@" ++ bot_user_id ++ ">".
Definition public_flag : string := "@public".

(** The loop that removes the leading mention and [@public] tokens.  Each
    round that goes on removes at least one character, so [fuel] rounds are
    enough when [fuel] is the length of the text (see [strip_prefixes_done]). *)
Fixpoint strip_prefixes (fuel : nat) (text : string) (config : dict)
  : string * dict :=
  let text := strip text in
  match fuel with
  | O => (text, config)
  | S fuel' =>
      if startswith text bot_mention then
        strip_prefixes fuel'
          (strip (drop (String.length bot_mention) text))
          (dict_set config IS_BOT_MENTION (PyBool true))
      else if startswith text public_flag then
        strip_prefixes fuel'
          (strip (drop (String.length public_flag) text))
          (dict_set config IS_PUBLIC (PyBool true))
      else (text, config)
  end.

Definition parse_config_block (text : string) : pyresult (string * dict) :=
  let '(text, config) := strip_prefixes (String.length text) text [] in
  match match_config_block text with
  | None => Ok (strip text, config)
  | Some (config_str, remaining_text) =>
      match literal_eval ("{" ++ config_str ++ "}") with
      | Raise e => if caught e then Ok (strip text, config) else Raise e
      | Ok config2 =>
          (* the test is on [config], the dictionary built above *)
          let config2 :=
            if negb (isinstance_dict (PyDict config)) then PyDict []
            else config2 in
          match dict_update config config2 with
          | (config, None) => Ok (strip remaining_text, config)
          | (config, Some e) =>
              if caught e then Ok (strip text, config) else Raise e
          end
      end
  end.

End ConfigBlock.

(** [ClaudeBot.is_bot_mention] *)
Definition is_bot_mention (bot_user_id text : string) : bool :=
  startswith (strip text) ("<@" ++ bot_user_id ++ ">").

(* ------------------------------------------------------------------ *)
(** ** A fragment of [ast.literal_eval]

    [parse_config_block] is stated for any [literal_eval]; to run it on a
    concrete text one is needed.  This one covers displays ([{..}], [[..]])
    of decimal integers, plain quoted texts, [True], [False], [None] and
    other names.  It answers like the Python library where it answers, and
    abstains ([Abstain], turned into [NotImplementedError]) on everything
    else: floats, signs, escapes, tuples, subscripts, comments, sets of two
    or more members (their iteration order is not modelled), deep nesting. *)

Module LiteralFragment.

Inductive res (A : Type) : Type :=
| Done (a : A)
| Err (e : exn)
| Abstain.
Arguments Done {A} a.
Arguments Err {A} e.
Arguments Abstain {A}.

Definition bind {A B : Type} (r : res A) (f : A -> res B) : res B :=
  match r with
  | Done a => f a
  | Err e => Err e
  | Abstain => Abstain
  end.

Notation "x <- r ;; k" := (bind r (fun x => k))
  (at level 61, r at next level, right associativity).
Notation "' p <- r ;; k" := (bind r (fun p => k))
  (at level 61, p pattern, r at next level, right associativity).

Inductive token : Type :=
| TLBrace | TRBrace | TLBrack | TRBrack | TComma | TColon
| TInt (z : Z) | TStr (s : string) | TName (s : string).

Definition code (c : ascii) : nat := nat_of_ascii c.

Definition is_blank (c : ascii) : bool :=
  let n := code c in ((n =? 32) || (n =? 9) || (n =? 10) || (n =? 13))%nat.
Definition is_digit (c : ascii) : bool :=
  let n := code c in ((48 <=? n) && (n <=? 57))%nat.
Definition is_name_start (c : ascii) : bool :=
  let n := code c in
  (((65 <=? n) && (n <=? 90)) || ((97 <=? n) && (n <=? 122)) || (n =? 95))%nat.
Definition is_name_char (c : ascii) : bool := is_name_start c || is_digit c.
Definition punct (c : ascii) : option token :=
  let n := code c in
  if (n =? 123)%nat then Some TLBrace else if (n =? 125)%nat then Some TRBrace
  else if (n =? 91)%nat then Some TLBrack else if (n =? 93)%nat then Some TRBrack
  else if (n =? 44)%nat then Some TComma else if (n =? 58)%nat then Some TColon
  else None.
Definition is_quote (c : ascii) : bool :=
  let n := code c in ((n =? 34) || (n =? 39))%nat.
(** What a quoted text may hold here: printable ASCII but the backslash. *)
Definition is_plain (c : ascii) : bool :=
  let n := code c in ((32 <=? n) && (n <=? 126) && negb (n =? 92))%nat.

(** A token must be followed by a blank, a punctuation mark or the end. *)
Definition ends_token (s : string) : bool :=
  match s with
  | EmptyString => true
  | String c _ =>
      is_blank c || match punct c with Some _ => true | None => false end
  end.

Definition keywords : list string :=
  ["and"; "as"; "assert"; "async"; "await"; "break"; "class"; "continue";
   "def"; "del"; "elif"; "else"; "except"; "finally"; "for"; "from";
   "global"; "if"; "import"; "in"; "is"; "lambda"; "nonlocal"; "not"; "or";
   "pass"; "raise"; "return"; "try"; "while"; "with"; "yield"].

Definition digits_value (s : string) : Z :=
  (fix go (s : string) (acc : Z) : Z :=
     match s with
     | EmptyString => acc
     | String c s' => go s' (10 * acc + Z.of_nat (code c - 48))%Z
     end) s 0%Z.

(** The text of a quoted literal up to its closing quote [q]. *)
Fixpoint quoted (q : ascii) (s : string) : res (string * string) :=
  match s with
  | EmptyString => Err SyntaxError
  | String c s' =>
      if Ascii.eqb c q then Done (EmptyString, s')
      else if ((code c =? 10) || (code c =? 13))%nat then Err SyntaxError
      else if is_plain c then
        '(a, b) <- quoted q s' ;; Done (String c a, b)
      else Abstain
  end.

Fixpoint tokenize (fuel : nat) (s : string) : res (list token) :=
  match fuel with
  | O => Abstain
  | S fuel' =>
      match s with
      | EmptyString => Done []
      | String c s' =>
          if is_blank c then tokenize fuel' s'
          else match punct c with
          | Some t => ts <- tokenize fuel' s' ;; Done (t :: ts)
          | None =>
              if is_digit c then
                let '(ds, r) := span is_digit s in
                if negb (ends_token r) then Abstain
                else if (18 <? String.length ds)%nat then Abstain
                else if is_digit c && (code c =? 48)%nat
                        && (1 <? String.length ds)%nat then Abstain
                else ts <- tokenize fuel' r ;; Done (TInt (digits_value ds) :: ts)
              else if is_name_start c then
                let '(x, r) := span is_name_char s in
                if negb (ends_token r) then Abstain
                else if existsb (String.eqb x) keywords then Abstain
                else ts <- tokenize fuel' r ;; Done (TName x :: ts)
              else if is_quote c then
                '(x, r) <- quoted c s' ;;
                if negb (ends_token r) then Abstain
                else ts <- tokenize fuel' r ;; Done (TStr x :: ts)
              else Abstain
          end
      end
  end.

#[local] Set Warnings "-register-all".

Inductive lit : Type :=
| LInt (z : Z)
| LStr (s : string)
| LName (x : string)
| LList (items : list lit)
| LSet (items : list lit)
| LDict (items : list (lit * lit)).

(** A subscript may follow any atom: that is outside the fragment. *)
Definition after_atom (l : lit) (r : list token) : res (lit * list token) :=
  match r with
  | TLBrack :: _ => Abstain
  | _ => Done (l, r)
  end.

Definition closes (brace : bool) (t : token) : bool :=
  match t, brace with
  | TRBrace, true | TRBrack, false => true
  | _, _ => false
  end.

(** Recursive descent.  [depth] bounds the nesting of displays. *)
Fixpoint parse_expr (fuel depth : nat) (toks : list token) {struct fuel}
  : res (lit * list token) :=
  match fuel with
  | O => Abstain
  | S fuel' =>
      match toks with
      | TInt z :: r => after_atom (LInt z) r
      | TStr s :: r =>
          match r with TStr _ :: _ => Abstain | _ => after_atom (LStr s) r end
      | TName x :: r => after_atom (LName x) r
      | TLBrack :: r =>
          match depth with
          | O => Abstain
          | S d =>
              match r with
              | TRBrack :: r' => after_atom (LList []) r'
              | _ =>
                  '(e, r1) <- parse_expr fuel' d r ;;
                  '(es, r2) <- parse_tail fuel' d false r1 ;;
                  after_atom (LList (e :: es)) r2
              end
          end
      | TLBrace :: r =>
          match depth with
          | O => Abstain
          | S d =>
              match r with
              | TRBrace :: r' => after_atom (LDict []) r'
              | _ =>
                  '(e, r1) <- parse_expr fuel' d r ;;
                  match r1 with
                  | TColon :: r2 =>
                      '(v, r3) <- parse_expr fuel' d r2 ;;
                      '(ps, r4) <- parse_pairs fuel' d r3 ;;
                      after_atom (LDict ((e, v) :: ps)) r4
                  | _ =>
                      '(es, r2) <- parse_tail fuel' d true r1 ;;
                      after_atom (LSet (e :: es)) r2
                  end
              end
          end
      | _ => Err SyntaxError
      end
  end

(** The members after the first, up to the closing bracket. *)
with parse_tail (fuel depth : nat) (brace : bool) (toks : list token)
  {struct fuel} : res (list lit * list token) :=
  match fuel with
  | O => Abstain
  | S fuel' =>
      match toks with
      | t :: r =>
          if closes brace t then Done ([], r)
          else match t, r with
          | TComma, t' :: r' =>
              if closes brace t' then Done ([], r')
              else
                '(e, r1) <- parse_expr fuel' depth r ;;
                '(es, r2) <- parse_tail fuel' depth brace r1 ;;
                Done (e :: es, r2)
          | _, _ => Err SyntaxError
          end
      | [] => Err SyntaxError
      end
  end

(** The items of a dict display after the first. *)
with parse_pairs (fuel depth : nat) (toks : list token) {struct fuel}
  : res (list (lit * lit) * list token) :=
  match fuel with
  | O => Abstain
  | S fuel' =>
      match toks with
      | TRBrace :: r => Done ([], r)
      | TComma :: TRBrace :: r => Done ([], r)
      | TComma :: r =>
          '(k, r1) <- parse_expr fuel' depth r ;;
          match r1 with
          | TColon :: r2 =>
              '(v, r3) <- parse_expr fuel' depth r2 ;;
              '(ps, r4) <- parse_pairs fuel' depth r3 ;;
              Done ((k, v) :: ps, r4)
          | _ => Err SyntaxError
          end
      | _ => Err SyntaxError
      end
  end.

(** [set.add] *)
Definition set_add (l : list pyval) (v : pyval) : list pyval :=
  if existsb (fun x => key_eq x v) l then l else l ++ [v].

(** The conversion of the syntax tree, in the library's order: a member is
    converted, then hashed where it enters a set or a dict. *)
Fixpoint convert (l : lit) : res pyval :=
  match l with
  | LInt z => Done (PyInt z)
  | LStr s => Done (PyStr s)
  | LName x =>
      if String.eqb x "True" then Done (PyBool true)
      else if String.eqb x "False" then Done (PyBool false)
      else if String.eqb x "None" then Done PyNone
      else Err ValueError
  | LList items =>
      vs <- (fix go (items : list lit) : res (list pyval) :=
               match items with
               | [] => Done []
               | x :: r => v <- convert x ;; vs <- go r ;; Done (v :: vs)
               end) items ;;
      Done (PyList vs)
  | LSet items =>
      vs <- (fix go (items : list lit) (acc : list pyval) : res (list pyval) :=
               match items with
               | [] => Done acc
               | x :: r =>
                   v <- convert x ;;
                   if hashable v then go r (set_add acc v) else Err TypeError
               end) items [] ;;
      if (1 <? List.length vs)%nat then Abstain else Done (PySet vs)
  | LDict items =>
      d <- (fix go (items : list (lit * lit)) (acc : dict) : res dict :=
              match items with
              | [] => Done acc
              | (k, v) :: r =>
                  kv <- convert k ;;
                  vv <- convert v ;;
                  if hashable kv then go r (dict_set acc kv vv) else Err TypeError
              end) items [] ;;
      Done (PyDict d)
  end.

Definition eval (s : string) : res pyval :=
  match s with
  | String c _ =>
      if is_blank c then Abstain
      else
        toks <- tokenize (S (String.length s)) s ;;
        '(l, r) <- parse_expr (S (List.length toks)) 32 toks ;;
        match r with
        | [] => convert l
        | _ => Abstain
        end
  | EmptyString => Err SyntaxError
  end.

Definition literal_eval (s : string) : pyresult pyval :=
  match eval s with
  | Done v => Ok v
  | Err e => Raise e
  | Abstain => Raise NotImplementedError
  end.

End LiteralFragment.

(* ------------------------------------------------------------------ *)
(** ** Display blocks and their reconstruction *)

Definition LONGRESPONSE : string :=
  "Response was too long for Slack. See attached llm_response.txt".

(** A Slack block: [block["type"]] and, for a section, [block["text"]["text"]]
    (the blocks the bot posts are sections with a text). *)
Record block : Type := { btype : string; btext : string }.

Definition section (text : string) : block :=
  {| btype := "section"; btext := text |}.
Definition divider : block := {| btype := "divider"; btext := "" |}.

(** [convert_to_blocks] of claude-slack-bot.py *)
Definition convert_to_blocks (text : string) : list block :=
  if negb (String.eqb text "") then [section text] else [].

(** [reconstruct_from_slackmsg] of claude-slack-bot.py: one round of its
    loop over the blocks, then the function. *)
Definition slackmsg_step (messages : list string) (b : block) : list string :=
  if String.eqb (btype b) "section" then
    let text := btext b in
    if startswith text LONGRESPONSE then messages else (messages ++ [text])%list
  else messages.

Definition reconstruct_from_slackmsg (blocks : list block) : string :=
  join nl (fold_left slackmsg_step blocks []).

Module ArtifactHandler.

(** The first place where a new line and a closing fence follow: what the
    lazy group before them takes. *)
Fixpoint scan_fence (s : string) : option string :=
  if startswith s (nl ++ "```") then Some EmptyString
  else match s with
       | EmptyString => None
       | String c s' =>
           match scan_fence s' with
           | Some body => Some (String c body)
           | None => None
           end
       end.

(** The match of the fenced-code pattern (an opening fence, a label of word
    characters, a new line, a lazy body, a new line and a closing fence) at
    the start of [text], with [re.DOTALL]: the label and the body. *)
Definition code_match (text : string) : option (string * string) :=
  if startswith text "```" then
    let '(language, r) := span is_word (drop 3 text) in
    match r with
    | String c r' =>
        if Ascii.eqb c (ascii_of_nat 10) then
          match scan_fence r' with
          | Some content => Some (language, content)
          | None => None
          end
        else None
    | EmptyString => None
    end
  else None.

Definition artifact_type (language : string) : string :=
  if String.eqb language "html" then "text/html"
  else if String.eqb language "xml" then "image/svg+xml"
  else if String.eqb language "mermaid" then "application/vnd.ant.mermaid"
  else "application/vnd.ant.code".

Definition artifact_tag (identifier type language content : string) : string :=
  "<antArtifact identifier=" ++ dq ++ identifier ++ dq ++ " "
  ++ "type=" ++ dq ++ type ++ dq ++ " language=" ++ dq ++ language ++ dq ++ " "
  ++ "title=" ++ dq ++ "Code Block" ++ dq ++ ">" ++ content ++ "</antArtifact>".

(** The truth value of [current_artifact]: [None] or a text. *)
Definition armed (current_artifact : option string) : bool :=
  match current_artifact with
  | Some s => negb (String.eqb s "")
  | None => false
  end.

(** One round of the loop of [reconstruct_artifacts] on its two variables. *)
Definition artifacts_step (st : list string * option string) (b : block)
  : list string * option string :=
  let '(messages, current_artifact) := st in
  if String.eqb (btype b) "section" then
    let text := btext b in
    match code_match text with
    | Some (language, content) =>
        if armed current_artifact then
          ((messages ++ [artifact_tag
                           (match current_artifact with Some s => s | None => "" end)
                           (artifact_type language) language content])%list,
           None)
        else (messages, current_artifact)
    | None => ((messages ++ [text])%list, current_artifact)
    end
  else if String.eqb (btype b) "divider" then
    (messages, Some ("block-" ++ of_nat (List.length messages)))
  else st.

Definition reconstruct_artifacts (blocks : list block) : string :=
  join nl (fst (fold_left artifacts_step blocks ([], None))).

(** An artifact: the dictionary [parse_artifacts] makes of a tag;
    [language] is [None] when the tag has none. *)
Record artifact : Type := {
  identifier : string;
  type : string;
  language : option string;
  title : string;
  content : string
}.

(** A fenced block: the f-string of [artifact_to_blocks]. *)
Definition fence (label content : string) : string :=
  "```" ++ label ++ nl ++ content ++ nl ++ "```".

(** [artifact['language'] or ''] *)
Definition language_or_empty (a : artifact) : string :=
  match language a with Some l => l | None => "" end.

(** [artifact_to_blocks] *)
Definition artifact_to_blocks (a : artifact) : list block :=
  ([divider; section ("*" ++ title a ++ "*")]
   ++ (if String.eqb (type a) "application/vnd.ant.code" then
         [section (fence (language_or_empty a) (content a))]
       else if String.eqb (type a) "text/markdown" then
         [section (content a)]
       else if String.eqb (type a) "text/html"
               || String.eqb (type a) "application/vnd.ant.react" then
         [section (fence "html" (content a))]
       else if String.eqb (type a) "image/svg+xml" then
         [section (fence "xml" (content a))]
       else if String.eqb (type a) "application/vnd.ant.mermaid" then
         [section (fence "mermaid" (content a))]
       else []))%list.

(** [convert_to_blocks] of artifact.py *)
Definition convert_to_blocks (text : string) (artifacts : list artifact)
  : list block :=
  ((if negb (String.eqb text "") then [section text] else [])
   ++ flat_map artifact_to_blocks artifacts)%list.

(** The pieces of [ARTIFACT_PATTERN].  White space, at least one
    character of it: what is left after it. *)
Definition spaces1 (s : string) : option string :=
  match span is_space s with
  | (EmptyString, _) => None
  | (_, r) => Some r
  end.

(** A literal text: what is left after it. *)
Definition literal (p s : string) : option string :=
  if startswith s p then Some (drop (String.length p) s) else None.

Definition not_quote (c : ascii) : bool := negb (Ascii.eqb c (ascii_of_nat 34)).

(** A group of one or more characters other than the double quote, and
    the double quote that closes it. *)
Definition quoted_value (s : string) : option (string * string) :=
  match span not_quote s with
  | (EmptyString, _) => None
  | (v, String _ r) => Some (v, r)
  | (_, EmptyString) => None
  end.

(** An attribute: its name, the equals sign and its quoted value. *)
Definition attribute (name s : string) : option (string * string) :=
  match literal (name ++ "=" ++ dq) s with
  | Some r => quoted_value r
  | None => None
  end.

(** The lazy group of the content: it ends at the first place where
    optional white space and the closing tag follow. *)
Fixpoint scan_end (s : string) : option (string * string) :=
  if startswith (lstrip s) "</antArtifact>" then
    Some (EmptyString, drop 14 (lstrip s))
  else match s with
       | EmptyString => None
       | String c s' =>
           match scan_end s' with
           | Some (body, rest) => Some (String c body, rest)
           | None => None
           end
       end.

(** The match of [ARTIFACT_PATTERN] at the start of [s]: the artifact of
    its groups, and what is left of [s] after the match. *)
Definition ARTIFACT_PATTERN (s : string) : option (artifact * string) :=
  match literal "<antArtifact" s with
  | None => None
  | Some r =>
  match spaces1 r with
  | None => None
  | Some r =>
  match attribute "identifier" r with
  | None => None
  | Some (identifier, r) =>
  match spaces1 r with
  | None => None
  | Some r =>
  match attribute "type" r with
  | None => None
  | Some (type, r) =>
  match spaces1 r with
  | None => None
  | Some r =>
  let '(language, r) :=
    match attribute "language" r with
    | Some (language, r') => (Some language, r')
    | None => (None, r)
    end in
  match attribute "title" (lstrip r) with
  | None => None
  | Some (title, r) =>
  match literal ">" r with
  | None => None
  | Some r =>
  match scan_end (lstrip r) with
  | None => None
  | Some (content, r) =>
      Some ({| identifier := identifier; type := type; language := language;
               title := title; content := content |}, r)
  end end end end end end end end end.

(** [ARTIFACT_PATTERN.finditer(text)]: the matches from left to right,
    each with the text it covers; a position where the pattern does not
    match is passed over.  A match is not empty, so the length of the text
    and one more is fuel enough. *)
Fixpoint finditer (fuel : nat) (s : string) : list (artifact * string) :=
  match fuel with
  | O => []
  | S fuel' =>
      match ARTIFACT_PATTERN s with
      | Some (a, rest) =>
          (a, take (String.length s - String.length rest) s)
          :: finditer fuel' rest
      | None =>
          match s with
          | EmptyString => []
          | String _ s' => finditer fuel' s'
          end
      end
  end.

(** [s.replace(old, "")] for a text [old] that is not empty; [skip] counts
    the characters of an occurrence still to pass over. *)
Fixpoint remove_from (old : string) (skip : nat) (s : string) : string :=
  match s with
  | EmptyString => EmptyString
  | String c s' =>
      match skip with
      | S k => remove_from old k s'
      | O =>
          if startswith s old
          then remove_from old (String.length old - 1) s'
          else String c (remove_from old 0 s')
      end
  end.

Definition remove (old s : string) : string := remove_from old 0 s.

(** [parse_artifacts] *)
Definition parse_artifacts (text : string) : string * list artifact :=
  let found := finditer (S (String.length text)) text in
  (strip (fold_left (fun cleaned_text m => remove (snd m) cleaned_text)
            found text),
   map fst found).

End ArtifactHandler.

(* ------------------------------------------------------------------ *)
(** ** Messages, conversation turns and the services *)

(** A Slack message as the code reads it: [msg.get(key)] for each key it
    uses, [None] when the key is absent; absent [files] and [blocks] are the
    empty list, which the code treats alike. *)
Record message : Type := {
  msg_user : option string;
  msg_text : option string;
  msg_ts : option string;
  msg_thread_ts : option string;
  msg_subtype : option string;
  msg_files : list string;
  msg_blocks : list block
}.

(** The empty dictionary [{}]. *)
Definition no_message : message :=
  {| msg_user := None; msg_text := None; msg_ts := None; msg_thread_ts := None;
     msg_subtype := None; msg_files := []; msg_blocks := [] |}.

Inductive role_t : Type := user | assistant.

(** A content part of a request, with its [cache_control] mark. *)
Inductive content_part : Type :=
| TextPart (text : string) (cache_control : bool)
| ImagePart (media_type data : string) (cache_control : bool)
| DocumentPart (media_type data : string) (cache_control : bool).

Record turn : Type := { role : role_t; content : list content_part }.

(** The [system] argument of a request: the bot's own prompt (no part
    stands for the empty text) or the value of the [system] option. *)
Inductive system_arg : Type :=
| SystemPrompt (parts : list content_part)
| SystemOption (v : pyval).

(** What Slack and the model answer.  [attachment f] is what
    [client.files_info] and [download_and_encode_file] make of the file
    [f]: a part, or nothing when either fails. *)
Record Client : Type := {
  conversations_replies : string -> option string -> pyresult (list message);
  attachment : string -> option content_part;
  messages_create : system_arg -> list turn -> pyval -> pyresult string;
  files_upload_v2 :
    string -> string -> string -> option string -> pyresult (option string)
}.

(** The calls that change something, as the handler makes them.  [Say] is
    the reply with the answer; [SayError e] is the reply of the handler's
    [except] clause, whose text reports the exception [e]. *)
Inductive action : Type :=
| ReactionsAdd (channel : string) (ts : string)
| ReactionsRemove (channel : string) (ts : string)
| MessagesCreate (system : system_arg) (messages : list turn)
    (temperature : pyval)
| FilesUpload (channel content filename : string) (thread_ts : option string)
| Say (text : string) (blocks : list block) (thread_ts : option string)
| SayError (e : exn) (thread_ts : option string)
| ChatDelete (channel : string) (ts : string).

Definition opt_eqb (a b : option string) : bool :=
  match a, b with
  | Some x, Some y => String.eqb x y
  | None, None => true
  | _, _ => false
  end.

(** [msg.get("text", "")] *)
Definition text_or_empty (o : option string) : string :=
  match o with Some s => s | None => "" end.

(** [AttachmentHandler.process_attachments] *)
Definition process_attachments (client : Client) (files : list string)
  : list content_part :=
  match files with
  | [] => []
  | _ =>
      fold_left
        (fun file_contents file =>
           match attachment client file with
           | Some processed => (file_contents ++ [processed])%list
           | None => file_contents
           end)
        files []
  end.

(* ------------------------------------------------------------------ *)
(** ** ClaudeBot.format_thread *)

Section FormatThread.

Variable bot_user_id : string.
Variable client : Client.

(** [ClaudeBot.is_aside] *)
Definition is_aside (text : string) : bool :=
  startswith (lower (strip text)) "@aside".

(** The first test of the loop: the message is neither the bot's nor the
    initiator's, and the thread is not public. *)
Definition hidden (initiator_id : option string) (config : dict)
    (msg : message) : bool :=
  let user := msg_user msg in
  negb (opt_eqb user (Some bot_user_id))
  && (negb (opt_eqb user initiator_id)
      && negb (truthy_opt (dict_get config IS_PUBLIC))).

(** The body after the bot's blocks have replaced it, where they do. *)
Definition body_of (msg : message) : option string :=
  if opt_eqb (msg_user msg) (Some bot_user_id)
     && negb (Nat.eqb (List.length (msg_blocks msg)) 0)
  then
    let blocktxt := reconstruct_from_slackmsg (msg_blocks msg) in
    if negb (String.eqb blocktxt "") then Some blocktxt else msg_text msg
  else msg_text msg.

(** [formatted_content] at the end of a round. *)
Definition message_content (msg : message) : list content_part :=
  let text_part :=
    match body_of msg with
    | Some text =>
        if negb (String.eqb text "") && negb (startswith text LONGRESPONSE)
        then [TextPart text false] else []
    | None => []
    end in
  let file_contents :=
    match msg_files msg with
    | [] => []
    | files => process_attachments client files
    end in
  (text_part ++ file_contents)%list.

(** One round of the loop: the turn it appends, if any. *)
Definition format_message (initiator_id : option string) (config : dict)
    (msg : message) : option turn :=
  if hidden initiator_id config msg then None
  else if is_aside (text_or_empty (msg_text msg)) then None
  else
    let formatted_content := message_content msg in
    if Nat.eqb (List.length formatted_content) 0 then None
    else Some {| role := if opt_eqb (msg_user msg) (Some bot_user_id)
                         then assistant else user;
                 content := formatted_content |}.

Definition format_messages (initiator_id : option string) (config : dict)
    (messages : list message) : list turn :=
  fold_left
    (fun formatted_messages msg =>
       match format_message initiator_id config msg with
       | Some t => (formatted_messages ++ [t])%list
       | None => formatted_messages
       end)
    messages [].

(** [thread["messages"][0]] raises on a thread with no message. *)
Definition format_thread (thread : list message) (config : dict)
  : pyresult (list turn) :=
  match thread with
  | [] => Raise IndexError
  | first_msg :: _ => Ok (format_messages (msg_user first_msg) config thread)
  end.

End FormatThread.

(* ------------------------------------------------------------------ *)
(** ** Effects: the log of calls, and exceptions *)

(** A computation of the handler: the calls it made, in order, and its
    outcome. *)
Definition M (A : Type) : Type := list action * pyresult A.

Definition ret {A : Type} (a : A) : M A := ([], Ok a).

Definition lift {A : Type} (r : pyresult A) : M A := ([], r).

Definition act (a : action) : M unit := ([a], Ok tt).

Definition bindM {A B : Type} (m : M A) (f : A -> M B) : M B :=
  match m with
  | (log, Ok a) => let '(log', r) := f a in ((log ++ log')%list, r)
  | (log, Raise e) => (log, Raise e)
  end.

(** [try: m except Exception as e: handler(e)] *)
Definition try_except {A : Type} (m : M A) (handler : exn -> M A) : M A :=
  match m with
  | (log, Raise e) => let '(log', r) := handler e in ((log ++ log')%list, r)
  | (log, Ok a) => (log, Ok a)
  end.

(** [d[key]] on a key that may be absent. *)
Definition subscript {A : Type} (o : option A) : pyresult A :=
  match o with Some a => Ok a | None => Raise KeyError end.

Notation "x <- m ;; k" := (bindM m (fun x => k))
  (at level 61, m at next level, right associativity).
Notation "m ;;; k" := (bindM m (fun _ => k))
  (at level 61, right associativity).

(** [for x in l: body(x)] *)
Fixpoint for_each {A : Type} (l : list A) (body : A -> M unit) : M unit :=
  match l with
  | [] => ret tt
  | x :: rest => body x ;;; for_each rest body
  end.

(* ------------------------------------------------------------------ *)
(** ** upload_snippet and handle_large_response *)

Definition TRUNCATED : string := nl ++ "... [Response truncated]".

(** The truth value of [response["file"]] is that of the option. *)
Definition upload_snippet (client : Client) (channel content filename : string)
    (thread_ts : option string) : M (option string) :=
  try_except
    (act (FilesUpload channel content filename thread_ts) ;;;
     lift (files_upload_v2 client channel content filename thread_ts))
    (fun _ => ret None).

Definition handle_large_response (text : string) (client : Client)
    (channel : string) (thread_ts : option string)
  : M (string * option string) :=
  if (String.length text <=? 3000)%nat then ret (text, None)
  else
    file <- upload_snippet client channel text "llm_response.txt" thread_ts ;;
    match file with
    | Some f => ret (LONGRESPONSE, Some f)
    | None => ret (take 2950 text ++ TRUNCATED, None)
    end.

(* ------------------------------------------------------------------ *)
(** ** Events and the handlers *)

(** A Slack event: its subtype and channel, the message fields the event
    itself carries, and its [message] and [previous_message] when it has
    them. *)
Record event : Type := {
  ev_subtype : option string;
  ev_channel : string;
  ev_fields : message;
  ev_message : option message;
  ev_previous_message : option message
}.

(** [event.get(key, {})] *)
Definition message_or_empty (o : option message) : message :=
  match o with Some m => m | None => no_message end.

(** The truth value of a text that may be absent. *)
Definition truthy_text (o : option string) : bool :=
  match o with Some s => negb (String.eqb s "") | None => false end.

Definition set_cache (p : content_part) : content_part :=
  match p with
  | TextPart t _ => TextPart t true
  | ImagePart m d _ => ImagePart m d true
  | DocumentPart m d _ => DocumentPart m d true
  end.

(** [content[-1]["cache_control"] = ...] *)
Fixpoint mark_last (l : list content_part) : list content_part :=
  match l with
  | [] => []
  | [p] => [set_cache p]
  | p :: rest => p :: mark_last rest
  end.

(** The loop of [apply_cache_headers] over the reversed messages: the
    first user turn with more than one part gets the mark. *)
Fixpoint mark_first_turn (reversed : list turn) : list turn :=
  match reversed with
  | [] => []
  | t :: rest =>
      match role t with
      | user =>
          if (1 <? List.length (content t))%nat
          then {| role := user; content := mark_last (content t) |} :: rest
          else t :: mark_first_turn rest
      | assistant => t :: mark_first_turn rest
      end
  end.

Section Handlers.

Variable bot_user_id : string.
(** The text of [self.system_prompt], empty when the bot has none. *)
Variable system_prompt : string.
Variable literal_eval : string -> pyresult pyval.
(** [float] on a text, and [>=] on floats. *)
Variable float_t : Type.
Variable py_float : string -> pyresult float_t.
Variable float_ge : float_t -> float_t -> bool.

Definition is_bot (msg : message) : bool :=
  opt_eqb (msg_user msg) (Some bot_user_id).

(** The generator given to [next]: the index of the first message whose
    time stamp is at least [deleted_ts], counting from [i]. *)
Fixpoint find_after (deleted_ts : float_t) (messages : list message) (i : nat)
  : pyresult (option nat) :=
  match messages with
  | [] => Ok None
  | msg :: rest =>
      match subscript (msg_ts msg) with
      | Raise e => Raise e
      | Ok ts =>
          match py_float ts with
          | Raise e => Raise e
          | Ok t =>
              if float_ge t deleted_ts then Ok (Some i)
              else find_after deleted_ts rest (S i)
          end
      end
  end.

(** The body of the last loop of [handle_message_deleted] for one message. *)
Definition delete_if_bot (channel : string) (msg : message) : M unit :=
  if is_bot msg then
    try_except
      (ts <- lift (subscript (msg_ts msg)) ;; act (ChatDelete channel ts))
      (fun _ => ret tt)
  else ret tt.

Definition handle_message_deleted (event : event) (client : Client) : M unit :=
  try_except
    (let previous_message := message_or_empty (ev_previous_message event) in
     let thread_ts := msg_thread_ts previous_message in
     if negb (truthy_text thread_ts) then ret tt
     else if opt_eqb (msg_subtype previous_message) (Some "tombstone") then ret tt
     else
       messages <- lift (conversations_replies client (ev_channel event)
                           thread_ts) ;;
       previous <- lift (subscript (ev_previous_message event)) ;;
       ts <- lift (subscript (msg_ts previous)) ;;
       deleted_ts <- lift (py_float ts) ;;
       after_deleted_idx <- lift (find_after deleted_ts messages 0) ;;
       match after_deleted_idx with
       | None => ret tt
       | Some idx =>
           for_each (skipn idx messages) (delete_if_bot (ev_channel event))
       end)
    (fun _ => ret tt).

(** [apply_cache_headers]: the messages and the system prompt, marked. *)
Definition apply_cache_headers (messages : list turn)
  : list turn * list content_part :=
  (rev (mark_first_turn (rev messages)),
   if negb (String.eqb system_prompt "") then [TextPart system_prompt true]
   else []).

(** [l[-1]] *)
Definition last_item {A : Type} (l : list A) : pyresult A :=
  match rev l with
  | x :: _ => Ok x
  | [] => Raise IndexError
  end.

Definition is_assistant (t : turn) : bool :=
  match role t with assistant => true | user => false end.

(** What [handle_message] does once it has the messages of the request. *)
Definition call_claude (event : event) (client : Client) (msg : message)
    (thread_ts : option string) (config : dict) (formatted_messages : list turn)
  : M unit :=
  let '(msgs, sysprompt) := apply_cache_headers formatted_messages in
  let sysprompt :=
    match dict_get config (PyStr "system") with
    | Some v => SystemOption v
    | None => SystemPrompt sysprompt
    end in
  if match dict_get config (PyStr "claude") with
     | Some v => eq_False v
     | None => false
     end
  then ret tt
  else
    ts <- lift (subscript (msg_ts msg)) ;;
    act (ReactionsAdd (ev_channel event) ts) ;;;
    let temperature :=
      match dict_get config (PyStr "temperature") with
      | Some v => v
      | None => PyFloat (7 # 10)
      end in
    act (MessagesCreate sysprompt msgs temperature) ;;;
    response_text <- lift (messages_create client sysprompt msgs temperature) ;;
    act (ReactionsRemove (ev_channel event) ts) ;;;
    r <- handle_large_response response_text client (ev_channel event)
           thread_ts ;;
    let '(cleaned_text, file) := r in
    match file with
    | Some _ => ret tt
    | None =>
        let blocks := convert_to_blocks cleaned_text in
        act (Say (take 3000 cleaned_text) blocks thread_ts)
    end.

(** The first message of a thread with its text replaced. *)
Definition set_first_text (thread : list message) (text : string)
  : list message :=
  match thread with
  | [] => []
  | m :: rest =>
      {| msg_user := msg_user m; msg_text := Some text; msg_ts := msg_ts m;
         msg_thread_ts := msg_thread_ts m; msg_subtype := msg_subtype m;
         msg_files := msg_files m; msg_blocks := msg_blocks m |} :: rest
  end.

(** The branch of a message that starts a thread. *)
Definition new_thread (event : event) (client : Client) (msg : message)
    (thread_ts : option string) : M unit :=
  r <- lift (parse_config_block bot_user_id literal_eval
               (text_or_empty (msg_text msg))) ;;
  let '(text, config) := r in
  if negb (truthy_opt (dict_get config IS_BOT_MENTION)) then ret tt
  else
    thread_initiator <- lift (subscript (msg_user msg)) ;;
    let initial_content :=
      ([TextPart text false]
       ++ match msg_files msg with
          | [] => []
          | files => process_attachments client files
          end)%list in
    let formatted_messages := [{| role := user; content := initial_content |}] in
    call_claude event client msg thread_ts config formatted_messages.

(** The branch of a message in a thread. *)
Definition thread_reply (event : event) (client : Client) (msg : message)
    (thread_ts : option string) : M unit :=
  thread <- lift (conversations_replies client (ev_channel event) thread_ts) ;;
  first_msg <- lift (match thread with
                     | m :: _ => Ok m
                     | [] => Raise IndexError
                     end) ;;
  r <- lift (parse_config_block bot_user_id literal_eval
               (text_or_empty (msg_text first_msg))) ;;
  let '(first_msg_txt, config) := r in
  if negb (truthy_opt (dict_get config IS_BOT_MENTION)) then ret tt
  else
    let thread_initiator := msg_user first_msg in
    differs <- (if negb (truthy_opt (dict_get config IS_PUBLIC)) then
                  u <- lift (subscript (msg_user msg)) ;;
                  ret (negb (opt_eqb (Some u) thread_initiator))
                else ret false) ;;
    if differs then ret tt
    else
      let thread := set_first_text thread first_msg_txt in
      formatted_messages <-
        lift (format_thread bot_user_id client thread config) ;;
      last_message <- lift (last_item formatted_messages) ;;
      if is_assistant last_message then ret tt
      else call_claude event client msg thread_ts config formatted_messages.

(** The message the handler works on: the event itself, or its [message]
    when the event is an edit. *)
Definition event_message (event : event) : message :=
  if negb (opt_eqb (ev_subtype event) (Some "message_changed"))
  then ev_fields event
  else message_or_empty (ev_message event).

(** [msg.get("thread_ts", msg.get("ts"))] *)
Definition event_thread_ts (event : event) : option string :=
  match msg_thread_ts (event_message event) with
  | Some t => Some t
  | None => msg_ts (event_message event)
  end.

(** The event is a deletion, or the edit that leaves a tombstone. *)
Definition is_deletion (event : event) : bool :=
  opt_eqb (ev_subtype event) (Some "message_deleted")
  || (opt_eqb (ev_subtype event) (Some "message_changed")
      && opt_eqb (msg_subtype (message_or_empty (ev_message event)))
           (Some "tombstone")).

(** The event is an edit that leaves the text as it was. *)
Definition is_noop_edit (event : event) : bool :=
  opt_eqb (ev_subtype event) (Some "message_changed")
  && match msg_text (message_or_empty (ev_previous_message event)),
           msg_text (message_or_empty (ev_message event)) with
     | Some a, Some b => String.eqb a b
     | _, _ => false
     end.

Definition handle_message (event : event) (client : Client) : M unit :=
  let msg := event_message event in
  let thread_ts := event_thread_ts event in
  try_except
    (if is_deletion event then handle_message_deleted event client
     else if is_noop_edit event then ret tt
     else
       match msg_thread_ts msg with
       | None => new_thread event client msg thread_ts
       | Some _ => thread_reply event client msg thread_ts
       end)
    (fun e => act (SayError e thread_ts)).

End Handlers.

Arguments find_after {float_t} py_float float_ge deleted_ts messages i.
Arguments handle_message_deleted bot_user_id {float_t} py_float float_ge
  event client.
Arguments handle_message bot_user_id system_prompt literal_eval {float_t}
  py_float float_ge event client.

(* ------------------------------------------------------------------ *)
(** ** AttachmentHandler, with its cache *)

(** The entry [response["file"]] of [client.files_info]: [file_info.get(key)]
    for each key the code reads. *)
Record file_info : Type := {
  fi_mimetype : option string;
  fi_name : option string;
  fi_thumb_1024 : option string;
  fi_url_private : option string;
  fi_pretty_type : option string
}.

(** What Slack answers about a file, and what a download of a URL gives
    ([requests.get] followed by [raise_for_status]): the bytes, as a text
    of code points below 256. *)
Record Files : Type := {
  files_info : string -> pyresult file_info;
  requests_get : string -> pyresult string
}.

(** The store [cache], from URLs to contents. *)
Definition cache_t : Type := list (string * string).

(** [cache[url]] when [url in cache] *)
Fixpoint cache_get (cache : cache_t) (url : string) : option string :=
  match cache with
  | [] => None
  | (k, v) :: cache' => if String.eqb k url then Some v else cache_get cache' url
  end.

(** [cache[url] = content] *)
Definition cache_set (cache : cache_t) (url content : string) : cache_t :=
  (url, content) :: cache.

Module AttachmentHandler.

Section WithLibrary.

(** [base64.b64encode(content).decode('utf-8')] and
    [content.decode('utf-8', errors='replace')] of the Python library. *)
Variable b64encode : string -> string.
Variable decode : string -> string.
Variable files : Files.

(** [file_info.get("name", "unnamed")] *)
Definition name_or_unnamed (file_info : file_info) : string :=
  match fi_name file_info with Some n => n | None => "unnamed" end.

(** The URL the content is read from: an image's [thumb_1024] when it has
    one, else [file_info["url_private"]]. *)
Definition file_url (file_info : file_info) (is_image : bool)
  : pyresult string :=
  if is_image then
    if truthy_text (fi_thumb_1024 file_info)
    then subscript (fi_thumb_1024 file_info)
    else subscript (fi_url_private file_info)
  else subscript (fi_url_private file_info).

(** The content of [url], from the cache or downloaded and stored: the
    cache as it is left, the URLs requested, and the content. *)
Definition file_content (cache : cache_t) (url : string)
  : cache_t * list string * pyresult string :=
  match cache_get cache url with
  | Some content => (cache, [], Ok content)
  | None =>
      match requests_get files url with
      | Ok content => (cache_set cache url content, [url], Ok content)
      | Raise e => (cache, [url], Raise e)
      end
  end.

(** The part made of the content. *)
Definition file_part (file_info : file_info) (mimetype : string)
    (is_image : bool) (filename content : string) : pyresult content_part :=
  if is_image || String.eqb mimetype "application/pdf" then
    let encoded := b64encode content in
    Ok (if is_image then ImagePart mimetype encoded false
        else DocumentPart mimetype encoded false)
  else if String.eqb filename "llm_response.txt" then
    Ok (TextPart (decode content) false)
  else if startswith mimetype "text/" then
    let text_content := decode content in
    match fi_pretty_type file_info with
    | Some pretty_type =>
        Ok (TextPart ("[" ++ pretty_type ++ " content from " ++ filename ++ "]:"
                      ++ nl ++ nl ++ text_content) false)
    | None => Raise KeyError
    end
  else Ok (TextPart ("[Attached file: " ++ name_or_unnamed file_info ++ "]" ++ nl)
             false).

(** [download_and_encode_file]: any exception gives [None]. *)
Definition download_and_encode_file (cache : cache_t) (file_info : file_info)
  : cache_t * list string * option content_part :=
  match fi_mimetype file_info with
  | None => (cache, [], None)
  | Some mimetype =>
      let is_image := startswith mimetype "image/" in
      let filename := name_or_unnamed file_info in
      match file_url file_info is_image with
      | Raise _ => (cache, [], None)
      | Ok url =>
          match file_content cache url with
          | (cache, requested, Raise _) => (cache, requested, None)
          | (cache, requested, Ok content) =>
              match file_part file_info mimetype is_image filename content with
              | Ok processed => (cache, requested, Some processed)
              | Raise _ => (cache, requested, None)
              end
          end
      end
  end.

(** One round of the loop of [process_attachments] on the cache, the URLs
    requested so far and [file_contents]. *)
Definition attach_step (st : cache_t * list string * list content_part)
    (file : string) : cache_t * list string * list content_part :=
  let '(cache, requested, file_contents) := st in
  match files_info files file with
  | Raise _ => st
  | Ok file_info =>
      let '(cache, requested', processed) :=
        download_and_encode_file cache file_info in
      (cache, (requested ++ requested')%list,
       match processed with
       | Some processed => (file_contents ++ [processed])%list
       | None => file_contents
       end)
  end.

(** [process_attachments] *)
Definition process_attachments (cache : cache_t) (file_ids : list string)
  : cache_t * list string * list content_part :=
  fold_left attach_step file_ids (cache, [], []).

End WithLibrary.

End AttachmentHandler.

(* ------------------------------------------------------------------ *)
(** ** The vocabulary of the statements *)


(** No [}}] starts inside [b] when [}}] follows it. *)
Fixpoint no_close_in (b : string) : bool :=
  match b with
  | EmptyString => true
  | String c b' => negb (startswith (b ++ "}}") "}}") && no_close_in b'
  end.

(** The body of a block as the pattern delimits it: at least one character,
    and the [}}] that closes it is the first one after that character. *)
Definition ends_at_first_close (body : string) : bool :=
  match body with
  | EmptyString => false
  | String _ b => no_close_in b
  end.

(** The tokens that may lead a message. *)
Inductive prefix_token : Type := BotMention | PublicFlag.

Definition flag_of (t : prefix_token) : pyval :=
  match t with BotMention => IS_BOT_MENTION | PublicFlag => IS_PUBLIC end.

(** The structurally-set flags of a list of leading tokens, each with the
    white space before it. *)
Definition flags_of (toks : list (string * prefix_token)) : dict :=
  fold_left (fun c wt => dict_set c (flag_of (snd wt)) (PyBool true)) toks [].

Section Tokens.

Variable bot_user_id : string.

Definition token_text (t : prefix_token) : string :=
  match t with
  | BotMention => bot_mention bot_user_id
  | PublicFlag => public_flag
  end.

(** The text [s] behind the leading tokens [toks]. *)
Fixpoint prefixed (toks : list (string * prefix_token)) (s : string) : string :=
  match toks with
  | [] => s
  | (w, t) :: rest => w ++ token_text t ++ prefixed rest s
  end.

End Tokens.

(** The section blocks [reconstruct_from_slackmsg] keeps. *)
Definition kept_section (b : block) : bool :=
  String.eqb (btype b) "section" && negb (startswith (btext b) LONGRESPONSE).

(** A section block both reconstructions pass through as it is. *)
Definition plain_block (b : block) : Prop :=
  btype b = "section" ->
  ArtifactHandler.code_match (btext b) = None
  /\ startswith (btext b) LONGRESPONSE = false.

(** The turn a round of the loop of [format_thread] adds, as a list. *)
Definition turn_of (o : option turn) : list turn :=
  match o with Some t => [t] | None => [] end.

Section Deletions.

Variable bot_user_id : string.
Variable float_t : Type.
Variable py_float : string -> pyresult float_t.
Variable float_ge : float_t -> float_t -> bool.

(** The calls the last loop of [handle_message_deleted] makes on the
    messages it is given: one for each message of the bot. *)
Definition deletions (channel : string) (messages : list message)
  : list action :=
  flat_map
    (fun msg =>
       if is_bot bot_user_id msg then
         match msg_ts msg with
         | Some ts => [ChatDelete channel ts]
         | None => []
         end
       else [])
    messages.

(** The time stamp of [msg] reads as a float that is at least [deleted_ts]. *)
Definition at_or_after (deleted_ts : float_t) (msg : message) : Prop :=
  exists ts t,
    msg_ts msg = Some ts /\ py_float ts = Ok t /\ float_ge t deleted_ts = true.

End Deletions.

Arguments at_or_after {float_t} py_float float_ge deleted_ts msg.

(** [p in s] *)
Fixpoint occurs (p s : string) : bool :=
  startswith s p
  || match s with
     | EmptyString => false
     | String _ s' => occurs p s'
     end.

(** The flags the loop of [parse_config_block] can set. *)
Definition structural_flag (kv : pyval * pyval) : Prop :=
  (fst kv = IS_BOT_MENTION \/ fst kv = IS_PUBLIC) /\ snd kv = PyBool true.

(** A reply posted in the channel, and a request to the model. *)
Definition is_reply (a : action) : bool :=
  match a with Say _ _ _ | SayError _ _ => true | _ => false end.

Definition is_request (a : action) : bool :=
  match a with MessagesCreate _ _ _ => true | _ => false end.

(** What a call of the handler for an event in [channel], answered under
    [thread_ts], may look like.  Of the reply that reports an exception
    only the thread is stated: the code gives it no blocks and a text it
    does not cut. *)
Definition well_formed (channel : string) (thread_ts : option string)
    (a : action) : Prop :=
  match a with
  | Say text blocks t =>
      blocks = convert_to_blocks text /\ String.length text <= 3000
      /\ t = thread_ts
  | SayError _ t => t = thread_ts
  | FilesUpload c content filename t =>
      c = channel /\ 3000 < String.length content
      /\ filename = "llm_response.txt" /\ t = thread_ts
  | ReactionsAdd c _ | ReactionsRemove c _ | ChatDelete c _ => c = channel
  | MessagesCreate _ _ _ => True
  end.

(** A turn [apply_cache_headers] may mark. *)
Definition wants_mark (t : turn) : bool :=
  match role t with
  | user => (1 <? List.length (content t))%nat
  | assistant => false
  end.

(** The three arguments of the request [handle_message] makes for the
    turns [turns] under the directive map [config]. *)
Definition request_system (system_prompt : string) (config : dict)
    (turns : list turn) : system_arg :=
  match dict_get config (PyStr "system") with
  | Some v => SystemOption v
  | None => SystemPrompt (snd (apply_cache_headers system_prompt turns))
  end.

Definition request_temperature (config : dict) : pyval :=
  match dict_get config (PyStr "temperature") with
  | Some v => v
  | None => PyFloat (7 # 10)
  end.

Definition request (system_prompt : string) (config : dict) (turns : list turn)
  : action :=
  MessagesCreate (request_system system_prompt config turns)
    (fst (apply_cache_headers system_prompt turns))
    (request_temperature config).

(** The turn [handle_message] makes of the message that starts a thread. *)
Definition initial_turn (client : Client) (msg : message) (text : string)
  : turn :=
  {| role := user;
     content := TextPart text false :: process_attachments client (msg_files msg) |}.

(** [config.get("claude") == False] *)
Definition claude_off (config : dict) : bool :=
  match dict_get config (PyStr "claude") with
  | Some v => eq_False v
  | None => false
  end.

(** A computation of the handler posts at most one reply, and none when it
    raises; it makes at most one request. *)
Definition tame (m : M unit) : Prop :=
  (filter is_reply (fst m) = []
   \/ (List.length (filter is_reply (fst m)) = 1 /\ snd m = Ok tt))
  /\ List.length (filter is_request (fst m)) <= 1.

Section Requests.

Variable bot_user_id : string.
Variable literal_eval : string -> pyresult pyval.

(** The events for which [handle_message] gets as far as the request, with
    the directive map and the turns it has then: a message that starts a
    thread and sets [is_bot_mention], and a reply in a thread whose first
    message does, by the initiator or in a public thread, when the last
    turn of the thread is not the assistant's. *)
Inductive reaches_request (event : event) (client : Client)
  : dict -> list turn -> Prop :=
| starts_thread (text author : string) (config : dict) :
    is_deletion event = false -> is_noop_edit event = false ->
    msg_thread_ts (event_message event) = None ->
    parse_config_block bot_user_id literal_eval
      (text_or_empty (msg_text (event_message event))) = Ok (text, config) ->
    truthy_opt (dict_get config IS_BOT_MENTION) = true ->
    msg_user (event_message event) = Some author ->
    reaches_request event client config
      [initial_turn client (event_message event) text]
| replies_in_thread (t author first_txt : string) (first_msg : message)
    (rest : list message) (config : dict) (turns : list turn)
    (last_turn : turn) :
    is_deletion event = false -> is_noop_edit event = false ->
    msg_thread_ts (event_message event) = Some t ->
    conversations_replies client (ev_channel event) (Some t)
    = Ok (first_msg :: rest) ->
    parse_config_block bot_user_id literal_eval
      (text_or_empty (msg_text first_msg)) = Ok (first_txt, config) ->
    truthy_opt (dict_get config IS_BOT_MENTION) = true ->
    msg_user (event_message event) = Some author ->
    truthy_opt (dict_get config IS_PUBLIC) = true
    \/ Some author = msg_user first_msg ->
    format_thread bot_user_id client
      (set_first_text (first_msg :: rest) first_txt) config = Ok turns ->
    last_item turns = Ok last_turn ->
    role last_turn = user ->
    reaches_request event client config turns.

End Requests.

Section AttachmentVocabulary.

Variable b64encode : string -> string.
Variable decode : string -> string.
Variable files : Files.

(** The part the file [file] gives when the cache is [cache]. *)
Definition attachment_of (cache : cache_t) (file : string)
  : option content_part :=
  match files_info files file with
  | Ok file_info =>
      snd (AttachmentHandler.download_and_encode_file b64encode decode files
             cache file_info)
  | Raise _ => None
  end.

(** The URL the content of the file [file] is read from. *)
Definition needs (file url : string) : Prop :=
  exists file_info mimetype,
    files_info files file = Ok file_info
    /\ fi_mimetype file_info = Some mimetype
    /\ AttachmentHandler.file_url file_info (startswith mimetype "image/")
       = Ok url.

(** What reading [url] gives: the cached content, else the download. *)
Definition content_at (cache : cache_t) (url : string) : pyresult string :=
  match cache_get cache url with
  | Some content => Ok content
  | None => requests_get files url
  end.

End AttachmentVocabulary.

(** Every character of [s] satisfies [p]. *)
Fixpoint all_chars (p : ascii -> bool) (s : string) : bool :=
  match s with
  | EmptyString => true
  | String c s' => p c && all_chars p s'
  end.

(** No new line followed by a closing fence starts inside [b] when they
    follow it. *)
Fixpoint no_fence_in (b : string) : bool :=
  match b with
  | EmptyString => true
  | String _ b' =>
      negb (startswith (b ++ nl ++ "```") (nl ++ "```")) && no_fence_in b'
  end.

(** At no place inside [b] do optional white space and the closing tag
    follow, when the closing tag follows [b]. *)
Fixpoint no_end_in (b : string) : bool :=
  match b with
  | EmptyString => true
  | String _ b' =>
      negb (startswith (lstrip (b ++ "</antArtifact>")) "</antArtifact>")
      && no_end_in b'
  end.

(** The label of the fenced block [artifact_to_blocks] makes of an
    artifact, for the types it fences. *)
Definition fence_label (a : ArtifactHandler.artifact) : option string :=
  let type := ArtifactHandler.type a in
  if String.eqb type "application/vnd.ant.code"
  then Some (ArtifactHandler.language_or_empty a)
  else if String.eqb type "text/markdown" then None
  else if String.eqb type "text/html"
          || String.eqb type "application/vnd.ant.react" then Some "html"
  else if String.eqb type "image/svg+xml" then Some "xml"
  else if String.eqb type "application/vnd.ant.mermaid" then Some "mermaid"
  else None.

Definition starred (title : string) : string := "*" ++ title ++ "*".

(** The lines [reconstruct_artifacts] makes of the blocks of an artifact
    when [n] lines come before them: the title and, for the types that
    have one, the body, as a tag named after [n] when it is a fenced
    block. *)
Definition artifact_lines (n : nat) (a : ArtifactHandler.artifact)
  : list string :=
  let body text :=
    match ArtifactHandler.code_match text with
    | Some (language, content) =>
        [ArtifactHandler.artifact_tag ("block-" ++ of_nat n)
           (ArtifactHandler.artifact_type language) language content]
    | None => [text]
    end in
  starred (ArtifactHandler.title a)
  :: match fence_label a with
     | Some label =>
         body (ArtifactHandler.fence label (ArtifactHandler.content a))
     | None =>
         if String.eqb (ArtifactHandler.type a) "text/markdown"
         then body (ArtifactHandler.content a)
         else []
     end.

(** The lines of a list of artifacts, [n] lines coming before them. *)
Fixpoint artifacts_lines (n : nat) (artifacts : list ArtifactHandler.artifact)
  : list string :=
  match artifacts with
  | [] => []
  | a :: rest =>
      (artifact_lines n a
       ++ artifacts_lines (n + List.length (artifact_lines n a)) rest)%list
  end.

(** A character other than [<]. *)
Definition not_lt (c : ascii) : bool := negb (Ascii.eqb "<" c).

(** Splits a conjunction into its parts, introducing nothing. *)
Ltac conjs := repeat match goal with |- _ /\ _ => split end.
(* ------------------------------------------------------------------ *)
(** ** Concrete messages, events and services *)

Definition example_bot : string := "U0BOT".

Definition example_parse : string -> pyresult (string * dict) :=
  parse_config_block example_bot LiteralFragment.literal_eval.

Definition fenced_example : list block :=
  [section "Here it is"; divider;
   section ("```py" ++ nl ++ "x = 1" ++ nl ++ "```")].

(** [float] on the texts of digits that denote a small integer (it abstains
    on every other text), and [>=] on those floats. *)
Definition digits_float (s : string) : pyresult N :=
  match s with
  | EmptyString => Raise ValueError
  | _ =>
      if (String.length s <=? 15)%nat
         && (fix all (s : string) : bool :=
               match s with
               | EmptyString => true
               | String c s' => LiteralFragment.is_digit c && all s'
               end) s
      then Ok (Z.to_N (LiteralFragment.digits_value s))
      else Raise NotImplementedError
  end.

Definition digits_ge (a b : N) : bool := N.leb b a.

Definition example_message (author : option string) (text ts : string)
  : message :=
  {| msg_user := author; msg_text := Some text; msg_ts := Some ts;
     msg_thread_ts := Some "1"; msg_subtype := None;
     msg_files := []; msg_blocks := [] |}.

(** Services that give the thread [thread], no attachment, the answer
    [answer], and a file for an upload when [upload_works]. *)
Definition example_client (thread : list message) (answer : string)
    (upload_works : bool) : Client :=
  {| conversations_replies := fun _ _ => Ok thread;
     attachment := fun _ => None;
     messages_create := fun _ _ _ => Ok answer;
     files_upload_v2 := fun _ _ _ _ =>
       if upload_works then Ok (Some "F1") else Raise SlackApiError |}.

Definition example_handle : event -> Client -> M unit :=
  handle_message example_bot "" LiteralFragment.literal_eval
    digits_float digits_ge.

Definition plain_event (msg : message) : event :=
  {| ev_subtype := None; ev_channel := "C1"; ev_fields := msg;
     ev_message := None; ev_previous_message := None |}.

Definition new_thread_event (text : string) : event :=
  plain_event {| msg_user := Some "U1"; msg_text := Some text; msg_ts := Some "1";
                 msg_thread_ts := None; msg_subtype := None;
                 msg_files := []; msg_blocks := [] |}.

Definition five_messages : list message :=
  [example_message (Some "U1") "<@U0BOT> hi" "1";
   example_message (Some "U0BOT") "hello" "2";
   example_message (Some "U1") "and this?" "3";
   example_message (Some "U0BOT") "this too" "4";
   example_message (Some "U1") "thanks" "5"].

Definition deletion_event (previous : message) : event :=
  {| ev_subtype := Some "message_deleted"; ev_channel := "C1";
     ev_fields := no_message; ev_message := None;
     ev_previous_message := Some previous |}.

Definition edited_thread : list message :=
  [example_message (Some "U1") "<@U0BOT> hi there" "1";
   example_message (Some "U0BOT") "hello" "2"].

Definition edit_event : event :=
  {| ev_subtype := Some "message_changed"; ev_channel := "C1";
     ev_fields := no_message;
     ev_message := Some (example_message (Some "U1") "<@U0BOT> hi there" "1");
     ev_previous_message :=
       Some (example_message (Some "U1") "<@U0BOT> hi" "1") |}.

Definition private_config : dict := [(IS_BOT_MENTION, PyBool true)].

Fixpoint repeat_text (n : nat) (s : string) : string :=
  match n with
  | O => EmptyString
  | S n' => s ++ repeat_text n' s
  end.

Definition long_text : string := repeat_text 3001 "a".

(** Services as those of [example_client], with a model that raises. *)
Definition failing_client (thread : list message) : Client :=
  {| conversations_replies := fun _ _ => Ok thread;
     attachment := fun _ => None;
     messages_create := fun _ _ _ => Raise APIError;
     files_upload_v2 := fun _ _ _ _ => Ok (Some "F1") |}.

Definition reply_thread : list message :=
  [example_message (Some "U1") "<@U0BOT> hi" "1";
   example_message (Some "U1") "more" "2"].

Definition aside_thread : list message :=
  [example_message (Some "U1") "<@U0BOT>" "1";
   example_message (Some "U1") "@aside a note" "2"].

Definition private_thread : list message :=
  [example_message (Some "U1") "<@U0BOT> hi" "1";
   example_message (Some "U2") "hello" "2"].

(** A thread for the bot, not public, whose last message but one is the
    bot's, and whose last message names no author. *)
Definition own_turn_thread : list message :=
  [example_message (Some "U1") "<@U0BOT> hi" "1";
   example_message (Some "U0BOT") "hello" "2";
   example_message None "ping" "3"].

(** A message of the bot. *)
Definition bot_message (text : string) (files : list string)
    (blocks : list block) : message :=
  {| msg_user := Some example_bot; msg_text := Some text; msg_ts := Some "2";
     msg_thread_ts := Some "1"; msg_subtype := None;
     msg_files := files; msg_blocks := blocks |}.

Module Base64.

(** [base64.b64encode(content).decode('utf-8')]: three bytes give four
    characters of the alphabet; one or two bytes left over are padded. *)
Definition alphabet : string :=
  "ABCDEFGHIJKLMNOPQRSTUVWXYZabcdefghijklmnopqrstuvwxyz0123456789+/".

Definition char (n : N) : ascii :=
  match String.get (N.to_nat n) alphabet with
  | Some c => c
  | None => "="%char
  end.

Fixpoint b64encode (s : string) : string :=
  match s with
  | EmptyString => EmptyString
  | String a EmptyString =>
      let n := (N_of_ascii a * 16)%N in
      String (char (n / 64)) (String (char (n mod 64)) "==")
  | String a (String b EmptyString) =>
      let n := ((N_of_ascii a * 256 + N_of_ascii b) * 4)%N in
      String (char (n / 4096))
        (String (char ((n / 64) mod 64)) (String (char (n mod 64)) "="))
  | String a (String b (String c s')) =>
      let n := ((N_of_ascii a * 256 + N_of_ascii b) * 256 + N_of_ascii c)%N in
      String (char (n / 262144))
        (String (char ((n / 4096) mod 64))
           (String (char ((n / 64) mod 64))
              (String (char (n mod 64)) (b64encode s'))))
  end.

End Base64.

(** [content.decode('utf-8', errors='replace')] on bytes below 128, which
    stand for themselves. *)
Definition decode_ascii (content : string) : string := content.

(** Three files: a text file, an image with a thumbnail, and the file of an
    overflowing answer.  About any other file, and for any other URL, the
    example raises. *)
Definition example_files : Files :=
  {| files_info := fun file =>
       if String.eqb file "F1" then
         Ok {| fi_mimetype := Some "text/plain"; fi_name := Some "notes.txt";
               fi_thumb_1024 := None;
               fi_url_private := Some "https://files/notes";
               fi_pretty_type := Some "Plain Text" |}
       else if String.eqb file "F2" then
         Ok {| fi_mimetype := Some "image/png"; fi_name := Some "shot.png";
               fi_thumb_1024 := Some "https://files/thumb";
               fi_url_private := Some "https://files/shot";
               fi_pretty_type := Some "PNG" |}
       else if String.eqb file "F3" then
         Ok {| fi_mimetype := Some "text/plain";
               fi_name := Some "llm_response.txt";
               fi_thumb_1024 := None;
               fi_url_private := Some "https://files/answer";
               fi_pretty_type := Some "Plain Text" |}
       else Raise SlackApiError;
     requests_get := fun url =>
       if String.eqb url "https://files/notes" then Ok "buy milk"
       else if String.eqb url "https://files/thumb" then Ok "PNG"
       else if String.eqb url "https://files/answer" then Ok "a long answer"
       else Raise NotImplementedError |}.

Definition example_attachment (cache : cache_t) : string -> option content_part :=
  attachment_of Base64.b64encode decode_ascii example_files cache.

(** Services whose attachments are those of [example_files]. *)
Definition attachment_client (cache : cache_t) : Client :=
  {| conversations_replies := fun _ _ => Ok [];
     attachment := example_attachment cache;
     messages_create := fun _ _ _ => Ok "answer";
     files_upload_v2 := fun _ _ _ _ => Ok (Some "F3") |}.

Definition example_artifact (language : option string)
  : ArtifactHandler.artifact :=
  {| ArtifactHandler.identifier := "sum";
     ArtifactHandler.type := "application/vnd.ant.code";
     ArtifactHandler.language := language;
     ArtifactHandler.title := "Sum";
     ArtifactHandler.content := "x = 1" |}.

(* ------------------------------------------------------------------ *)
(** ** Facts about texts *)

Lemma length_append (a b : string) :
  String.length (a ++ b) = String.length a + String.length b.
Proof. induction a as [|x a IH]; simpl; [reflexivity | now rewrite IH]. Qed.

Lemma length_take (n : nat) (s : string) : String.length (take n s) <= n.
Proof.
  revert s; induction n as [|n IH]; intros [|c s]; simpl; try lia.
  specialize (IH s); lia.
Qed.

Lemma length_drop (n : nat) (s : string) :
  String.length (drop n s) = String.length s - n.
Proof.
  revert s; induction n as [|n IH]; intros [|c s]; simpl; try lia.
  apply IH.
Qed.

Lemma drop_append (p s : string) : drop (String.length p) (p ++ s) = s.
Proof. induction p as [|c p IH]; simpl; [reflexivity | exact IH]. Qed.

Lemma startswith_append (p s : string) : startswith (p ++ s) p = true.
Proof.
  induction p as [|c p IH]; simpl; [reflexivity|].
  now rewrite Ascii.eqb_refl.
Qed.

Lemma startswith_inv (s p : string) :
  startswith s p = true -> s = p ++ drop (String.length p) s.
Proof.
  revert s; induction p as [|c p IH]; intros s H; simpl.
  - reflexivity.
  - destruct s as [|d s]; simpl in H; [discriminate|].
    apply andb_true_iff in H as [Hc Hs].
    apply Ascii.eqb_eq in Hc; subst d.
    f_equal; apply IH; exact Hs.
Qed.

Lemma startswith_head (s p : string) (c d : ascii) :
  Ascii.eqb c d = false -> startswith (String d s) (String c p) = false.
Proof. intros N; simpl. now rewrite N. Qed.

Lemma length_lstrip (s : string) : String.length (lstrip s) <= String.length s.
Proof.
  induction s as [|c s IH]; simpl; [lia|].
  destruct (is_space c); simpl; lia.
Qed.

Lemma length_rstrip (s : string) : String.length (rstrip s) <= String.length s.
Proof.
  induction s as [|c s IH]; simpl; [lia|].
  destruct (rstrip s); [destruct (is_space c)|]; simpl in *; lia.
Qed.

Lemma length_strip (s : string) : String.length (strip s) <= String.length s.
Proof.
  unfold strip.
  pose proof (length_rstrip (lstrip s)); pose proof (length_lstrip s); lia.
Qed.

Lemma lstrip_space_append (w s : string) :
  all_space w -> lstrip (w ++ s) = lstrip s.
Proof.
  unfold all_space; induction w as [|c w IH]; simpl; intros H; [reflexivity|].
  destruct (is_space c); [now apply IH | discriminate].
Qed.

Lemma strip_space_append (w s : string) : all_space w -> strip (w ++ s) = strip s.
Proof. intros H; unfold strip; now rewrite lstrip_space_append. Qed.

Lemma lstrip_head (c : ascii) (s : string) :
  is_space c = false -> lstrip (String c s) = String c s.
Proof. intros H; simpl; now rewrite H. Qed.

Lemma rstrip_cons (c : ascii) (s : string) :
  is_space c = false -> rstrip (String c s) = String c (rstrip s).
Proof.
  intros H; simpl; destruct (rstrip s); [now rewrite H | reflexivity].
Qed.

Lemma strip_cons (c : ascii) (s : string) :
  is_space c = false -> strip (String c s) = String c (rstrip s).
Proof.
  intros H; unfold strip; rewrite lstrip_head by exact H. now apply rstrip_cons.
Qed.

Lemma lstrip_idem (s : string) : lstrip (lstrip s) = lstrip s.
Proof.
  induction s as [|c s IH]; simpl; [reflexivity|].
  destruct (is_space c) eqn:E; [exact IH | simpl; now rewrite E].
Qed.

Lemma rstrip_idem (s : string) : rstrip (rstrip s) = rstrip s.
Proof.
  induction s as [|c s IH]; simpl; [reflexivity|].
  destruct (rstrip s) as [|d r] eqn:E.
  - destruct (is_space c) eqn:Ec; simpl; [reflexivity | now rewrite Ec].
  - simpl in *. now rewrite IH.
Qed.

Lemma lstrip_rstrip_head (s : string) :
  lstrip s = s -> lstrip (rstrip s) = rstrip s.
Proof.
  destruct s as [|c s]; simpl; [reflexivity|].
  destruct (is_space c) eqn:E.
  - intros H. pose proof (length_lstrip s) as L. rewrite H in L. simpl in L. lia.
  - intros _. destruct (rstrip s); simpl; now rewrite E.
Qed.

Lemma strip_idem (s : string) : strip (strip s) = strip s.
Proof.
  unfold strip.
  rewrite lstrip_rstrip_head by apply lstrip_idem.
  apply rstrip_idem.
Qed.

Lemma rstrip_append (a b : string) :
  rstrip b <> "" -> rstrip (a ++ b) = a ++ rstrip b.
Proof.
  intros Hb; induction a as [|c a IH]; simpl; [reflexivity|].
  rewrite IH. destruct (a ++ rstrip b) eqn:E; [|reflexivity].
  destruct a; simpl in E; [contradiction | discriminate].
Qed.

Lemma rstrip_append_has_text (a b : string) :
  rstrip b <> "" -> rstrip (a ++ b) <> "".
Proof.
  intros Hb; rewrite rstrip_append by exact Hb.
  destruct a; simpl; [exact Hb | discriminate].
Qed.

Lemma lstrip_rstrip_comm (s : string) : lstrip (rstrip s) = rstrip (lstrip s).
Proof.
  induction s as [|c s IH]; [reflexivity|].
  destruct (is_space c) eqn:E.
  - cbn [lstrip]; rewrite E, <- IH. cbn [rstrip].
    destruct (rstrip s); [now rewrite E | simpl; now rewrite E].
  - rewrite (lstrip_head c s E), (rstrip_cons c s E). now apply lstrip_head.
Qed.

Lemma strip_rstrip (s : string) : strip (rstrip s) = strip s.
Proof. unfold strip. now rewrite lstrip_rstrip_comm, rstrip_idem. Qed.







Lemma startswith_close_local (x r : string) :
  startswith (x ++ "}}" ++ r) "}}" = startswith (x ++ "}}") "}}".
Proof.
  destruct x as [|a [|b x]]; cbn [append startswith]; reflexivity.
Qed.

Lemma scan_close_first (b r : string) :
  no_close_in b = true -> scan_close (b ++ "}}" ++ r) = Some (b, r).
Proof.
  induction b as [|c b IH]; intros H.
  - reflexivity.
  - cbn [no_close_in] in H. apply andb_true_iff in H as [H1 H2].
    apply negb_true_iff in H1.
    change ((String c b ++ "}}" ++ r)) with (String c (b ++ "}}" ++ r)).
    cbn [scan_close].
    change (String c (b ++ "}}" ++ r)) with (String c b ++ "}}" ++ r).
    rewrite startswith_close_local, H1, (IH H2). reflexivity.
Qed.

Lemma strip_block (body rest : string) :
  strip ("{{" ++ body ++ "}}" ++ rest) = "{{" ++ body ++ "}}" ++ rstrip rest.
Proof.
  assert (Hc : forall s, rstrip ("}}" ++ s) = "}}" ++ rstrip s).
  { intros s. change ("}}" ++ s) with (String "}" (String "}" s)).
    now rewrite !rstrip_cons by reflexivity. }
  change ("{{" ++ body ++ "}}" ++ rest)
    with (String "{" (String "{" (body ++ "}}" ++ rest))).
  rewrite strip_cons by reflexivity.
  rewrite rstrip_cons by reflexivity.
  rewrite rstrip_append; [now rewrite Hc|].
  rewrite Hc. discriminate.
Qed.

Lemma match_config_block_first (body rest : string) :
  ends_at_first_close body = true ->
  match_config_block (strip ("{{" ++ body ++ "}}" ++ rest))
  = Some (body, strip rest).
Proof.
  intros H. rewrite strip_block.
  destruct body as [|c b]; [discriminate|]. cbn [ends_at_first_close] in H.
  unfold match_config_block.
  change ("{{" ++ String c b ++ "}}" ++ rstrip rest)
    with (String "{" (String "{" (String c (b ++ "}}" ++ rstrip rest)))).
  rewrite lstrip_head by reflexivity.
  cbn [startswith drop]. rewrite Ascii.eqb_refl. cbn [andb].
  rewrite scan_close_first by exact H.
  now rewrite lstrip_rstrip_comm.
Qed.

(* ------------------------------------------------------------------ *)
(** ** Facts about dictionaries and options *)

Lemma key_eq_str (k : pyval) (s : string) :
  key_eq k (PyStr s) = true <-> k = PyStr s.
Proof.
  destruct k; simpl; split; intros H; try discriminate.
  - apply String.eqb_eq in H. now subst.
  - injection H as ->. apply String.eqb_refl.
Qed.

Lemma dict_get_set_str (d : dict) (s t : string) (v : pyval) :
  dict_get (dict_set d (PyStr t) v) (PyStr s)
  = if String.eqb t s then Some v else dict_get d (PyStr s).
Proof.
  induction d as [|[k0 v0] d IH]; simpl.
  - reflexivity.
  - destruct (key_eq k0 (PyStr t)) eqn:Et; simpl.
    + apply key_eq_str in Et; subst k0; simpl.
      destruct (String.eqb t s); reflexivity.
    + rewrite IH.
      destruct (key_eq k0 (PyStr s)) eqn:Es; [|reflexivity].
      apply key_eq_str in Es; subst k0; simpl in Et.
      now rewrite String.eqb_sym, Et.
Qed.


Lemma dict_get_set_other (d : dict) (k v : pyval) (s : string) :
  key_eq k (PyStr s) = false ->
  dict_get (dict_set d k v) (PyStr s) = dict_get d (PyStr s).
Proof.
  intros Hk; induction d as [|[k0 v0] d IH]; simpl.
  - now rewrite Hk.
  - destruct (key_eq k0 k) eqn:E0; simpl; [|now rewrite IH].
    destruct (key_eq k0 (PyStr s)) eqn:Es; [|reflexivity].
    apply key_eq_str in Es; subst k0.
    (* a text key equals only that text *)
    destruct k; simpl in E0; try discriminate.
    apply String.eqb_eq in E0; subst s0.
    simpl in Hk. now rewrite String.eqb_refl in Hk.
Qed.

(** After [d.update(other)], a text key has the value [other] gives it (the
    last one, should [other] list the key twice), else the one it had. *)
Lemma dict_get_merge_str (other d : dict) (s : string) :
  dict_get (dict_merge d other) (PyStr s)
  = match dict_get (rev other) (PyStr s) with
    | Some v => Some v
    | None => dict_get d (PyStr s)
    end.
Proof.
  unfold dict_merge. revert d.
  induction other as [|[k v] other IH] using rev_ind; intros d; simpl.
  - reflexivity.
  - rewrite fold_left_app, rev_app_distr; simpl.
    destruct (key_eq k (PyStr s)) eqn:Ek.
    + apply key_eq_str in Ek; subst k.
      now rewrite dict_get_set_str, String.eqb_refl.
    + rewrite dict_get_set_other by exact Ek. apply IH.
Qed.

Lemma opt_eqb_eq (a b : option string) : opt_eqb a b = true <-> a = b.
Proof.
  destruct a, b; simpl; split; intros H; try discriminate; try reflexivity.
  - apply String.eqb_eq in H. now subst.
  - injection H as ->. apply String.eqb_refl.
Qed.

Lemma opt_eqb_neq (a b : option string) : opt_eqb a b = false <-> a <> b.
Proof.
  rewrite <- opt_eqb_eq. destruct (opt_eqb a b); split; intros H;
    try discriminate; try reflexivity; now elim H.
Qed.

Lemma In_skipn_nth {A : Type} (n : nat) (l : list A) (x : A) :
  In x (skipn n l) <-> exists i, n <= i /\ nth_error l i = Some x.
Proof.
  revert l; induction n as [|n IH]; intros l.
  - cbn [skipn]. split.
    + intros H. apply In_nth_error in H as [i H]. exists i. split; [lia | exact H].
    + intros (i & _ & H). eapply nth_error_In; exact H.
  - destruct l as [|y l]; cbn [skipn].
    + split; [intros [] | intros (i & _ & H); destruct i; discriminate].
    + rewrite IH. split.
      * intros (i & Hi & H). exists (S i). split; [lia | exact H].
      * intros (i & Hi & H). destruct i as [|i]; [lia|].
        exists i. split; [lia | exact H].
Qed.

(* ------------------------------------------------------------------ *)
(** ** What parse_config_block returns *)

Section ConfigBlockFacts.

Variable bot_user_id : string.
Variable literal_eval : string -> pyresult pyval.

(** The loop ends by its [break]: with the length of the text as fuel, what
    it returns is stripped and starts with neither token. *)
Lemma strip_prefixes_done (fuel : nat) (text : string) (config : dict) :
  String.length text <= fuel ->
  let t := fst (strip_prefixes bot_user_id fuel text config) in
  strip t = t /\ startswith t (bot_mention bot_user_id) = false
  /\ startswith t public_flag = false.
Proof.
  revert text config; induction fuel as [|fuel IH]; intros text config Hlen.
  - destruct text; [|simpl in Hlen; lia]. cbv. auto.
  - cbn [strip_prefixes].
    pose proof (length_strip text) as Hs.
    destruct (startswith (strip text) (bot_mention bot_user_id)) eqn:Eb.
    + apply IH.
      pose proof (length_strip
                    (drop (String.length (bot_mention bot_user_id)) (strip text))) as L.
      rewrite length_drop in L. apply startswith_inv in Eb.
      assert (L' : 2 <= String.length (bot_mention bot_user_id))
        by (unfold bot_mention; simpl; lia).
      assert (L2 : String.length (bot_mention bot_user_id)
                   <= String.length (strip text)).
      { rewrite Eb, length_append. lia. }
      lia.
    + destruct (startswith (strip text) public_flag) eqn:Ep.
      * apply IH.
        pose proof (length_strip
                      (drop (String.length public_flag) (strip text))) as L.
        rewrite length_drop in L. apply startswith_inv in Ep.
        assert (L2 : String.length public_flag <= String.length (strip text)).
        { rewrite Ep, length_append. lia. }
        change (String.length public_flag) with 7 in *. lia.
      * cbn [fst]. rewrite strip_idem. auto.
Qed.

Lemma loop_strip (fuel : nat) (x y : string) (config : dict) :
  strip x = strip y ->
  strip_prefixes bot_user_id fuel x config
  = strip_prefixes bot_user_id fuel y config.
Proof.
  intros H. destruct fuel; cbn [strip_prefixes]; now rewrite H.
Qed.

Lemma token_text_head (t : prefix_token) :
  exists c s, token_text bot_user_id t = String c s /\ is_space c = false.
Proof. destruct t; eexists _, _; (split; [reflexivity | reflexivity]). Qed.

Lemma prefixed_has_text (toks : list (string * prefix_token)) (s : string) :
  rstrip s <> "" -> rstrip (prefixed bot_user_id toks s) <> "".
Proof.
  intros Hs; induction toks as [|[w t] toks IH]; simpl; [exact Hs|].
  now apply rstrip_append_has_text, rstrip_append_has_text.
Qed.

Lemma strip_token (w : string) (t : prefix_token) (r : string) :
  all_space w -> rstrip r <> "" ->
  strip (w ++ token_text bot_user_id t ++ r)
  = token_text bot_user_id t ++ rstrip r.
Proof.
  intros Hw Hr. rewrite strip_space_append by exact Hw.
  destruct (token_text_head t) as (c & s & E & Hc). rewrite E.
  change (String c s ++ r) with (String c (s ++ r)).
  rewrite strip_cons by exact Hc. now rewrite rstrip_append.
Qed.

(** The loop removes the leading tokens and sets their flags. *)
Lemma loop_prefixed (toks : list (string * prefix_token)) :
  forall (fuel : nat) (w tail : string) (config : dict),
  Forall (fun wt => all_space (fst wt)) toks -> all_space w ->
  List.length toks <= fuel ->
  strip_prefixes bot_user_id fuel
    (prefixed bot_user_id toks (w ++ "{{" ++ tail)) config
  = (strip ("{{" ++ tail),
     fold_left (fun c wt => dict_set c (flag_of (snd wt)) (PyBool true))
       toks config).
Proof.
  assert (Ht : forall tail, rstrip ("{{" ++ tail) <> "").
  { intros tail. change ("{{" ++ tail) with (String "{" (String "{" tail)).
    rewrite rstrip_cons by reflexivity. discriminate. }
  induction toks as [|[w1 t] toks IH]; intros fuel w tail config Hall Hw Hfuel.
  - cbn [prefixed fold_left].
    assert (E : strip (w ++ "{{" ++ tail) = strip ("{{" ++ tail))
      by now apply strip_space_append.
    assert (Hb : startswith (strip ("{{" ++ tail)) (bot_mention bot_user_id) = false).
    { change ("{{" ++ tail) with (String "{" (String "{" tail)).
      rewrite strip_cons by reflexivity. apply startswith_head. reflexivity. }
    assert (Hp : startswith (strip ("{{" ++ tail)) public_flag = false).
    { change ("{{" ++ tail) with (String "{" (String "{" tail)).
      rewrite strip_cons by reflexivity. apply startswith_head. reflexivity. }
    destruct fuel; cbn [strip_prefixes]; rewrite E; [reflexivity|].
    now rewrite Hb, Hp.
  - destruct fuel as [|fuel]; [simpl in Hfuel; lia|].
    inversion Hall as [|? ? Hw1 Hall']; subst. cbn [fst] in Hw1.
    cbn [prefixed fold_left snd].
    set (R := prefixed bot_user_id toks (w ++ "{{" ++ tail)).
    assert (HR : rstrip R <> "").
    { apply prefixed_has_text. apply rstrip_append_has_text, Ht. }
    cbn [strip_prefixes].
    rewrite (strip_token w1 t R Hw1 HR).
    assert (Hnext : forall c,
              strip_prefixes bot_user_id fuel (strip (rstrip R)) c
              = strip_prefixes bot_user_id fuel R c).
    { intros c. apply loop_strip. now rewrite strip_idem, strip_rstrip. }
    destruct t; cbn [token_text flag_of].
    + rewrite startswith_append, drop_append, Hnext.
      apply IH; [exact Hall' | exact Hw | simpl in Hfuel; lia].
    + assert (Hb : startswith (public_flag ++ rstrip R)
                     (bot_mention bot_user_id) = false)
        by (apply startswith_head; reflexivity).
      rewrite Hb, startswith_append, drop_append, Hnext.
      apply IH; [exact Hall' | exact Hw | simpl in Hfuel; lia].
Qed.

Lemma length_prefixed (toks : list (string * prefix_token)) (s : string) :
  List.length toks <= String.length (prefixed bot_user_id toks s).
Proof.
  induction toks as [|[w t] toks IH]; simpl; [lia|].
  rewrite !length_append.
  destruct (token_text_head t) as (c & r & E & _). rewrite E. simpl. lia.
Qed.

(** When [literal_eval] raises one of the two exceptions the function
    handles, the whole text left after the leading tokens comes back, with
    the flags set so far. *)
Lemma parse_config_block_caught (text t0 : string) (flags : dict)
    (body rest : string) (e : exn) :
  strip_prefixes bot_user_id (String.length text) text [] = (t0, flags) ->
  match_config_block t0 = Some (body, rest) ->
  literal_eval ("{" ++ body ++ "}") = Raise e ->
  caught e = true ->
  parse_config_block bot_user_id literal_eval text = Ok (strip t0, flags).
Proof.
  intros Hl Hm He Hc. unfold parse_config_block.
  rewrite Hl, Hm, He, Hc. reflexivity.
Qed.

(** A block that evaluates to a set of integers: the exception of
    [config.update] leaves the function. *)
Lemma parse_config_block_int_set (text t0 : string) (flags : dict)
    (body rest : string) (z : Z) (l : list pyval) :
  strip_prefixes bot_user_id (String.length text) text [] = (t0, flags) ->
  match_config_block t0 = Some (body, rest) ->
  literal_eval ("{" ++ body ++ "}") = Ok (PySet (PyInt z :: l)) ->
  parse_config_block bot_user_id literal_eval text = Raise TypeError.
Proof.
  intros Hl Hm He. unfold parse_config_block.
  rewrite Hl, Hm, He. reflexivity.
Qed.

(** C3, as amended.  When the block of a text parses to a dictionary [d],
    the map returned gives every option name the value [d] gives it (the
    last one in [d], should [d] list the name twice), [is_bot_mention] like
    any other, and the structurally-set value only to the names [d] leaves
    out. *)
Theorem parsed_block_overrides_flags (text t0 : string) (flags d : dict)
    (body rest : string) :
  strip_prefixes bot_user_id (String.length text) text [] = (t0, flags) ->
  match_config_block t0 = Some (body, rest) ->
  literal_eval ("{" ++ body ++ "}") = Ok (PyDict d) ->
  exists config,
    parse_config_block bot_user_id literal_eval text = Ok (strip rest, config)
    /\ forall name,
         dict_get config (PyStr name)
         = match dict_get (rev d) (PyStr name) with
           | Some v => Some v
           | None => dict_get flags (PyStr name)
           end.
Proof.
  intros Hl Hm He. exists (dict_merge flags d). split.
  - unfold parse_config_block. rewrite Hl, Hm, He. reflexivity.
  - intros name. apply dict_get_merge_str.
Qed.

(** C5, as amended.  A text made of leading mention and [@public] tokens, a
    block whose body ends at the first [}}] after its first character and
    evaluates to a dictionary [d], and a trailing text: the map returned is
    the flags of the tokens updated with the items of [d], and the cleaned
    text is the trailing text, stripped. *)
Theorem parse_config_block_first_close
    (toks : list (string * prefix_token)) (w body rest : string) (d : dict) :
  Forall (fun wt => all_space (fst wt)) toks ->
  all_space w ->
  ends_at_first_close body = true ->
  literal_eval ("{" ++ body ++ "}") = Ok (PyDict d) ->
  parse_config_block bot_user_id literal_eval
    (prefixed bot_user_id toks (w ++ "{{" ++ body ++ "}}" ++ rest))
  = Ok (strip rest, dict_merge (flags_of toks) d)
  /\ forall name,
       dict_get (dict_merge (flags_of toks) d) (PyStr name)
       = match dict_get (rev d) (PyStr name) with
         | Some v => Some v
         | None => dict_get (flags_of toks) (PyStr name)
         end.
Proof.
  intros Hall Hw Hb He. split; [|intros name; apply dict_get_merge_str].
  unfold parse_config_block.
  pose proof (loop_prefixed toks
    (String.length (prefixed bot_user_id toks (w ++ "{{" ++ body ++ "}}" ++ rest)))
    w (body ++ "}}" ++ rest) [] Hall Hw (length_prefixed _ _)) as Hl.
  rewrite Hl.
  rewrite (match_config_block_first body rest Hb), He.
  cbn [isinstance_dict negb dict_update]. now rewrite strip_idem.
Qed.

End ConfigBlockFacts.

(* ------------------------------------------------------------------ *)
(** ** The two reconstructions of a bot message *)

Lemma slackmsg_fold (blocks : list block) (messages : list string) :
  fold_left slackmsg_step blocks messages
  = (messages ++ map btext (filter kept_section blocks))%list.
Proof.
  revert messages; induction blocks as [|b blocks IH]; intros messages;
    cbn [fold_left filter map].
  - now rewrite app_nil_r.
  - rewrite IH. unfold slackmsg_step, kept_section.
    destruct (String.eqb (btype b) "section"); cbn [andb]; [|reflexivity].
    destruct (startswith (btext b) LONGRESPONSE); cbn [negb map]; [reflexivity|].
    now rewrite <- app_assoc.
Qed.

Lemma artifacts_fold_plain (blocks : list block) :
  Forall plain_block blocks ->
  forall (messages : list string) (current : option string),
  fst (fold_left ArtifactHandler.artifacts_step blocks (messages, current))
  = fold_left slackmsg_step blocks messages.
Proof.
  induction 1 as [|b blocks Hb _ IH]; intros messages current; cbn [fold_left].
  - reflexivity.
  - unfold ArtifactHandler.artifacts_step at 2, slackmsg_step at 2.
    destruct (String.eqb (btype b) "section") eqn:Es.
    + apply String.eqb_eq in Es. destruct (Hb Es) as [Hc Hl].
      rewrite Hc, Hl. apply IH.
    + destruct (String.eqb (btype b) "divider"); apply IH.
Qed.

(** C4, as amended.  The text the formatter puts in place of a bot
    message's body is the texts of its section blocks that do not start
    with the overflow sentinel, joined by new lines; fenced code blocks are
    among them as they are.  It is the text of
    [ArtifactHandler.reconstruct_artifacts] when no section matches the
    fenced-code pattern or starts with the sentinel. *)
Theorem reconstruct_from_slackmsg_sections (blocks : list block) :
  reconstruct_from_slackmsg blocks
  = join nl (map btext (filter kept_section blocks))
  /\ (Forall plain_block blocks ->
      reconstruct_from_slackmsg blocks
      = ArtifactHandler.reconstruct_artifacts blocks).
Proof.
  unfold reconstruct_from_slackmsg, ArtifactHandler.reconstruct_artifacts.
  split.
  - now rewrite slackmsg_fold.
  - intros H. now rewrite artifacts_fold_plain.
Qed.

(* ------------------------------------------------------------------ *)
(** ** What format_thread keeps *)

Section FormatThreadFacts.

Variable bot_user_id : string.
Variable client : Client.

Lemma format_messages_flat (initiator_id : option string) (config : dict)
    (messages : list message) :
  format_messages bot_user_id client initiator_id config messages
  = flat_map
      (fun msg => turn_of (format_message bot_user_id client initiator_id config msg))
      messages.
Proof.
  unfold format_messages.
  enough (G : forall acc,
    fold_left
      (fun formatted_messages msg =>
         match format_message bot_user_id client initiator_id config msg with
         | Some t => (formatted_messages ++ [t])%list
         | None => formatted_messages
         end) messages acc
    = (acc ++ flat_map
                (fun msg =>
                   turn_of (format_message bot_user_id client initiator_id config msg))
                messages)%list) by apply (G []).
  induction messages as [|m messages IH]; intros acc; cbn [fold_left flat_map].
  - now rewrite app_nil_r.
  - rewrite IH.
    destruct (format_message bot_user_id client initiator_id config m);
      cbn [turn_of].
    + now rewrite <- app_assoc.
    + reflexivity.
Qed.




(** A part of the content of a message is the text part, which is there
    only for a body that is not empty (and does not start with the overflow
    sentinel), or a part of one of its files. *)
Lemma message_content_text (msg : message) (p : content_part) :
  In p (message_content bot_user_id client msg) ->
  (exists body,
     p = TextPart body false /\ body_of bot_user_id msg = Some body
     /\ body <> "" /\ startswith body LONGRESPONSE = false)
  \/ In p (process_attachments client (msg_files msg)).
Proof.
  unfold message_content. intros H. apply in_app_or in H as [H|H].
  - left. destruct (body_of bot_user_id msg) as [body|]; [|destruct H].
    destruct (String.eqb body "") eqn:Ee; [destruct H|].
    destruct (startswith body LONGRESPONSE) eqn:El; [destruct H|].
    destruct H as [<-|[]]. exists body. apply String.eqb_neq in Ee. auto.
  - right. destruct (msg_files msg); [destruct H | exact H].
Qed.

Lemma format_message_content (initiator_id : option string) (config : dict)
    (msg : message) (t : turn) :
  format_message bot_user_id client initiator_id config msg = Some t ->
  content t = message_content bot_user_id client msg /\ content t <> [].
Proof.
  unfold format_message.
  destruct (hidden bot_user_id initiator_id config msg); [discriminate|].
  destruct (is_aside (text_or_empty (msg_text msg))); [discriminate|].
  destruct (message_content bot_user_id client msg) as [|p ps] eqn:E;
    [discriminate|].
  cbn [List.length Nat.eqb]. intros H. injection H as <-. cbn [content].
  split; [reflexivity | discriminate].
Qed.

(** X1.  Every turn [format_thread] makes has a part. *)
Lemma format_messages_nonempty (initiator_id : option string) (config : dict)
    (messages : list message) :
  Forall (fun t => content t <> [])
    (format_messages bot_user_id client initiator_id config messages).
Proof.
  rewrite format_messages_flat. apply Forall_forall. intros t Hin.
  apply in_flat_map in Hin as (m & _ & Ht).
  destruct (format_message bot_user_id client initiator_id config m) as [t'|] eqn:E;
    [|destruct Ht].
  destruct Ht as [<-|[]]. now apply format_message_content in E.
Qed.

End FormatThreadFacts.

(* ------------------------------------------------------------------ *)
(** ** The overflow policy *)

(** C8.  A text of at most 3000 characters comes back as it is, with no
    file.  For a longer one: when the upload gives a file, the sentinel and
    the file come back; when the upload raises or gives nothing, the first
    2950 characters followed by the truncation marker come back, at most
    3000 characters in all, with no file.  In every case the function
    returns: no exception of the upload leaves it. *)
Theorem handle_large_response_cases (text : string) (client : Client)
    (channel : string) (thread_ts : option string) :
  let upload :=
    files_upload_v2 client channel text "llm_response.txt" thread_ts in
  let outcome := snd (handle_large_response text client channel thread_ts) in
  (String.length text <= 3000 ->
   handle_large_response text client channel thread_ts = ([], Ok (text, None)))
  /\ (3000 < String.length text ->
      forall f, upload = Ok (Some f) -> outcome = Ok (LONGRESPONSE, Some f))
  /\ (3000 < String.length text ->
      (upload = Ok None \/ exists e, upload = Raise e) ->
      outcome = Ok (take 2950 text ++ TRUNCATED, None)
      /\ String.length (take 2950 text ++ TRUNCATED) <= 3000)
  /\ exists r, outcome = Ok r.
Proof.
  cbv zeta. unfold handle_large_response, upload_snippet.
  destruct (String.length text <=? 3000)%nat eqn:E.
  - apply Nat.leb_le in E. repeat split; try (intros; lia).
    now exists (text, None).
  - apply Nat.leb_gt in E. split; [intros; lia|].
    split; [|split].
    + intros _ f Hf. cbn. rewrite Hf. reflexivity.
    + intros _ H. split.
      * destruct H as [H|[e H]]; cbn; rewrite H; reflexivity.
      * rewrite length_append. pose proof (length_take 2950 text).
        change (String.length TRUNCATED) with 25. lia.
    + cbn. destruct (files_upload_v2 client channel text "llm_response.txt" thread_ts)
        as [[f|]|e]; cbn; eexists; reflexivity.
Qed.

(* ------------------------------------------------------------------ *)
(** ** What the handlers do *)

Section HandlerFacts.

Variable bot_user_id : string.
Variable system_prompt : string.
Variable literal_eval : string -> pyresult pyval.
Variable float_t : Type.
Variable py_float : string -> pyresult float_t.
Variable float_ge : float_t -> float_t -> bool.

Lemma for_each_delete (channel : string) (messages : list message) :
  for_each messages (delete_if_bot bot_user_id channel)
  = (deletions bot_user_id channel messages, Ok tt).
Proof.
  induction messages as [|m messages IH]; [reflexivity|].
  cbn [for_each deletions flat_map]. fold (deletions bot_user_id channel messages).
  rewrite IH. unfold delete_if_bot.
  destruct (is_bot bot_user_id m); [|reflexivity].
  destruct (msg_ts m); reflexivity.
Qed.

(** [find_after] gives the first position at or after the deleted one. *)
Lemma find_after_first (deleted_ts : float_t) (messages : list message) :
  forall start idx,
  find_after py_float float_ge deleted_ts messages start = Ok (Some idx) ->
  start <= idx
  /\ (exists m, nth_error messages (idx - start) = Some m
                /\ at_or_after py_float float_ge deleted_ts m)
  /\ forall j m, j < idx - start -> nth_error messages j = Some m ->
                 ~ at_or_after py_float float_ge deleted_ts m.
Proof.
  induction messages as [|m messages IH]; intros start idx H; [discriminate|].
  cbn [find_after] in H.
  destruct (msg_ts m) as [ts|] eqn:Ets; [|discriminate]. cbn [subscript] in H.
  destruct (py_float ts) as [t|e] eqn:Et; [|discriminate].
  destruct (float_ge t deleted_ts) eqn:Ege.
  - injection H as <-. rewrite Nat.sub_diag. split; [lia|]. split.
    + exists m. split; [reflexivity|]. now exists ts, t.
    + intros j m' Hj. lia.
  - destruct (IH _ _ H) as (Hle & (m' & Hn & Ha) & Hbefore).
    split; [lia|]. replace (idx - start) with (S (idx - S start)) by lia.
    split.
    + exists m'. split; [exact Hn | exact Ha].
    + intros [|j] m'' Hj Hn'.
      * injection Hn' as <-. intros (ts' & t' & E1 & E2 & E3).
        rewrite Ets in E1. injection E1 as <-. rewrite Et in E2.
        injection E2 as <-. congruence.
      * apply (Hbefore j m''); [lia | exact Hn'].
Qed.

(** C9.  A deletion event whose previous message is in a thread (and is no
    tombstone), for which Slack gives the messages of the thread and the
    position [idx] of the first message whose time stamp is at least the
    deleted one: the handler asks to delete exactly the messages at
    position [idx] or later that the bot wrote, in order, and nothing else;
    [idx] is the first position at or after the deleted time stamp. *)
Theorem cascade_delete (event : event) (client : Client) (previous : message)
    (thread_ts ts : string) (messages : list message) (deleted_ts : float_t)
    (idx : nat) :
  ev_previous_message event = Some previous ->
  msg_thread_ts previous = Some thread_ts -> thread_ts <> "" ->
  msg_subtype previous <> Some "tombstone" ->
  conversations_replies client (ev_channel event) (Some thread_ts) = Ok messages ->
  msg_ts previous = Some ts -> py_float ts = Ok deleted_ts ->
  find_after py_float float_ge deleted_ts messages 0 = Ok (Some idx) ->
  handle_message_deleted bot_user_id py_float float_ge event client
  = (deletions bot_user_id (ev_channel event) (skipn idx messages), Ok tt)
  /\ (forall a,
      In a (fst (handle_message_deleted bot_user_id py_float float_ge event client))
      <-> exists i m t,
            idx <= i /\ nth_error messages i = Some m
            /\ msg_user m = Some bot_user_id /\ msg_ts m = Some t
            /\ a = ChatDelete (ev_channel event) t)
  /\ (exists m, nth_error messages idx = Some m
                 /\ at_or_after py_float float_ge deleted_ts m)
  /\ (forall j m, j < idx -> nth_error messages j = Some m ->
                  ~ at_or_after py_float float_ge deleted_ts m).
Proof.
  intros Hprev Hthread Hne Htomb Hfetch Hts Hfloat Hfind.
  assert (E : handle_message_deleted bot_user_id py_float float_ge event client
              = (deletions bot_user_id (ev_channel event) (skipn idx messages), Ok tt)).
  { unfold handle_message_deleted. rewrite Hprev. cbn [message_or_empty].
    rewrite Hthread. cbn [truthy_text].
    apply String.eqb_neq in Hne. rewrite Hne. cbn [negb].
    apply opt_eqb_neq in Htomb. rewrite Htomb, Hfetch.
    cbn [lift bindM subscript app]. rewrite Hts. cbn [subscript bindM app].
    rewrite Hfloat. cbn [bindM app]. rewrite Hfind. cbn [bindM app].
    rewrite for_each_delete. reflexivity. }
  split; [exact E|]. split.
  - intros a. rewrite E. cbn [fst]. unfold deletions. rewrite in_flat_map. split.
    + intros (m & Hin & Ha). apply In_skipn_nth in Hin as (i & Hi & Hn).
      destruct (is_bot bot_user_id m) eqn:Eb; [|destruct Ha].
      destruct (msg_ts m) as [t|] eqn:Et; [|destruct Ha].
      destruct Ha as [<-|[]]. exists i, m, t.
      apply opt_eqb_eq in Eb. auto.
    + intros (i & m & t & Hi & Hn & Hu & Ht & ->). exists m. split.
      * apply In_skipn_nth. now exists i.
      * unfold is_bot. rewrite Hu, Ht. cbn [opt_eqb].
        rewrite String.eqb_refl. now left.
  - destruct (find_after_first deleted_ts messages 0 idx Hfind)
      as (_ & Hat & Hbefore).
    rewrite Nat.sub_0_r in Hat, Hbefore. split; [exact Hat | exact Hbefore].
Qed.

(** [handle_message_deleted] always returns, and [handle_message] does on
    a deletion what it does. *)
Lemma handle_message_deleted_returns (event : event) (client : Client) :
  snd (handle_message_deleted bot_user_id py_float float_ge event client) = Ok tt.
Proof.
  unfold handle_message_deleted.
  match goal with
  | |- snd (try_except ?m _) = _ => destruct m as [log [[]|e]]; reflexivity
  end.
Qed.

Lemma handle_message_on_deletion (event : event) (client : Client) :
  is_deletion event = true ->
  handle_message bot_user_id system_prompt literal_eval py_float float_ge event client
  = handle_message_deleted bot_user_id py_float float_ge event client.
Proof.
  intros H. unfold handle_message. rewrite H.
  pose proof (handle_message_deleted_returns event client) as R.
  destruct (handle_message_deleted bot_user_id py_float float_ge event client)
    as [log r]. cbn [snd] in R. subst r. reflexivity.
Qed.

(** A reply in a thread that is public, or a reply that names its author,
    for which Slack gives the thread and the first message parses: when the
    turns [format_thread] makes of the thread end with a turn of the
    assistant, the handler makes no call at all (no request to the model,
    no reply) and returns. *)
Lemma no_reply_after_own_turn (event : event) (client : Client)
    (t first_txt : string) (first_msg : message) (rest : list message)
    (config : dict) (turns : list turn) (last_turn : turn) :
  is_deletion event = false -> is_noop_edit event = false ->
  msg_thread_ts (event_message event) = Some t ->
  truthy_opt (dict_get config IS_PUBLIC) = true
  \/ (exists author, msg_user (event_message event) = Some author) ->
  conversations_replies client (ev_channel event) (Some t) = Ok (first_msg :: rest) ->
  parse_config_block bot_user_id literal_eval (text_or_empty (msg_text first_msg))
  = Ok (first_txt, config) ->
  format_thread bot_user_id client
    (set_first_text (first_msg :: rest) first_txt) config = Ok turns ->
  last_item turns = Ok last_turn ->
  role last_turn = assistant ->
  handle_message bot_user_id system_prompt literal_eval py_float float_ge event client
  = ([], Ok tt).
Proof.
  intros Hdel Hnoop Hthread Hwho Hfetch Hparse Hformat Hlast Hrole.
  unfold handle_message. rewrite Hdel, Hnoop, Hthread.
  unfold thread_reply, event_thread_ts. rewrite Hthread, Hfetch.
  cbn [lift bindM app]. rewrite Hparse. cbn [bindM app].
  destruct (truthy_opt (dict_get config IS_BOT_MENTION)); [|reflexivity].
  cbn [negb].
  destruct (truthy_opt (dict_get config IS_PUBLIC)) eqn:Hp;
    cbn [negb bindM app ret lift].
  - rewrite Hformat. cbn [bindM app]. rewrite Hlast. cbn [bindM app].
    unfold is_assistant. rewrite Hrole. reflexivity.
  - destruct Hwho as [Hw|[author Hauthor]]; [discriminate|].
    rewrite Hauthor. cbn [subscript lift bindM app ret].
    destruct (opt_eqb (Some author) (msg_user first_msg)); cbn [negb];
      [|reflexivity].
    rewrite Hformat. cbn [bindM app]. rewrite Hlast. cbn [bindM app].
    unfold is_assistant. rewrite Hrole. reflexivity.
Qed.

(** X2.  A reply in a thread whose first message parses and whose author is
    known is ignored, with no call made, when the first message set no
    [is_bot_mention], and when the thread is not public and the author is
    not the initiator. *)
Lemma thread_reply_ignored (event : event) (client : Client)
    (t author first_txt : string) (first_msg : message) (rest : list message)
    (config : dict) :
  is_deletion event = false -> is_noop_edit event = false ->
  msg_thread_ts (event_message event) = Some t ->
  msg_user (event_message event) = Some author ->
  conversations_replies client (ev_channel event) (Some t) = Ok (first_msg :: rest) ->
  parse_config_block bot_user_id literal_eval (text_or_empty (msg_text first_msg))
  = Ok (first_txt, config) ->
  truthy_opt (dict_get config IS_BOT_MENTION) = false
  \/ (truthy_opt (dict_get config IS_PUBLIC) = false
      /\ Some author <> msg_user first_msg) ->
  handle_message bot_user_id system_prompt literal_eval py_float float_ge event client
  = ([], Ok tt).
Proof.
  intros Hdel Hnoop Hthread Hauthor Hfetch Hparse Hgate.
  unfold handle_message. rewrite Hdel, Hnoop, Hthread.
  unfold thread_reply, event_thread_ts. rewrite Hthread, Hfetch.
  cbn [lift bindM app]. rewrite Hparse. cbn [bindM app].
  destruct Hgate as [Hm | [Hp Hne]].
  - rewrite Hm. reflexivity.
  - destruct (truthy_opt (dict_get config IS_BOT_MENTION)); [|reflexivity].
    rewrite Hp, Hauthor. apply opt_eqb_neq in Hne.
    cbn [negb subscript lift bindM app ret]. rewrite Hne. reflexivity.
Qed.

End HandlerFacts.

(* ------------------------------------------------------------------ *)
(** ** More facts about texts *)

Lemma append_assoc (a b c : string) : (a ++ b) ++ c = a ++ b ++ c.
Proof. induction a as [|x a IH]; simpl; [reflexivity | now rewrite IH]. Qed.

Lemma startswith_app_l (s w p : string) :
  startswith s p = true -> startswith (s ++ w) p = true.
Proof.
  revert s; induction p as [|c p IH]; intros s H; [reflexivity|].
  destruct s as [|d s]; [discriminate|]. simpl in *.
  apply andb_true_iff in H as [H1 H2]. rewrite H1. now apply IH.
Qed.

Lemma occurs_here (p s : string) : startswith s p = true -> occurs p s = true.
Proof. intros H. destruct s; simpl in *; rewrite H; reflexivity. Qed.

Lemma occurs_cons (p : string) (c : ascii) (s : string) :
  occurs p s = true -> occurs p (String c s) = true.
Proof. intros H. cbn [occurs]. rewrite H. apply orb_true_r. Qed.

Lemma occurs_lstrip (p s : string) :
  occurs p (lstrip s) = true -> occurs p s = true.
Proof.
  induction s as [|c s IH]; [trivial|]. cbn [lstrip].
  destruct (is_space c); [|trivial].
  intros H. apply occurs_cons, IH, H.
Qed.

Lemma occurs_app_l (p s w : string) :
  occurs p s = true -> occurs p (s ++ w) = true.
Proof.
  induction s as [|c s IH]; intros H.
  - cbn [occurs] in H. rewrite orb_false_r in H.
    destruct p; [|discriminate]. apply occurs_here. reflexivity.
  - cbn [occurs] in H. apply orb_true_iff in H as [H|H].
    + apply occurs_here. now apply (startswith_app_l (String c s)).
    + change (String c s ++ w) with (String c (s ++ w)).
      apply occurs_cons, IH, H.
Qed.

Lemma rstrip_prefix (s : string) : exists w, s = rstrip s ++ w.
Proof.
  induction s as [|c s [w IH]]; [now exists ""|].
  cbn [rstrip]. destruct (rstrip s) as [|d r] eqn:E.
  - destruct (is_space c).
    + now exists (String c s).
    + exists w. simpl in *. now rewrite <- IH.
  - exists w. simpl in *. now rewrite <- IH.
Qed.

Lemma occurs_rstrip (p s : string) :
  occurs p (rstrip s) = true -> occurs p s = true.
Proof.
  intros H. destruct (rstrip_prefix s) as [w E]. rewrite E.
  now apply occurs_app_l.
Qed.

Lemma occurs_strip (p s : string) :
  occurs p (strip s) = true -> occurs p s = true.
Proof. intros H. apply occurs_lstrip, occurs_rstrip, H. Qed.

Lemma occurs_drop (p : string) (n : nat) (s : string) :
  occurs p (drop n s) = true -> occurs p s = true.
Proof.
  revert s; induction n as [|n IH]; intros [|c s] H; simpl in *; trivial.
  apply occurs_cons. apply IH, H.
Qed.

Lemma match_config_block_occurs (t : string) (r : string * string) :
  match_config_block t = Some r -> occurs "{{" t = true.
Proof.
  unfold match_config_block. intros H.
  destruct (startswith (lstrip t) "{{") eqn:E; [|discriminate].
  apply occurs_lstrip, occurs_here, E.
Qed.

(* ------------------------------------------------------------------ *)
(** ** More of what parse_config_block returns *)

Section MoreConfigBlockFacts.

Variable bot_user_id : string.
Variable literal_eval : string -> pyresult pyval.

Lemma strip_prefixes_occurs (p : string) (fuel : nat) :
  forall (text : string) (config : dict),
  occurs p (fst (strip_prefixes bot_user_id fuel text config)) = true ->
  occurs p text = true.
Proof.
  induction fuel as [|fuel IH]; intros text config; cbn [strip_prefixes].
  - cbn [fst]. apply occurs_strip.
  - destruct (startswith (strip text) (bot_mention bot_user_id)).
    + intros H. apply IH in H. now apply occurs_strip, occurs_drop, occurs_strip in H.
    + destruct (startswith (strip text) public_flag).
      * intros H. apply IH in H.
        now apply occurs_strip, occurs_drop, occurs_strip in H.
      * cbn [fst]. apply occurs_strip.
Qed.

Lemma strip_prefixes_flags (fuel : nat) :
  forall (text : string) (config : dict),
  Forall structural_flag config ->
  Forall structural_flag (snd (strip_prefixes bot_user_id fuel text config)).
Proof.
  assert (S : forall config k,
             (k = IS_BOT_MENTION \/ k = IS_PUBLIC) ->
             Forall structural_flag config ->
             Forall structural_flag (dict_set config k (PyBool true))).
  { intros config k Hk H. induction H as [|[k0 v0] config H0 H IH]; cbn [dict_set].
    - constructor; [split; [exact Hk | reflexivity] | constructor].
    - destruct (key_eq k0 k).
      + constructor; [|exact H]. destruct H0 as [H0 _]. split; [exact H0 | reflexivity].
      + constructor; [exact H0 | exact IH]. }
  induction fuel as [|fuel IH]; intros text config H; cbn [strip_prefixes].
  - exact H.
  - destruct (startswith (strip text) (bot_mention bot_user_id)).
    + apply IH, S; [now left | exact H].
    + destruct (startswith (strip text) public_flag).
      * apply IH, S; [now right | exact H].
      * exact H.
Qed.

Lemma strip_prefixes_keeps (s : string) (fuel : nat) :
  forall (text : string) (config : dict),
  dict_get config (PyStr s) = Some (PyBool true) ->
  dict_get (snd (strip_prefixes bot_user_id fuel text config)) (PyStr s)
  = Some (PyBool true).
Proof.
  induction fuel as [|fuel IH]; intros text config H; cbn [strip_prefixes].
  - exact H.
  - destruct (startswith (strip text) (bot_mention bot_user_id)).
    + apply IH. unfold IS_BOT_MENTION. rewrite dict_get_set_str.
      destruct (String.eqb _ s); [reflexivity | exact H].
    + destruct (startswith (strip text) public_flag).
      * apply IH. unfold IS_PUBLIC. rewrite dict_get_set_str.
        destruct (String.eqb _ s); [reflexivity | exact H].
      * exact H.
Qed.

(** X3.  A text without [{{]: the function returns whatever [literal_eval] is;
    the cleaned text is stripped and starts with neither token, the map
    holds only the two flags, and parsing the cleaned text again gives it
    back with an empty map. *)
Theorem parse_config_block_no_block (text : string) :
  occurs "{{" text = false ->
  exists cleaned flags,
    parse_config_block bot_user_id literal_eval text = Ok (cleaned, flags)
    /\ strip cleaned = cleaned
    /\ startswith cleaned (bot_mention bot_user_id) = false
    /\ startswith cleaned public_flag = false
    /\ Forall structural_flag flags
    /\ parse_config_block bot_user_id literal_eval cleaned = Ok (cleaned, []).
Proof.
  intros Hno.
  assert (Hnone : forall t, occurs "{{" t = false -> match_config_block t = None).
  { intros t Ht. destruct (match_config_block t) as [r|] eqn:E; [|reflexivity].
    apply match_config_block_occurs in E. congruence. }
  pose proof (strip_prefixes_done bot_user_id (String.length text) text []
                (le_n _)) as D.
  pose proof (strip_prefixes_flags (String.length text) text [] (Forall_nil _)) as F.
  pose proof (strip_prefixes_occurs "{{" (String.length text) text []) as O.
  cbv zeta in D. unfold parse_config_block.
  destruct (strip_prefixes bot_user_id (String.length text) text [])
    as [t0 flags]. cbn [fst snd] in *.
  destruct D as (Ds & Db & Dp).
  assert (Hno0 : occurs "{{" t0 = false).
  { destruct (occurs "{{" t0); [|reflexivity]. rewrite O in Hno by reflexivity.
    discriminate. }
  exists t0, flags. rewrite (Hnone t0 Hno0), Ds.
  repeat split; trivial.
  assert (L : strip_prefixes bot_user_id (String.length t0) t0 [] = (t0, [])).
  { destruct (String.length t0); cbn [strip_prefixes]; rewrite Ds; [reflexivity|].
    now rewrite Db, Dp. }
  now rewrite L, (Hnone t0 Hno0), Ds.
Qed.

(** A text [is_bot_mention] accepts gets the flag [is_bot_mention] from the
    loop of the parser, whatever follows the mention. *)
Lemma is_bot_mention_loop (text : string) (config : dict) :
  is_bot_mention bot_user_id text = true ->
  dict_get (snd (strip_prefixes bot_user_id (String.length text) text config))
    IS_BOT_MENTION = Some (PyBool true).
Proof.
  unfold is_bot_mention. fold (bot_mention bot_user_id). intros H.
  destruct (String.length text) as [|n] eqn:L.
  - destruct text; [|discriminate]. discriminate.
  - cbn [strip_prefixes]. rewrite H. apply strip_prefixes_keeps.
    unfold IS_BOT_MENTION. now rewrite dict_get_set_str, String.eqb_refl.
Qed.

(** X4.  A text without [{{] that [is_bot_mention] accepts: the parser
    returns, and the map it returns sets [is_bot_mention] to [True]. *)
Theorem is_bot_mention_sets_flag (text : string) :
  occurs "{{" text = false ->
  is_bot_mention bot_user_id text = true ->
  exists cleaned config,
    parse_config_block bot_user_id literal_eval text = Ok (cleaned, config)
    /\ dict_get config IS_BOT_MENTION = Some (PyBool true).
Proof.
  intros Hno Hm. pose proof (is_bot_mention_loop text [] Hm) as F.
  pose proof (strip_prefixes_occurs "{{" (String.length text) text []) as O.
  unfold parse_config_block.
  destruct (strip_prefixes bot_user_id (String.length text) text [])
    as [t0 flags]. cbn [fst snd] in *.
  destruct (match_config_block t0) as [r|] eqn:E.
  - apply match_config_block_occurs in E. rewrite (O E) in Hno. discriminate.
  - eexists _, _. split; [reflexivity | exact F].
Qed.

(** X5.  The cleaned text [parse_config_block] returns is stripped, and no
    [SyntaxError] or [ValueError] leaves the function. *)
Theorem parse_config_block_contract (text : string) :
  match parse_config_block bot_user_id literal_eval text with
  | Ok (cleaned, _) => strip cleaned = cleaned
  | Raise e => caught e = false
  end.
Proof.
  unfold parse_config_block.
  destruct (strip_prefixes bot_user_id (String.length text) text [])
    as [t0 flags].
  destruct (match_config_block t0) as [[body rest]|]; [|apply strip_idem].
  destruct (literal_eval ("{" ++ body ++ "}")) as [v|e].
  - cbn [isinstance_dict negb].
    destruct (dict_update flags v) as [config [e|]]; [|apply strip_idem].
    destruct (caught e) eqn:E; [apply strip_idem | exact E].
  - destruct (caught e) eqn:E; [apply strip_idem | exact E].
Qed.

Lemma rstrip_token (t : prefix_token) (r : string) :
  rstrip (token_text bot_user_id t ++ r) = token_text bot_user_id t ++ rstrip r.
Proof.
  destruct t; cbn [token_text].
  - unfold bot_mention.
    rewrite <- (append_assoc "<@" bot_user_id ">"), append_assoc.
    change (">" ++ r) with (String ">" r).
    rewrite rstrip_append.
    + rewrite rstrip_cons by reflexivity. now rewrite (append_assoc ("<@" ++ bot_user_id) ">" (rstrip r)).
    + rewrite rstrip_cons by reflexivity. discriminate.
  - unfold public_flag.
    change ("@public" ++ r)
      with (String "@" (String "p" (String "u" (String "b" (String "l"
             (String "i" (String "c" r))))))).
    now rewrite !rstrip_cons by reflexivity.
Qed.

Lemma strip_token_any (w : string) (t : prefix_token) (r : string) :
  all_space w ->
  strip (w ++ token_text bot_user_id t ++ r)
  = token_text bot_user_id t ++ rstrip r.
Proof.
  intros Hw. rewrite strip_space_append by exact Hw.
  unfold strip.
  destruct (token_text_head bot_user_id t) as (c & s & E & Hc).
  replace (lstrip (token_text bot_user_id t ++ r))
    with (token_text bot_user_id t ++ r).
  - apply rstrip_token.
  - rewrite E. change (String c s ++ r) with (String c (s ++ r)).
    now rewrite lstrip_head.
Qed.

Lemma loop_prefixed_plain (toks : list (string * prefix_token)) :
  forall (fuel : nat) (tail : string) (config : dict),
  Forall (fun wt => all_space (fst wt)) toks ->
  startswith (strip tail) (bot_mention bot_user_id) = false ->
  startswith (strip tail) public_flag = false ->
  List.length toks <= fuel ->
  strip_prefixes bot_user_id fuel (prefixed bot_user_id toks tail) config
  = (strip tail,
     fold_left (fun c wt => dict_set c (flag_of (snd wt)) (PyBool true))
       toks config).
Proof.
  induction toks as [|[w1 t] toks IH]; intros fuel tail config Hall Hb Hp Hfuel.
  - cbn [prefixed fold_left].
    destruct fuel; cbn [strip_prefixes]; [reflexivity|]. now rewrite Hb, Hp.
  - destruct fuel as [|fuel]; [simpl in Hfuel; lia|].
    inversion Hall as [|? ? Hw1 Hall']; subst. cbn [fst] in Hw1.
    cbn [prefixed fold_left snd].
    set (R := prefixed bot_user_id toks tail).
    cbn [strip_prefixes].
    rewrite (strip_token_any w1 t R Hw1).
    assert (Hnext : forall c,
              strip_prefixes bot_user_id fuel (strip (rstrip R)) c
              = strip_prefixes bot_user_id fuel R c).
    { intros c. apply loop_strip. now rewrite strip_idem, strip_rstrip. }
    destruct t; cbn [token_text flag_of].
    + rewrite startswith_append, drop_append, Hnext.
      apply IH; [exact Hall' | exact Hb | exact Hp | simpl in Hfuel; lia].
    + assert (Hb' : startswith (public_flag ++ rstrip R)
                      (bot_mention bot_user_id) = false)
        by (apply startswith_head; reflexivity).
      rewrite Hb', startswith_append, drop_append, Hnext.
      apply IH; [exact Hall' | exact Hb | exact Hp | simpl in Hfuel; lia].
Qed.

(** X6.  A text made of leading mention and [@public] tokens and a tail that
    (after white space) starts with neither token and with no block: the
    cleaned text is the tail, stripped, and the map is the flags of the
    tokens. *)
Theorem parse_config_block_plain (toks : list (string * prefix_token))
    (tail : string) :
  Forall (fun wt => all_space (fst wt)) toks ->
  startswith (strip tail) (bot_mention bot_user_id) = false ->
  startswith (strip tail) public_flag = false ->
  match_config_block (strip tail) = None ->
  parse_config_block bot_user_id literal_eval (prefixed bot_user_id toks tail)
  = Ok (strip tail, flags_of toks).
Proof.
  intros Hall Hb Hp Hm. unfold parse_config_block.
  rewrite (loop_prefixed_plain toks _ tail [] Hall Hb Hp (length_prefixed _ _ _)).
  now rewrite Hm, strip_idem.
Qed.

End MoreConfigBlockFacts.

(* ------------------------------------------------------------------ *)
(** ** What a bot message gives back to the model *)

Lemma take_all (n : nat) (s : string) : String.length s <= n -> take n s = s.
Proof.
  revert s; induction n as [|n IH]; intros [|c s] H; simpl in *;
    try reflexivity; try lia.
  rewrite IH; [reflexivity | lia].
Qed.

Lemma length_truncated (text : string) :
  String.length (take 2950 text ++ TRUNCATED) <= 3000.
Proof.
  rewrite length_append. pose proof (length_take 2950 text).
  change (String.length TRUNCATED) with 25. lia.
Qed.

(** The blocks of an answer give the answer back. *)
Lemma blocks_round_trip (text : string) :
  reconstruct_from_slackmsg (convert_to_blocks text)
  = if startswith text LONGRESPONSE then "" else text.
Proof.
  unfold convert_to_blocks, reconstruct_from_slackmsg.
  destruct (String.eqb text "") eqn:E.
  - apply String.eqb_eq in E. subst. reflexivity.
  - cbn [negb fold_left]. unfold slackmsg_step. cbn [section btype btext].
    change (String.eqb "section" "section") with true. cbv iota.
    destruct (startswith text LONGRESPONSE); reflexivity.
Qed.

Section MoreFormatThreadFacts.

Variable bot_user_id : string.
Variable client : Client.

(** X7.  A message of the bot with the blocks [convert_to_blocks] makes of
    an answer (not empty, not starting with the overflow sentinel), with no
    file and a text that is no aside: the blocks give the answer back, and
    [format_thread] makes of the message a turn of the assistant whose only
    part is the answer. *)
Theorem posted_answer_read_back (initiator_id : option string) (config : dict)
    (msg : message) (cleaned : string) :
  msg_user msg = Some bot_user_id ->
  msg_blocks msg = convert_to_blocks cleaned ->
  msg_files msg = [] ->
  cleaned <> "" ->
  startswith cleaned LONGRESPONSE = false ->
  is_aside (text_or_empty (msg_text msg)) = false ->
  reconstruct_from_slackmsg (msg_blocks msg) = cleaned
  /\ format_message bot_user_id client initiator_id config msg
     = Some {| role := assistant; content := [TextPart cleaned false] |}.
Proof.
  intros Hu Hb Hf Hne Hl Ha.
  assert (R : reconstruct_from_slackmsg (msg_blocks msg) = cleaned)
    by (now rewrite Hb, blocks_round_trip, Hl).
  split; [exact R|].
  apply String.eqb_neq in Hne.
  unfold format_message, hidden, message_content, body_of.
  rewrite Hu, Ha, Hf, R. cbn [opt_eqb]. rewrite String.eqb_refl.
  rewrite Hb. unfold convert_to_blocks. rewrite Hne. cbn [negb andb List.length Nat.eqb].
  rewrite Hne, Hl. reflexivity.
Qed.

Lemma is_aside_LONGRESPONSE (text : string) :
  startswith text LONGRESPONSE = true -> is_aside text = false.
Proof.
  intros H. apply startswith_inv in H. rewrite H.
  unfold is_aside, LONGRESPONSE.
  match goal with
  | |- context [String ?c ?s ++ ?r] =>
      change (String c s ++ r) with (String c (s ++ r))
  end.
  rewrite strip_cons by reflexivity. reflexivity.
Qed.

Lemma overflow_content (initiator_id : option string) (config : dict)
    (msg : message) (text : string) :
  msg_user msg = Some bot_user_id ->
  msg_text msg = Some text ->
  startswith text LONGRESPONSE = true ->
  filter kept_section (msg_blocks msg) = [] ->
  message_content bot_user_id client msg
  = process_attachments client (msg_files msg)
  /\ format_message bot_user_id client initiator_id config msg
     = match process_attachments client (msg_files msg) with
       | [] => None
       | parts => Some {| role := assistant; content := parts |}
       end.
Proof.
  intros Hu Ht Hl Hb.
  assert (B : body_of bot_user_id msg = Some text).
  { unfold body_of. rewrite Ht.
    unfold reconstruct_from_slackmsg. rewrite slackmsg_fold, Hb.
    cbn [app map join].
    destruct (_ && _); reflexivity. }
  assert (C : message_content bot_user_id client msg
              = process_attachments client (msg_files msg)).
  { unfold message_content. rewrite B, Hl, andb_false_r.
    cbn [app]. destruct (msg_files msg); reflexivity. }
  split; [exact C|].
  unfold format_message, hidden. rewrite Hu, C, Ht. cbn [opt_eqb text_or_empty].
  rewrite String.eqb_refl, (is_aside_LONGRESPONSE text Hl). cbn [negb andb].
  destruct (process_attachments client (msg_files msg)); reflexivity.
Qed.

(** X8.  A message of the bot whose text starts with the overflow sentinel
    and whose blocks hold no section that is kept: the sentinel is no part
    of the content, which is the parts of the files; the message gives a
    turn of the assistant when the files give a part, and none otherwise. *)
Theorem overflow_message_content (initiator_id : option string) (config : dict)
    (msg : message) (text : string) :
  msg_user msg = Some bot_user_id ->
  msg_text msg = Some text ->
  startswith text LONGRESPONSE = true ->
  filter kept_section (msg_blocks msg) = [] ->
  message_content bot_user_id client msg
  = process_attachments client (msg_files msg)
  /\ format_message bot_user_id client initiator_id config msg
     = match process_attachments client (msg_files msg) with
       | [] => None
       | parts => Some {| role := assistant; content := parts |}
       end.
Proof. apply overflow_content. Qed.

End MoreFormatThreadFacts.

(* ------------------------------------------------------------------ *)
(** ** What apply_cache_headers marks *)

Lemma mark_last_snoc (parts : list content_part) (p : content_part) :
  mark_last (parts ++ [p])%list = (parts ++ [set_cache p])%list.
Proof.
  induction parts as [|q parts IH]; [reflexivity|].
  cbn [app mark_last]. rewrite IH.
  destruct (parts ++ [p])%list eqn:E; [destruct parts; discriminate | reflexivity].
Qed.

Lemma mark_first_turn_unmarked (l : list turn) :
  Forall (fun t => wants_mark t = false) l -> mark_first_turn l = l.
Proof.
  induction 1 as [|t l Ht _ IH]; [reflexivity|].
  cbn [mark_first_turn]. unfold wants_mark in Ht.
  destruct (role t); [rewrite Ht|]; now rewrite IH.
Qed.

Lemma mark_first_turn_app (l : list turn) (t : turn) (rest : list turn) :
  Forall (fun t => wants_mark t = false) l -> wants_mark t = true ->
  mark_first_turn (l ++ t :: rest)%list
  = (l ++ {| role := user; content := mark_last (content t) |} :: rest)%list.
Proof.
  intros Hl Ht. induction Hl as [|x l Hx _ IH]; cbn [app mark_first_turn].
  - unfold wants_mark in Ht. destruct (role t); [|discriminate].
    now rewrite Ht.
  - unfold wants_mark in Hx. destruct (role x); [rewrite Hx|]; now rewrite IH.
Qed.

(** X9.  [apply_cache_headers] marks the last part of the last turn of the
    user that has more than one part, and nothing else in the messages:
    with no such turn the messages come back as they are.  The system
    prompt is one marked part, or nothing when the prompt is empty. *)
Theorem apply_cache_headers_marks_last (system_prompt : string)
    (messages before after : list turn) (parts : list content_part)
    (p : content_part) :
  (Forall (fun t => wants_mark t = false) after ->
   parts <> [] ->
   fst (apply_cache_headers system_prompt
          (before ++ {| role := user; content := parts ++ [p] |} :: after)%list)
   = (before ++ {| role := user; content := parts ++ [set_cache p] |} :: after)%list)
  /\ (Forall (fun t => wants_mark t = false) messages ->
      fst (apply_cache_headers system_prompt messages) = messages)
  /\ snd (apply_cache_headers system_prompt messages)
     = if String.eqb system_prompt "" then []
       else [TextPart system_prompt true].
Proof.
  unfold apply_cache_headers. cbn [fst snd]. split; [|split].
  - intros Ha Hp.
    rewrite rev_app_distr. cbn [rev]. rewrite <- app_assoc. cbn [app].
    rewrite mark_first_turn_app.
    + cbn [content]. rewrite mark_last_snoc, rev_app_distr. cbn [rev app].
      rewrite rev_involutive, <- app_assoc, rev_involutive. reflexivity.
    + apply Forall_rev, Ha.
    + unfold wants_mark. cbn [role content]. rewrite length_app. cbn [List.length].
      destruct parts; [now elim Hp|]. cbn [List.length]. apply Nat.ltb_lt. lia.
  - intros Ha. rewrite mark_first_turn_unmarked by apply Forall_rev, Ha.
    apply rev_involutive.
  - destruct (String.eqb system_prompt ""); reflexivity.
Qed.

(* ------------------------------------------------------------------ *)
(** ** What handle_message does, whatever the event *)

Lemma bind_lift {A B : Type} (r : pyresult A) (k : A -> M B) :
  bindM (lift r) k = match r with Ok a => k a | Raise e => ([], Raise e) end.
Proof. destruct r as [a|e]; cbn; [destruct (k a) |]; reflexivity. Qed.

Lemma bind_ret {A B : Type} (a : A) (k : A -> M B) : bindM (ret a) k = k a.
Proof. cbn. destruct (k a); reflexivity. Qed.

Lemma handle_large_response_log (text : string) (client : Client)
    (channel : string) (thread_ts : option string) :
  exists ulog cleaned file,
    handle_large_response text client channel thread_ts
    = (ulog, Ok (cleaned, file))
    /\ (ulog = []
        \/ (ulog = [FilesUpload channel text "llm_response.txt" thread_ts]
            /\ 3000 < String.length text))
    /\ (file = None -> String.length cleaned <= 3000).
Proof.
  unfold handle_large_response, upload_snippet.
  destruct (String.length text <=? 3000)%nat eqn:E.
  - apply Nat.leb_le in E. exists [], text, None. auto.
  - apply Nat.leb_gt in E.
    destruct (files_upload_v2 client channel text "llm_response.txt" thread_ts)
      as [[f|]|e]; cbn.
    + exists [FilesUpload channel text "llm_response.txt" thread_ts],
        LONGRESPONSE, (Some f). split; [reflexivity|]. split; [auto | discriminate].
    + exists [FilesUpload channel text "llm_response.txt" thread_ts],
        (take 2950 text ++ TRUNCATED), None.
      split; [reflexivity|]. split; [auto | intros _; apply length_truncated].
    + exists [FilesUpload channel text "llm_response.txt" thread_ts],
        (take 2950 text ++ TRUNCATED), None.
      split; [reflexivity|]. split; [auto | intros _; apply length_truncated].
Qed.

Section MoreHandlerFacts.

Variable bot_user_id : string.
Variable system_prompt : string.
Variable literal_eval : string -> pyresult pyval.
Variable float_t : Type.
Variable py_float : string -> pyresult float_t.
Variable float_ge : float_t -> float_t -> bool.

(** What [handle_message] does once it has the turns of the request. *)
Lemma call_claude_cases (event : event) (client : Client) (msg : message)
    (thread_ts : option string) (config : dict) (turns : list turn) :
  call_claude system_prompt event client msg thread_ts config turns
  = if claude_off config then ([], Ok tt)
    else
      match msg_ts msg with
      | None => ([], Raise KeyError)
      | Some ts =>
          match messages_create client
                  (request_system system_prompt config turns)
                  (fst (apply_cache_headers system_prompt turns))
                  (request_temperature config) with
          | Raise e =>
              ([ReactionsAdd (ev_channel event) ts;
                request system_prompt config turns], Raise e)
          | Ok answer =>
              match handle_large_response answer client (ev_channel event)
                      thread_ts with
              | (ulog, Ok (cleaned, None)) =>
                  (([ReactionsAdd (ev_channel event) ts;
                     request system_prompt config turns;
                     ReactionsRemove (ev_channel event) ts]
                    ++ ulog
                    ++ [Say (take 3000 cleaned) (convert_to_blocks cleaned)
                          thread_ts])%list, Ok tt)
              | (ulog, Ok (_, Some _)) =>
                  (([ReactionsAdd (ev_channel event) ts;
                     request system_prompt config turns;
                     ReactionsRemove (ev_channel event) ts] ++ ulog)%list, Ok tt)
              | (ulog, Raise e) =>
                  (([ReactionsAdd (ev_channel event) ts;
                     request system_prompt config turns;
                     ReactionsRemove (ev_channel event) ts] ++ ulog)%list, Raise e)
              end
          end
      end.
Proof.
  unfold call_claude, claude_off, request, request_system, request_temperature.
  destruct (apply_cache_headers system_prompt turns) as [msgs sysprompt].
  cbn [fst snd].
  destruct (match dict_get config (PyStr "claude") with
            | Some v => eq_False v
            | None => false
            end); [reflexivity|].
  destruct (msg_ts msg) as [ts|]; [|reflexivity].
  cbn [subscript lift bindM act app].
  destruct (messages_create client _ msgs _) as [answer|e]; [|reflexivity].
  cbn [bindM app].
  destruct (handle_large_response answer client (ev_channel event) thread_ts)
    as [ulog [[cleaned [f|]]|e]]; cbn [bindM ret act app];
    rewrite ?app_nil_r; reflexivity.
Qed.

Lemma filter_reply_upload (ulog : list action) (channel text : string)
    (thread_ts : option string) (P : Prop) :
  ulog = []
  \/ (ulog = [FilesUpload channel text "llm_response.txt" thread_ts] /\ P) ->
  filter is_reply ulog = [] /\ filter is_request ulog = [].
Proof. intros [->|[-> _]]; split; reflexivity. Qed.

Lemma call_claude_tame (event : event) (client : Client) (msg : message)
    (thread_ts : option string) (config : dict) (turns : list turn) :
  tame (call_claude system_prompt event client msg thread_ts config turns)
  /\ Forall (well_formed (ev_channel event) thread_ts)
       (fst (call_claude system_prompt event client msg thread_ts config turns)).
Proof.
  rewrite call_claude_cases. unfold tame.
  destruct (claude_off config); [cbn; auto|].
  destruct (msg_ts msg) as [ts|]; [|cbn; auto].
  destruct (messages_create client _ _ _) as [answer|e].
  2:{ cbn. split; [split; [auto | lia]|]. repeat constructor. }
  destruct (handle_large_response_log answer client (ev_channel event) thread_ts)
    as (ulog & cleaned & file & E & Hu & Hlen).
  rewrite E.
  destruct (filter_reply_upload _ _ _ _ _ Hu) as [F1 F2].
  assert (W : Forall (well_formed (ev_channel event) thread_ts) ulog).
  { destruct Hu as [->|[-> Hl]]; repeat constructor. exact Hl. }
  destruct file as [f|]; cbn [fst snd]; (split; [split|]).
  - left. cbn [app filter is_reply is_request request]. exact F1.
  - cbn [app filter is_reply is_request request]. rewrite F2. cbn. lia.
  - repeat constructor. exact W.
  - right. cbn [app filter is_reply is_request request].
    rewrite filter_app, F1. cbn. auto.
  - cbn [app filter is_reply is_request request].
    rewrite filter_app, F2. cbn. lia.
  - repeat apply Forall_cons; try exact I; try reflexivity.
    apply Forall_app. split; [exact W|].
    apply Forall_cons; [|constructor].
    cbn [well_formed]. rewrite take_all by auto. auto.
Qed.

Lemma tame_quiet (r : pyresult unit) : tame ([], r).
Proof. unfold tame. cbn. auto. Qed.

Lemma new_thread_tame (event : event) (client : Client) (msg : message)
    (thread_ts : option string) :
  tame (new_thread bot_user_id system_prompt literal_eval event client msg thread_ts)
  /\ Forall (well_formed (ev_channel event) thread_ts)
       (fst (new_thread bot_user_id system_prompt literal_eval event client msg
               thread_ts)).
Proof.
  unfold new_thread. rewrite bind_lift.
  destruct (parse_config_block _ _ _) as [[text config]|e];
    [|split; [apply tame_quiet | constructor]].
  destruct (negb _); [split; [apply tame_quiet | constructor]|].
  rewrite bind_lift.
  destruct (subscript (msg_user msg)); [|split; [apply tame_quiet | constructor]].
  apply call_claude_tame.
Qed.

Lemma thread_reply_tame (event : event) (client : Client) (msg : message)
    (thread_ts : option string) :
  tame (thread_reply bot_user_id system_prompt literal_eval event client msg
          thread_ts)
  /\ Forall (well_formed (ev_channel event) thread_ts)
       (fst (thread_reply bot_user_id system_prompt literal_eval event client msg
               thread_ts)).
Proof.
  unfold thread_reply. rewrite bind_lift.
  destruct (conversations_replies client _ _) as [thread|e];
    [|split; [apply tame_quiet | constructor]].
  rewrite bind_lift.
  destruct thread as [|first_msg rest]; [split; [apply tame_quiet | constructor]|].
  rewrite bind_lift.
  destruct (parse_config_block _ _ _) as [[text config]|e];
    [|split; [apply tame_quiet | constructor]].
  destruct (negb (truthy_opt (dict_get config IS_BOT_MENTION)));
    [split; [apply tame_quiet | constructor]|].
  assert (G : forall differs : bool,
    let m := if differs then ret tt
      else
        formatted_messages <-
          lift (format_thread bot_user_id client
                  (set_first_text (first_msg :: rest) text) config) ;;
        last_message <- lift (last_item formatted_messages) ;;
        if is_assistant last_message then ret tt
        else call_claude system_prompt event client msg thread_ts config
               formatted_messages in
    tame m /\ Forall (well_formed (ev_channel event) thread_ts) (fst m)).
  { intros [|]; cbv zeta; [split; [apply tame_quiet | constructor]|].
    rewrite bind_lift.
    destruct (format_thread _ _ _ _) as [turns|e];
      [|split; [apply tame_quiet | constructor]].
    rewrite bind_lift.
    destruct (last_item turns) as [t|e];
      [|split; [apply tame_quiet | constructor]].
    destruct (is_assistant t); [split; [apply tame_quiet | constructor]|].
    apply call_claude_tame. }
  destruct (negb (truthy_opt (dict_get config IS_PUBLIC))).
  - rewrite bind_lift.
    destruct (subscript (msg_user msg)) as [u|e].
    + rewrite bind_ret. apply (G (negb (opt_eqb (Some u) (msg_user first_msg)))).
    + split; [apply tame_quiet | constructor].
  - rewrite bind_ret. apply (G false).
Qed.

(** Every call [handle_message_deleted] makes deletes a message of the bot
    that Slack lists in the thread of the deleted message. *)
Lemma handle_message_deleted_calls (event : event) (client : Client)
    (a : action) :
  In a (fst (handle_message_deleted bot_user_id py_float float_ge event client)) ->
  exists messages m ts,
    conversations_replies client (ev_channel event)
      (msg_thread_ts (message_or_empty (ev_previous_message event)))
    = Ok messages
    /\ In m messages /\ msg_user m = Some bot_user_id /\ msg_ts m = Some ts
    /\ a = ChatDelete (ev_channel event) ts.
Proof.
  unfold handle_message_deleted.
  destruct (negb (truthy_text _)); [intros []|].
  destruct (opt_eqb _ _); [intros []|].
  rewrite bind_lift.
  destruct (conversations_replies client _ _) as [messages|e]; [|intros []].
  rewrite bind_lift.
  destruct (subscript (ev_previous_message event)) as [previous|e]; [|intros []].
  rewrite bind_lift.
  destruct (subscript (msg_ts previous)) as [ts|e]; [|intros []].
  rewrite bind_lift.
  destruct (py_float ts) as [deleted_ts|e]; [|intros []].
  rewrite bind_lift.
  destruct (find_after py_float float_ge deleted_ts messages 0) as [[idx|]|e];
    [|intros []|intros []].
  rewrite for_each_delete. cbn [try_except fst].
  unfold deletions. rewrite in_flat_map. intros (m & Hin & Ha).
  apply In_skipn_nth in Hin as (i & _ & Hn). apply nth_error_In in Hn.
  destruct (is_bot bot_user_id m) eqn:Eb; [|destruct Ha].
  destruct (msg_ts m) as [t|] eqn:Et; [|destruct Ha].
  destruct Ha as [<-|[]]. exists messages, m, t.
  apply opt_eqb_eq in Eb. auto.
Qed.

(** X10.  On a deletion event the handler returns, and every call it makes
    deletes, in the channel of the event, a message of the bot that Slack
    lists in the thread of the deleted message: it posts nothing, asks the
    model nothing and deletes nobody else's message. *)
Theorem deletion_only_deletes (event : event) (client : Client) :
  is_deletion event = true ->
  snd (handle_message bot_user_id system_prompt literal_eval py_float float_ge
         event client) = Ok tt
  /\ forall a,
       In a (fst (handle_message bot_user_id system_prompt literal_eval
                    py_float float_ge event client)) ->
       exists messages m ts,
         conversations_replies client (ev_channel event)
           (msg_thread_ts (message_or_empty (ev_previous_message event)))
         = Ok messages
         /\ In m messages /\ msg_user m = Some bot_user_id
         /\ msg_ts m = Some ts
         /\ a = ChatDelete (ev_channel event) ts.
Proof.
  intros H. rewrite handle_message_on_deletion by exact H. split.
  - apply handle_message_deleted_returns.
  - intros a. apply handle_message_deleted_calls.
Qed.

(** X11.  Whatever the event and whatever the services answer, the handler
    returns, posts at most one reply and makes at most one request to the
    model. *)
Theorem handle_message_one_reply (event : event) (client : Client) :
  let outcome :=
    handle_message bot_user_id system_prompt literal_eval py_float float_ge
      event client in
  snd outcome = Ok tt
  /\ List.length (filter is_reply (fst outcome)) <= 1
  /\ List.length (filter is_request (fst outcome)) <= 1.
Proof.
  cbv zeta.
  destruct (is_deletion event) eqn:D.
  - rewrite handle_message_on_deletion by exact D.
    split; [apply handle_message_deleted_returns|].
    assert (F : forall p : action -> bool,
               (forall c t, p (ChatDelete c t) = false) ->
               filter p (fst (handle_message_deleted bot_user_id py_float float_ge
                                event client)) = []).
    { intros p Hp.
      destruct (filter p _) as [|a l] eqn:E; [reflexivity|].
      assert (Hin : In a (filter p (fst (handle_message_deleted bot_user_id
                                           py_float float_ge event client))))
        by (rewrite E; now left).
      apply filter_In in Hin as [Hin Hpa].
      apply handle_message_deleted_calls in Hin
        as (? & ? & ? & _ & _ & _ & _ & ->).
      now rewrite Hp in Hpa. }
    rewrite !F by reflexivity. cbn. lia.
  - unfold handle_message. rewrite D.
    assert (G : forall m : M unit, tame m ->
              let r := try_except m
                         (fun e => act (SayError e (event_thread_ts event))) in
              snd r = Ok tt
              /\ List.length (filter is_reply (fst r)) <= 1
              /\ List.length (filter is_request (fst r)) <= 1).
    { intros [log [[]|e]] [[T|[T1 T2]] T3]; cbn [fst snd] in *; cbn [try_except act fst snd].
      - rewrite T. cbn. split; [reflexivity | lia].
      - rewrite T1. split; [reflexivity | lia].
      - rewrite !filter_app, T. cbn. rewrite app_nil_r. split; [reflexivity | lia].
      - discriminate. }
    destruct (is_noop_edit event); [apply G, tame_quiet|].
    destruct (msg_thread_ts (event_message event)).
    + apply G, thread_reply_tame.
    + apply G, new_thread_tame.
Qed.

(** X12.  Whatever the event and the services, every call the handler
    makes is [well_formed].  The reply with an answer ([Say]) carries the
    blocks of its own text, which has at most 3000 characters, and goes to
    the thread of the event; the reply that reports an exception
    ([SayError]) goes to the thread of the event (it has no blocks, and its
    text is as long as the message of the exception); an upload is of an
    answer longer than 3000 characters, to the same thread; reactions,
    uploads and deletions are in the channel of the event. *)
Theorem handle_message_calls_well_formed (event : event) (client : Client) :
  Forall (well_formed (ev_channel event) (event_thread_ts event))
    (fst (handle_message bot_user_id system_prompt literal_eval py_float
            float_ge event client)).
Proof.
  destruct (is_deletion event) eqn:D.
  - rewrite handle_message_on_deletion by exact D.
    apply Forall_forall. intros a Hin.
    apply handle_message_deleted_calls in Hin as (? & ? & ? & _ & _ & _ & _ & ->).
    reflexivity.
  - unfold handle_message. rewrite D.
    assert (G : forall m : M unit,
              Forall (well_formed (ev_channel event) (event_thread_ts event)) (fst m) ->
              Forall (well_formed (ev_channel event) (event_thread_ts event))
                (fst (try_except m
                        (fun e => act (SayError e (event_thread_ts event)))))).
    { intros [log [[]|e]] W; cbn [fst try_except act] in *; [exact W|].
      apply Forall_app. split; [exact W | repeat constructor]. }
    destruct (is_noop_edit event); [apply G; constructor|].
    destruct (msg_thread_ts (event_message event)).
    + apply G, thread_reply_tame.
    + apply G, new_thread_tame.
Qed.

End MoreHandlerFacts.

(* ------------------------------------------------------------------ *)
(** ** The request and the delivery of the answer *)

Section RequestFacts.

Variable bot_user_id : string.
Variable system_prompt : string.
Variable literal_eval : string -> pyresult pyval.
Variable float_t : Type.
Variable py_float : string -> pyresult float_t.
Variable float_ge : float_t -> float_t -> bool.

Lemma handle_message_request (event : event) (client : Client)
    (config : dict) (turns : list turn) :
  reaches_request bot_user_id literal_eval event client config turns ->
  handle_message bot_user_id system_prompt literal_eval py_float float_ge
    event client
  = try_except
      (call_claude system_prompt event client (event_message event)
         (event_thread_ts event) config turns)
      (fun e => act (SayError e (event_thread_ts event))).
Proof.
  intros [text author cfg Hdel Hnoop Hthread Hparse Hmention Hauthor
         |t author first_txt first_msg rest cfg trns last_turn
            Hdel Hnoop Hthread Hfetch Hparse Hmention Hauthor Hgate Hformat
            Hlast Hrole];
    unfold handle_message; rewrite Hdel, Hnoop, Hthread; f_equal.
  - unfold new_thread. rewrite bind_lift, Hparse, Hmention. cbn [negb].
    rewrite bind_lift, Hauthor. cbn [subscript]. unfold initial_turn.
    destruct (msg_files (event_message event)); reflexivity.
  - unfold thread_reply, event_thread_ts. rewrite Hthread.
    rewrite bind_lift, Hfetch, bind_lift, bind_lift, Hparse, Hmention.
    cbn [negb].
    assert (E : (if negb (truthy_opt (dict_get cfg IS_PUBLIC))
                 then u <- lift (subscript (msg_user (event_message event))) ;;
                      ret (negb (opt_eqb (Some u) (msg_user first_msg)))
                 else ret false) = ret false).
    { destruct Hgate as [Hp | Hi].
      - now rewrite Hp.
      - rewrite bind_lift, Hauthor. cbn [subscript]. rewrite Hi.
        destruct (negb _); [|reflexivity].
        assert (R : opt_eqb (msg_user first_msg) (msg_user first_msg) = true)
          by now apply opt_eqb_eq.
        now rewrite R. }
    rewrite E, bind_ret, bind_lift, Hformat, bind_lift, Hlast.
    unfold is_assistant. now rewrite Hrole.
Qed.

(** X13.  [claude] set to a value equal to [False] ([False], [0], [0.0]): the
    handler builds the request and makes no call at all. *)
Theorem claude_false_makes_no_call (event : event) (client : Client)
    (config : dict) (turns : list turn) :
  reaches_request bot_user_id literal_eval event client config turns ->
  claude_off config = true ->
  handle_message bot_user_id system_prompt literal_eval py_float float_ge
    event client = ([], Ok tt).
Proof.
  intros H Hoff. rewrite (handle_message_request _ _ _ _ H).
  now rewrite call_claude_cases, Hoff.
Qed.

(** X14.  When the request to the model raises, the reaction that shows the bot
    at work has been added and is not removed, and the error is reported
    in the thread. *)
Theorem model_failure_keeps_reaction (event : event) (client : Client)
    (config : dict) (turns : list turn) (ts : string) (e : exn) :
  reaches_request bot_user_id literal_eval event client config turns ->
  claude_off config = false ->
  msg_ts (event_message event) = Some ts ->
  messages_create client (request_system system_prompt config turns)
    (fst (apply_cache_headers system_prompt turns))
    (request_temperature config) = Raise e ->
  handle_message bot_user_id system_prompt literal_eval py_float float_ge
    event client
  = ([ReactionsAdd (ev_channel event) ts;
      request system_prompt config turns;
      SayError e (event_thread_ts event)], Ok tt).
Proof.
  intros H Hoff Hts Hcreate. rewrite (handle_message_request _ _ _ _ H).
  now rewrite call_claude_cases, Hoff, Hts, Hcreate.
Qed.

(** X15.  The delivery of an answer.  One of at most 3000 characters is posted in
    the thread with the blocks of its text.  A longer one is uploaded, and
    nothing is posted when the upload gives a file; when it does not, the
    truncated text is posted. *)
Theorem answer_delivery (event : event) (client : Client)
    (config : dict) (turns : list turn) (ts answer : string) :
  reaches_request bot_user_id literal_eval event client config turns ->
  claude_off config = false ->
  msg_ts (event_message event) = Some ts ->
  messages_create client (request_system system_prompt config turns)
    (fst (apply_cache_headers system_prompt turns))
    (request_temperature config) = Ok answer ->
  let channel := ev_channel event in
  let thread_ts := event_thread_ts event in
  let upload :=
    files_upload_v2 client channel answer "llm_response.txt" thread_ts in
  let before :=
    [ReactionsAdd channel ts; request system_prompt config turns;
     ReactionsRemove channel ts] in
  let outcome :=
    handle_message bot_user_id system_prompt literal_eval py_float float_ge
      event client in
  (String.length answer <= 3000 ->
   outcome
   = ((before ++ [Say answer (convert_to_blocks answer) thread_ts])%list, Ok tt))
  /\ (3000 < String.length answer ->
      forall f, upload = Ok (Some f) ->
      outcome
      = ((before ++ [FilesUpload channel answer "llm_response.txt" thread_ts])%list,
         Ok tt))
  /\ (3000 < String.length answer ->
      (upload = Ok None \/ exists e, upload = Raise e) ->
      let cut := take 2950 answer ++ TRUNCATED in
      outcome
      = ((before ++ [FilesUpload channel answer "llm_response.txt" thread_ts;
                     Say cut (convert_to_blocks cut) thread_ts])%list, Ok tt)).
Proof.
  intros H Hoff Hts Hcreate. cbv zeta.
  rewrite (handle_message_request _ _ _ _ H).
  rewrite call_claude_cases, Hoff, Hts, Hcreate.
  unfold handle_large_response, upload_snippet.
  split; [|split].
  - intros Hlen. apply Nat.leb_le in Hlen. rewrite Hlen. cbn [ret].
    rewrite take_all by now apply Nat.leb_le. reflexivity.
  - intros Hlen f Hf. apply Nat.leb_gt in Hlen. rewrite Hlen, Hf. reflexivity.
  - intros Hlen Hu. apply Nat.leb_gt in Hlen. rewrite Hlen.
    set (cut := take 2950 answer ++ TRUNCATED).
    assert (Hc : take 3000 cut = cut) by apply take_all, length_truncated.
    destruct Hu as [Hu|[e Hu]]; rewrite Hu; cbn [try_except bindM act lift ret app];
      rewrite Hc; reflexivity.
Qed.

(** X16.  A reply in a thread of which [format_thread] keeps no message (each is
    hidden, an aside or without content) gets an error reply: the last
    turn is read from an empty list. *)
Theorem reply_without_turns_gets_error (event : event) (client : Client)
    (t author first_txt : string) (first_msg : message) (rest : list message)
    (config : dict) :
  is_deletion event = false -> is_noop_edit event = false ->
  msg_thread_ts (event_message event) = Some t ->
  conversations_replies client (ev_channel event) (Some t)
  = Ok (first_msg :: rest) ->
  parse_config_block bot_user_id literal_eval
    (text_or_empty (msg_text first_msg)) = Ok (first_txt, config) ->
  truthy_opt (dict_get config IS_BOT_MENTION) = true ->
  msg_user (event_message event) = Some author ->
  truthy_opt (dict_get config IS_PUBLIC) = true
  \/ Some author = msg_user first_msg ->
  format_thread bot_user_id client
    (set_first_text (first_msg :: rest) first_txt) config = Ok [] ->
  handle_message bot_user_id system_prompt literal_eval py_float float_ge
    event client
  = ([SayError IndexError (Some t)], Ok tt).
Proof.
  intros Hdel Hnoop Hthread Hfetch Hparse Hmention Hauthor Hgate Hformat.
  unfold handle_message. rewrite Hdel, Hnoop, Hthread.
  unfold thread_reply, event_thread_ts. rewrite Hthread.
  rewrite bind_lift, Hfetch, bind_lift, bind_lift, Hparse, Hmention.
  cbn [negb].
  assert (E : (if negb (truthy_opt (dict_get config IS_PUBLIC))
               then u <- lift (subscript (msg_user (event_message event))) ;;
                    ret (negb (opt_eqb (Some u) (msg_user first_msg)))
               else ret false) = ret false).
  { destruct Hgate as [Hp | Hi].
    - now rewrite Hp.
    - rewrite bind_lift, Hauthor. cbn [subscript]. rewrite Hi.
      destruct (negb _); [|reflexivity].
      assert (R : opt_eqb (msg_user first_msg) (msg_user first_msg) = true)
        by now apply opt_eqb_eq.
      now rewrite R. }
  rewrite E, bind_ret, bind_lift, Hformat. reflexivity.
Qed.

End RequestFacts.

(* ------------------------------------------------------------------ *)
(** ** The attachments and the cache *)

Section AttachmentFacts.

Variable b64encode : string -> string.
Variable decode : string -> string.
Variable files : Files.

Lemma file_content_spec (cache : cache_t) (url : string) :
  let '(cache', requested, r) := AttachmentHandler.file_content files cache url in
  r = content_at files cache url
  /\ (forall u, content_at files cache' u = content_at files cache u)
  /\ (forall u c, cache_get cache u = Some c -> cache_get cache' u = Some c)
  /\ (forall u, In u requested -> u = url /\ cache_get cache u = None)
  /\ (cache_get cache' url <> None \/ exists e, requests_get files url = Raise e).
Proof.
  unfold AttachmentHandler.file_content, content_at.
  destruct (cache_get cache url) as [content|] eqn:G.
  - rewrite ?G. conjs; trivial; [intros u [] | left; discriminate].
  - destruct (requests_get files url) as [content|e] eqn:R; cbv beta iota.
    + conjs.
      * reflexivity.
      * intros u. cbn [cache_set cache_get].
        destruct (String.eqb url u) eqn:E; [|reflexivity].
        apply String.eqb_eq in E. subst u. now rewrite G, R.
      * intros u c H. cbn [cache_set cache_get].
        destruct (String.eqb url u) eqn:E; [|exact H].
        apply String.eqb_eq in E. subst u. congruence.
      * intros u [<-|[]]. auto.
      * left. cbn [cache_set cache_get]. rewrite String.eqb_refl. discriminate.
    + rewrite ?G. conjs; trivial.
      * intros u [<-|[]]. auto.
      * right. now exists e.
Qed.

(** What one file does to the cache, and what it asks for. *)
Lemma download_spec (cache : cache_t) (file_info : file_info) :
  let '(cache', requested, processed) := AttachmentHandler.download_and_encode_file b64encode decode files cache file_info in
  (forall u, content_at files cache' u = content_at files cache u)
  /\ (forall u c, cache_get cache u = Some c -> cache_get cache' u = Some c)
  /\ (forall u, In u requested ->
        cache_get cache u = None
        /\ exists mimetype,
             fi_mimetype file_info = Some mimetype
             /\ AttachmentHandler.file_url file_info (startswith mimetype "image/")
                = Ok u)
  /\ (forall mimetype u,
        fi_mimetype file_info = Some mimetype ->
        AttachmentHandler.file_url file_info (startswith mimetype "image/") = Ok u ->
        cache_get cache' u <> None \/ exists e, requests_get files u = Raise e).
Proof.
  unfold AttachmentHandler.download_and_encode_file.
  destruct (fi_mimetype file_info) as [mimetype|].
  2:{ conjs; trivial; [intros u [] | discriminate]. }
  destruct (AttachmentHandler.file_url file_info (startswith mimetype "image/"))
    as [url|e] eqn:U.
  2:{ conjs; trivial; [intros u [] |].
      intros m u H. injection H as <-. congruence. }
  pose proof (file_content_spec cache url) as S.
  destruct (AttachmentHandler.file_content files cache url) as [[cache' requested] r].
  destruct S as (_ & S1 & S2 & S3 & S4).
  assert (G : (forall u, content_at files cache' u = content_at files cache u)
  /\ (forall u c, cache_get cache u = Some c -> cache_get cache' u = Some c)
  /\ (forall u, In u requested ->
        cache_get cache u = None
        /\ exists m,
             Some mimetype = Some m
             /\ AttachmentHandler.file_url file_info (startswith m "image/")
                = Ok u)
  /\ (forall m u,
        Some mimetype = Some m ->
        AttachmentHandler.file_url file_info (startswith m "image/") = Ok u ->
        cache_get cache' u <> None \/ exists e, requests_get files u = Raise e)).
  { conjs; trivial.
    - intros u Hu. destruct (S3 u Hu) as [-> Hn]. split; [exact Hn|].
      now exists mimetype.
    - intros m u H1 H2. injection H1 as <-. rewrite U in H2. injection H2 as <-.
      exact S4. }
  destruct r as [content|e]; [|exact G].
  destruct (AttachmentHandler.file_part _ _ _ _ _ _ _); exact G.
Qed.

(** The part a file gives depends on the cache only through what reading
    its URL gives. *)
Lemma download_part (cache cache' : cache_t) (file_info : file_info) :
  (forall u, content_at files cache' u = content_at files cache u) ->
  snd (AttachmentHandler.download_and_encode_file b64encode decode files cache' file_info) = snd (AttachmentHandler.download_and_encode_file b64encode decode files cache file_info).
Proof.
  intros H. unfold AttachmentHandler.download_and_encode_file.
  destruct (fi_mimetype file_info) as [mimetype|]; [|reflexivity].
  destruct (AttachmentHandler.file_url file_info _) as [url|e]; [|reflexivity].
  pose proof (file_content_spec cache url) as S.
  pose proof (file_content_spec cache' url) as S'.
  destruct (AttachmentHandler.file_content files cache url) as [[c1 r1] x1].
  destruct (AttachmentHandler.file_content files cache' url) as [[c2 r2] x2].
  destruct S as (-> & _). destruct S' as (-> & _). rewrite H.
  destruct (content_at files cache url) as [content|e]; [|reflexivity].
  destruct (AttachmentHandler.file_part _ _ _ _ _ _ _); reflexivity.
Qed.

Lemma attachment_of_stable (cache cache' : cache_t) (file : string) :
  (forall u, content_at files cache' u = content_at files cache u) ->
  attachment_of b64encode decode files cache' file
  = attachment_of b64encode decode files cache file.
Proof.
  intros H. unfold attachment_of.
  destruct (files_info files file); [|reflexivity]. now apply download_part.
Qed.

Lemma step_spec (cache : cache_t) (requested : list string)
    (parts : list content_part) (file : string) :
  let '(cache', requested', parts') := AttachmentHandler.attach_step b64encode decode files (cache, requested, parts) file in
  (forall u, content_at files cache' u = content_at files cache u)
  /\ (forall u c, cache_get cache u = Some c -> cache_get cache' u = Some c)
  /\ (exists d, requested' = (requested ++ d)%list
                /\ forall u, In u d ->
                     cache_get cache u = None /\ needs files file u)
  /\ (forall u, needs files file u ->
        cache_get cache' u <> None \/ exists e, requests_get files u = Raise e)
  /\ parts' = (parts ++ match attachment_of b64encode decode files cache file with
                        | Some p => [p]
                        | None => []
                        end)%list.
Proof.
  unfold AttachmentHandler.attach_step, attachment_of, needs.
  destruct (files_info files file) as [file_info|e] eqn:F.
  - pose proof (download_spec cache file_info) as S.
    destruct (AttachmentHandler.download_and_encode_file b64encode decode files
                cache file_info) as [[cache' d] processed].
    destruct S as (S1 & S2 & S3 & S4). cbn [snd].
    conjs; trivial.
    + exists d. split; [reflexivity|]. intros u Hu.
      destruct (S3 u Hu) as (G & m & Hm & Hurl). split; [exact G|].
      now exists file_info, m.
    + intros u (fi & m & Hfi & Hm & Hurl). injection Hfi as <-.
      now apply (S4 m).
    + destruct processed; [reflexivity | now rewrite app_nil_r].
  - conjs; trivial.
    + exists []. split; [now rewrite app_nil_r | intros u []].
    + intros u (fi & m & Hfi & _). discriminate.
    + now rewrite app_nil_r.
Qed.

(** The loop from any state. *)
Lemma run_spec (file_ids : list string) :
  forall (cache : cache_t) (requested : list string) (parts : list content_part),
  let '(cache', requested', parts') :=
    fold_left (AttachmentHandler.attach_step b64encode decode files) file_ids (cache, requested, parts) in
  (forall u, content_at files cache' u = content_at files cache u)
  /\ (forall u c, cache_get cache u = Some c -> cache_get cache' u = Some c)
  /\ (exists d, requested' = (requested ++ d)%list
                /\ forall u, In u d ->
                     cache_get cache u = None
                     /\ exists file, In file file_ids /\ needs files file u)
  /\ (forall file u, In file file_ids -> needs files file u ->
        cache_get cache' u <> None \/ exists e, requests_get files u = Raise e)
  /\ parts'
     = (parts ++ flat_map
                   (fun file =>
                      match attachment_of b64encode decode files cache file with
                      | Some p => [p]
                      | None => []
                      end) file_ids)%list.
Proof.
  induction file_ids as [|file file_ids IH]; intros cache requested parts.
  - cbn [fold_left flat_map]. conjs; trivial.
    + exists []. split; [now rewrite app_nil_r | intros u []].
    + intros file u [].
    + now rewrite app_nil_r.
  - cbn [fold_left flat_map].
    pose proof (step_spec cache requested parts file) as S.
    destruct (AttachmentHandler.attach_step b64encode decode files (cache, requested, parts) file) as [[c1 r1] p1].
    destruct S as (S1 & S2 & (d1 & -> & S3) & S4 & ->).
    specialize (IH c1 (requested ++ d1)%list
                  (parts ++ match attachment_of b64encode decode files cache file with
                            | Some p => [p]
                            | None => []
                            end)%list).
    destruct (fold_left (AttachmentHandler.attach_step b64encode decode files) file_ids _) as [[c2 r2] p2].
    destruct IH as (I1 & I2 & (d2 & -> & I3) & I4 & ->).
    split; [intros u; now rewrite I1, S1|].
    split; [intros u c H; now apply I2, S2|].
    split; [|split].
    + exists (d1 ++ d2)%list. split; [now rewrite app_assoc|].
      intros u Hu. apply in_app_or in Hu as [Hu|Hu].
      * destruct (S3 u Hu) as [G N]. split; [exact G|]. exists file.
        split; [now left | exact N].
      * destruct (I3 u Hu) as [G (f & Hf & N)]. split.
        -- destruct (cache_get cache u) as [c|] eqn:E; [|reflexivity].
           apply S2 in E. congruence.
        -- exists f. split; [now right | exact N].
    + intros f u [<-|Hf] N.
      * destruct (S4 u N) as [C|Fl]; [|now right]. left.
        destruct (cache_get c1 u) as [c|] eqn:E; [|now elim C].
        apply I2 in E. rewrite E. discriminate.
      * now apply (I4 f).
    + rewrite <- app_assoc. f_equal. f_equal.
      apply flat_map_ext. intros f.
      now rewrite (attachment_of_stable cache c1 f S1).
Qed.

Lemma process_attachments_flat (client : Client) (file_ids : list string) :
  process_attachments client file_ids
  = flat_map (fun file => match attachment client file with
                          | Some p => [p]
                          | None => []
                          end) file_ids.
Proof.
  unfold process_attachments.
  enough (G : forall acc,
    fold_left
      (fun file_contents file =>
         match attachment client file with
         | Some processed => (file_contents ++ [processed])%list
         | None => file_contents
         end) file_ids acc
    = (acc ++ flat_map (fun file => match attachment client file with
                                    | Some p => [p]
                                    | None => []
                                    end) file_ids)%list).
  { destruct file_ids; [reflexivity | apply (G [])]. }
  induction file_ids as [|f file_ids IH]; intros acc; cbn [fold_left flat_map].
  - now rewrite app_nil_r.
  - rewrite IH. destruct (attachment client f); [now rewrite <- app_assoc|].
    reflexivity.
Qed.

(** X17.  The parts [process_attachments] returns are those each file gives on
    its own with the cache as it was at the start: the downloads the loop
    stores on its way change the part of no later file.  So a record of
    services whose [attachment] is [attachment_of] for that cache stands for
    the code. *)
Theorem process_attachments_parts (client : Client) (cache : cache_t)
    (file_ids : list string) :
  (forall file,
     attachment client file = attachment_of b64encode decode files cache file) ->
  snd (AttachmentHandler.process_attachments b64encode decode files cache file_ids) = process_attachments client file_ids.
Proof.
  intros H. rewrite process_attachments_flat.
  unfold AttachmentHandler.process_attachments.
  pose proof (run_spec file_ids cache [] []) as S.
  destruct (fold_left (AttachmentHandler.attach_step b64encode decode files) file_ids (cache, [], [])) as [[c r] p].
  destruct S as (_ & _ & _ & _ & ->). cbn [snd app].
  apply flat_map_ext. intros f. now rewrite H.
Qed.

(** X18.  The cache at work.  A run requests only URLs the cache did not hold
    (and that some file of the list needs) and leaves in the cache what it
    held; a second run on the same files with the cache the first one left
    gives the same parts and requests only URLs whose download fails. *)
Theorem process_attachments_cache (cache : cache_t) (file_ids : list string) :
  let '(cache1, requested1, parts1) := AttachmentHandler.process_attachments b64encode decode files cache file_ids in
  let '(cache2, requested2, parts2) := AttachmentHandler.process_attachments b64encode decode files cache1 file_ids in
  (forall u, In u requested1 -> cache_get cache u = None)
  /\ (forall u c, cache_get cache u = Some c -> cache_get cache1 u = Some c)
  /\ parts2 = parts1
  /\ forall u, In u requested2 -> exists e, requests_get files u = Raise e.
Proof.
  unfold AttachmentHandler.process_attachments.
  pose proof (run_spec file_ids cache [] []) as S.
  destruct (fold_left (AttachmentHandler.attach_step b64encode decode files) file_ids (cache, [], [])) as [[c1 r1] p1].
  destruct S as (S1 & S2 & (d1 & -> & S3) & S4 & ->).
  pose proof (run_spec file_ids c1 [] []) as T.
  destruct (fold_left (AttachmentHandler.attach_step b64encode decode files) file_ids (c1, [], [])) as [[c2 r2] p2].
  destruct T as (T1 & T2 & (d2 & -> & T3) & T4 & ->).
  cbn [app]. split; [|split; [|split]].
  - intros u Hu. now apply S3.
  - exact S2.
  - apply flat_map_ext. intros f. now rewrite (attachment_of_stable cache c1 f S1).
  - intros u Hu. destruct (T3 u Hu) as (G & f & Hf & N).
    destruct (S4 f u Hf N) as [C|Fl]; [now elim C | exact Fl].
Qed.

End AttachmentFacts.

Section OverflowFacts.

Variable bot_user_id : string.
Variable client : Client.
Variable b64encode : string -> string.
Variable decode : string -> string.
Variable files : Files.

(** The part of the file an overflowing answer was uploaded as. *)
Lemma attachment_of_llm_response (cache : cache_t) (file : string)
    (file_info : file_info) (mimetype url content : string) :
  files_info files file = Ok file_info ->
  fi_mimetype file_info = Some mimetype ->
  startswith mimetype "image/" = false ->
  mimetype <> "application/pdf" ->
  fi_name file_info = Some "llm_response.txt" ->
  fi_url_private file_info = Some url ->
  content_at files cache url = Ok content ->
  attachment_of b64encode decode files cache file
  = Some (TextPart (decode content) false).
Proof.
  intros Hinfo Hm Hi Hp Hn Hu Hc.
  unfold attachment_of. rewrite Hinfo.
  unfold AttachmentHandler.download_and_encode_file,
    AttachmentHandler.file_url, AttachmentHandler.name_or_unnamed.
  rewrite Hm, Hi, Hu, Hn. cbn [subscript].
  pose proof (file_content_spec files cache url) as S.
  destruct (AttachmentHandler.file_content files cache url) as [[c r] x].
  destruct S as (-> & _). rewrite Hc.
  unfold AttachmentHandler.file_part. apply String.eqb_neq in Hp.
  rewrite Hp. reflexivity.
Qed.

(** X19.  The way back of an overflowing answer.  The message of the upload
    (of the bot, its text the sentinel, its file named [llm_response.txt],
    neither an image nor a PDF) whose content can be read gives a turn of
    the assistant whose only part is the decoded content, with no header
    and without the sentinel. *)
Theorem overflow_answer_read_back (initiator_id : option string) (config : dict)
    (cache : cache_t) (msg : message) (text file : string)
    (file_info : file_info) (mimetype url content : string) :
  msg_user msg = Some bot_user_id ->
  msg_text msg = Some text ->
  startswith text LONGRESPONSE = true ->
  filter kept_section (msg_blocks msg) = [] ->
  msg_files msg = [file] ->
  attachment client file = attachment_of b64encode decode files cache file ->
  files_info files file = Ok file_info ->
  fi_mimetype file_info = Some mimetype ->
  startswith mimetype "image/" = false ->
  mimetype <> "application/pdf" ->
  fi_name file_info = Some "llm_response.txt" ->
  fi_url_private file_info = Some url ->
  content_at files cache url = Ok content ->
  format_message bot_user_id client initiator_id config msg
  = Some {| role := assistant; content := [TextPart (decode content) false] |}.
Proof.
  intros Hu Ht Hl Hb Hf Ha Hinfo Hm Hi Hp Hn Hurl Hc.
  destruct (overflow_content bot_user_id client initiator_id config msg text
              Hu Ht Hl Hb) as [_ F].
  rewrite F, Hf. unfold process_attachments. cbn [fold_left].
  rewrite Ha, (attachment_of_llm_response cache file file_info mimetype url content)
    by assumption.
  reflexivity.
Qed.

End OverflowFacts.

(* ------------------------------------------------------------------ *)
(** ** Artifacts: from blocks to text and back *)

Lemma span_all (p : ascii -> bool) (v r : string) :
  all_chars p v = true ->
  match r with EmptyString => True | String c _ => p c = false end ->
  span p (v ++ r) = (v, r).
Proof.
  intros Hv Hr. induction v as [|c v IH]; cbn [append span].
  - destruct r as [|c r]; [reflexivity|]. cbn [span]. now rewrite Hr.
  - cbn [all_chars] in Hv. apply andb_true_iff in Hv as [Hc Hv].
    now rewrite Hc, (IH Hv).
Qed.

Lemma scan_fence_first (b : string) :
  no_fence_in b = true ->
  ArtifactHandler.scan_fence (b ++ nl ++ "```") = Some b.
Proof.
  induction b as [|c b IH]; intros H.
  - reflexivity.
  - cbn [no_fence_in] in H. apply andb_true_iff in H as [H1 H2].
    apply negb_true_iff in H1.
    change (String c b ++ nl ++ "```") with (String c (b ++ nl ++ "```")) in *.
    cbn [ArtifactHandler.scan_fence]. rewrite H1, (IH H2). reflexivity.
Qed.

Lemma is_word_nl : is_word (ascii_of_nat 10) = false.
Proof. reflexivity. Qed.

Lemma code_match_fence (label content : string) :
  all_chars is_word label = true ->
  no_fence_in content = true ->
  ArtifactHandler.code_match (ArtifactHandler.fence label content)
  = Some (label, content).
Proof.
  intros Hl Hc. unfold ArtifactHandler.code_match, ArtifactHandler.fence.
  change ("```" ++ label ++ nl ++ content ++ nl ++ "```")
    with (String "`" (String "`" (String "`"
            (label ++ String (ascii_of_nat 10) (content ++ nl ++ "```"))))).
  cbn [startswith drop]. rewrite Ascii.eqb_refl. cbn [andb].
  rewrite (span_all is_word label
             (String (ascii_of_nat 10) (content ++ nl ++ "```")) Hl is_word_nl).
  rewrite Ascii.eqb_refl, (scan_fence_first content Hc). reflexivity.
Qed.

Lemma code_match_starred (title : string) :
  ArtifactHandler.code_match (starred title) = None.
Proof. reflexivity. Qed.

Lemma of_nat_block (n : nat) :
  ArtifactHandler.armed (Some ("block-" ++ of_nat n)) = true.
Proof. reflexivity. Qed.

(** The rounds of [reconstruct_artifacts] on the blocks of one artifact,
    from any state of the loop. *)
Lemma artifacts_fold_artifact (a : ArtifactHandler.artifact)
    (messages : list string) (current : option string) :
  let title := starred (ArtifactHandler.title a) in
  let content := ArtifactHandler.content a in
  fst (fold_left ArtifactHandler.artifacts_step
         (ArtifactHandler.artifact_to_blocks a) (messages, current))
  = (messages ++ title ::
     match fence_label a with
     | Some label =>
         match ArtifactHandler.code_match
                 (ArtifactHandler.fence label content) with
         | Some (language, body) =>
             [ArtifactHandler.artifact_tag
                ("block-" ++ of_nat (List.length messages))
                (ArtifactHandler.artifact_type language) language body]
         | None => [ArtifactHandler.fence label content]
         end
     | None =>
         if String.eqb (ArtifactHandler.type a) "text/markdown" then
           match ArtifactHandler.code_match content with
           | Some (language, body) =>
               [ArtifactHandler.artifact_tag
                  ("block-" ++ of_nat (List.length messages))
                  (ArtifactHandler.artifact_type language) language body]
           | None => [content]
           end
         else []
     end)%list.
Proof.
  cbv zeta.
  assert (S : forall text,
    fst (fold_left ArtifactHandler.artifacts_step [section text]
           ((messages ++ [starred (ArtifactHandler.title a)])%list,
            Some ("block-" ++ of_nat (List.length messages))))
    = (messages ++ starred (ArtifactHandler.title a) ::
       match ArtifactHandler.code_match text with
       | Some (language, body) =>
           [ArtifactHandler.artifact_tag
              ("block-" ++ of_nat (List.length messages))
              (ArtifactHandler.artifact_type language) language body]
       | None => [text]
       end)%list).
  { intros text. cbn [fold_left]. unfold ArtifactHandler.artifacts_step.
    cbn [section btype btext].
    change (String.eqb "section" "section") with true. cbv iota.
    destruct (ArtifactHandler.code_match text) as [[language body]|].
    - rewrite of_nat_block. cbn [fst]. now rewrite <- app_assoc.
    - cbn [fst]. now rewrite <- app_assoc. }
  assert (P : forall rest,
    fold_left ArtifactHandler.artifacts_step
      (divider :: section (starred (ArtifactHandler.title a)) :: rest)
      (messages, current)
    = fold_left ArtifactHandler.artifacts_step rest
        ((messages ++ [starred (ArtifactHandler.title a)])%list,
         Some ("block-" ++ of_nat (List.length messages)))).
  { intros rest. cbn [fold_left]. f_equal. }
  unfold ArtifactHandler.artifact_to_blocks, fence_label.
  fold (starred (ArtifactHandler.title a)). cbn [app].
  destruct (String.eqb (ArtifactHandler.type a) "application/vnd.ant.code");
    [rewrite P; apply S|].
  destruct (String.eqb (ArtifactHandler.type a) "text/markdown");
    [rewrite P; apply S|].
  destruct (String.eqb (ArtifactHandler.type a) "text/html"
            || String.eqb (ArtifactHandler.type a) "application/vnd.ant.react");
    [rewrite P; apply S|].
  destruct (String.eqb (ArtifactHandler.type a) "image/svg+xml");
    [rewrite P; apply S|].
  destruct (String.eqb (ArtifactHandler.type a) "application/vnd.ant.mermaid");
    [rewrite P; apply S|].
  rewrite P. reflexivity.
Qed.

(** X20.  The text [reconstruct_artifacts] makes of the blocks of one
    artifact.  For a fenced type whose label is made of word characters and
    whose content holds no closing fence: the title line and a tag with the
    content and the label, named [block-0] and titled anew.  For markdown
    whose content is no fenced block: the title line and the content.  For
    any other type: the title line alone, the content is not in it. *)
Theorem artifact_blocks_reconstructed (a : ArtifactHandler.artifact) :
  let title := starred (ArtifactHandler.title a) in
  let content := ArtifactHandler.content a in
  let text :=
    ArtifactHandler.reconstruct_artifacts (ArtifactHandler.artifact_to_blocks a) in
  (forall label,
     fence_label a = Some label ->
     all_chars is_word label = true -> no_fence_in content = true ->
     text = title ++ nl
            ++ ArtifactHandler.artifact_tag "block-0"
                 (ArtifactHandler.artifact_type label) label content)
  /\ (ArtifactHandler.type a = "text/markdown" ->
      ArtifactHandler.code_match content = None ->
      text = title ++ nl ++ content)
  /\ (fence_label a = None -> ArtifactHandler.type a <> "text/markdown" ->
      text = title).
Proof.
  cbv zeta. unfold ArtifactHandler.reconstruct_artifacts.
  pose proof (artifacts_fold_artifact a [] None) as E. cbv zeta in E.
  rewrite E. clear E. cbn [app List.length].
  change (of_nat 0) with "0". change ("block-" ++ "0") with "block-0".
  split; [|split].
  - intros label Hl Hw Hc. rewrite Hl, (code_match_fence label _ Hw Hc).
    reflexivity.
  - intros Ht Hc.
    assert (L : fence_label a = None) by (unfold fence_label; now rewrite Ht).
    rewrite L, Ht, Hc. reflexivity.
  - intros Hl Ht. apply String.eqb_neq in Ht. rewrite Hl, Ht. reflexivity.
Qed.

Lemma artifacts_fold_lines (a : ArtifactHandler.artifact)
    (messages : list string) (current : option string) :
  fst (fold_left ArtifactHandler.artifacts_step
         (ArtifactHandler.artifact_to_blocks a) (messages, current))
  = (messages ++ artifact_lines (List.length messages) a)%list.
Proof.
  pose proof (artifacts_fold_artifact a messages current) as E.
  cbv zeta in E. rewrite E. unfold artifact_lines. reflexivity.
Qed.

Lemma artifacts_fold_all (artifacts : list ArtifactHandler.artifact) :
  forall (messages : list string) (current : option string),
  fst (fold_left ArtifactHandler.artifacts_step
         (flat_map ArtifactHandler.artifact_to_blocks artifacts)
         (messages, current))
  = (messages ++ artifacts_lines (List.length messages) artifacts)%list.
Proof.
  induction artifacts as [|a rest IH]; intros messages current.
  - cbn [flat_map fold_left fst artifacts_lines]. now rewrite app_nil_r.
  - cbn [flat_map artifacts_lines]. rewrite fold_left_app.
    pose proof (artifacts_fold_lines a messages current) as E.
    destruct (fold_left ArtifactHandler.artifacts_step
                (ArtifactHandler.artifact_to_blocks a) (messages, current))
      as [m1 c1].
    cbn [fst] in E. subst m1. rewrite IH, length_app, app_assoc. reflexivity.
Qed.

(** X21.  The text [reconstruct_artifacts] makes of the blocks
    [convert_to_blocks] makes of a text (no fenced block itself) and of
    artifacts: the text, when it is not empty, then the lines of each
    artifact in order.  The tag of an artifact is named after the number of
    lines before its title, so after a text the first two fenced artifacts
    are [block-1] and [block-3]. *)
Theorem convert_to_blocks_reconstructed (text : string)
    (artifacts : list ArtifactHandler.artifact) :
  ArtifactHandler.code_match text = None ->
  let lines := if String.eqb text "" then [] else [text] in
  ArtifactHandler.reconstruct_artifacts
    (ArtifactHandler.convert_to_blocks text artifacts)
  = join nl (lines ++ artifacts_lines (List.length lines) artifacts)%list.
Proof.
  intros Hc. cbv zeta.
  unfold ArtifactHandler.reconstruct_artifacts, ArtifactHandler.convert_to_blocks.
  rewrite fold_left_app.
  destruct (String.eqb text ""); cbn [negb fold_left].
  - now rewrite artifacts_fold_all.
  - unfold ArtifactHandler.artifacts_step at 2. cbn [section btype btext].
    change (String.eqb "section" "section") with true. cbv iota.
    rewrite Hc, artifacts_fold_all. reflexivity.
Qed.

Lemma literal_app (p r : string) : ArtifactHandler.literal p (p ++ r) = Some r.
Proof.
  unfold ArtifactHandler.literal. now rewrite startswith_append, drop_append.
Qed.

Lemma snd_span_lstrip (s : string) : snd (span is_space s) = lstrip s.
Proof.
  induction s as [|c s IH]; [reflexivity|]. cbn [span lstrip].
  destruct (is_space c); [|reflexivity].
  destruct (span is_space s). exact IH.
Qed.

Lemma spaces1_space (r : string) :
  ArtifactHandler.spaces1 (String " " r) = Some (lstrip r).
Proof.
  unfold ArtifactHandler.spaces1. cbn [span].
  change (is_space " ") with true. cbv iota.
  rewrite <- snd_span_lstrip. destruct (span is_space r). reflexivity.
Qed.

Lemma lstrip_app_text (p r : string) :
  lstrip p = p -> p <> "" -> lstrip (p ++ r) = p ++ r.
Proof.
  destruct p as [|c p]; [intros _ H; now elim H|]. intros H _.
  cbn [lstrip] in H. change (String c p ++ r) with (String c (p ++ r)).
  destruct (is_space c) eqn:E; [|now apply lstrip_head].
  pose proof (length_lstrip p) as L. rewrite H in L. simpl in L. lia.
Qed.

Lemma not_quote_dq : ArtifactHandler.not_quote (ascii_of_nat 34) = false.
Proof. reflexivity. Qed.

Lemma quoted_value_app (v r : string) :
  all_chars ArtifactHandler.not_quote v = true -> v <> "" ->
  ArtifactHandler.quoted_value (v ++ dq ++ r) = Some (v, r).
Proof.
  intros Hv Hne. unfold ArtifactHandler.quoted_value.
  change (dq ++ r) with (String (ascii_of_nat 34) r).
  rewrite (span_all ArtifactHandler.not_quote v (String (ascii_of_nat 34) r)
             Hv not_quote_dq).
  destruct v; [now elim Hne | reflexivity].
Qed.

Lemma attribute_app (name v r : string) :
  all_chars ArtifactHandler.not_quote v = true -> v <> "" ->
  ArtifactHandler.attribute name ((name ++ "=" ++ dq) ++ v ++ dq ++ r)
  = Some (v, r).
Proof.
  intros Hv Hne. unfold ArtifactHandler.attribute.
  rewrite literal_app. now apply quoted_value_app.
Qed.

Lemma scan_end_first (b : string) :
  no_end_in b = true ->
  ArtifactHandler.scan_end (b ++ "</antArtifact>") = Some (b, "").
Proof.
  induction b as [|c b IH]; intros H.
  - reflexivity.
  - cbn [no_end_in] in H. apply andb_true_iff in H as [H1 H2].
    apply negb_true_iff in H1.
    change (String c b ++ "</antArtifact>")
      with (String c (b ++ "</antArtifact>")) in *.
    cbn [ArtifactHandler.scan_end]. rewrite H1, (IH H2). reflexivity.
Qed.

(** The shape of a tag, attribute by attribute. *)
Lemma artifact_tag_shape (identifier type language content : string) :
  ArtifactHandler.artifact_tag identifier type language content
  = "<antArtifact"
    ++ String " " (("identifier" ++ "=" ++ dq) ++ identifier ++ dq
    ++ String " " (("type" ++ "=" ++ dq) ++ type ++ dq
    ++ String " " (("language" ++ "=" ++ dq) ++ language ++ dq
    ++ String " " (("title" ++ "=" ++ dq) ++ "Code Block" ++ dq
    ++ ">" ++ content ++ "</antArtifact>")))).
Proof.
  unfold ArtifactHandler.artifact_tag.
  cbn [append]. unfold dq, chr. cbn [append].
  repeat (rewrite ?append_assoc; cbn [append]). reflexivity.
Qed.

(** The pattern matches a tag as [reconstruct_artifacts] writes it, when
    the language is not empty. *)
Lemma ARTIFACT_PATTERN_tag (identifier type language content : string) :
  all_chars ArtifactHandler.not_quote identifier = true -> identifier <> "" ->
  all_chars ArtifactHandler.not_quote type = true -> type <> "" ->
  all_chars ArtifactHandler.not_quote language = true -> language <> "" ->
  lstrip content = content -> no_end_in content = true ->
  ArtifactHandler.ARTIFACT_PATTERN
    (ArtifactHandler.artifact_tag identifier type language content)
  = Some ({| ArtifactHandler.identifier := identifier;
             ArtifactHandler.type := type;
             ArtifactHandler.language := Some language;
             ArtifactHandler.title := "Code Block";
             ArtifactHandler.content := content |}, "").
Proof.
  intros Hi Hi' Ht Ht' Hl Hl' Hc He.
  rewrite artifact_tag_shape. unfold ArtifactHandler.ARTIFACT_PATTERN.
  rewrite literal_app, spaces1_space.
  rewrite lstrip_app_text by (reflexivity || discriminate).
  rewrite attribute_app by assumption.
  rewrite spaces1_space, lstrip_app_text by (reflexivity || discriminate).
  rewrite attribute_app by assumption.
  rewrite spaces1_space, lstrip_app_text by (reflexivity || discriminate).
  rewrite attribute_app by assumption.
  change (String " " ?x) with (" " ++ x).
  rewrite (lstrip_space_append " ") by reflexivity.
  rewrite lstrip_app_text by (reflexivity || discriminate).
  rewrite attribute_app by (reflexivity || discriminate).
  rewrite literal_app.
  assert (L : lstrip (content ++ "</antArtifact>") = content ++ "</antArtifact>").
  { destruct content as [|c content]; [reflexivity|].
    apply lstrip_app_text; [exact Hc | discriminate]. }
  rewrite L, (scan_end_first content He). reflexivity.
Qed.

(** It does not match one whose language is empty. *)
Lemma ARTIFACT_PATTERN_no_language (identifier type content : string) :
  all_chars ArtifactHandler.not_quote identifier = true -> identifier <> "" ->
  all_chars ArtifactHandler.not_quote type = true -> type <> "" ->
  ArtifactHandler.ARTIFACT_PATTERN
    (ArtifactHandler.artifact_tag identifier type "" content) = None.
Proof.
  intros Hi Hi' Ht Ht'.
  rewrite artifact_tag_shape. unfold ArtifactHandler.ARTIFACT_PATTERN.
  rewrite literal_app, spaces1_space.
  rewrite lstrip_app_text by (reflexivity || discriminate).
  rewrite attribute_app by assumption.
  rewrite spaces1_space, lstrip_app_text by (reflexivity || discriminate).
  rewrite attribute_app by assumption.
  rewrite spaces1_space, lstrip_app_text by (reflexivity || discriminate).
  reflexivity.
Qed.

Lemma ARTIFACT_PATTERN_head (c : ascii) (s : string) :
  not_lt c = true -> ArtifactHandler.ARTIFACT_PATTERN (String c s) = None.
Proof.
  unfold not_lt. intros H. apply negb_true_iff in H.
  unfold ArtifactHandler.ARTIFACT_PATTERN, ArtifactHandler.literal.
  cbn [startswith]. now rewrite H.
Qed.

Lemma ARTIFACT_PATTERN_occurs (s : string) (r : ArtifactHandler.artifact * string) :
  ArtifactHandler.ARTIFACT_PATTERN s = Some r ->
  occurs "<antArtifact" s = true.
Proof.
  unfold ArtifactHandler.ARTIFACT_PATTERN, ArtifactHandler.literal.
  destruct (startswith s "<antArtifact") eqn:E; [|discriminate].
  intros _. now apply occurs_here.
Qed.

Lemma finditer_none (fuel : nat) :
  forall s, occurs "<antArtifact" s = false -> ArtifactHandler.finditer fuel s = [].
Proof.
  induction fuel as [|fuel IH]; intros s H; [reflexivity|].
  cbn [ArtifactHandler.finditer].
  destruct (ArtifactHandler.ARTIFACT_PATTERN s) as [r|] eqn:E.
  - apply ARTIFACT_PATTERN_occurs in E. congruence.
  - destruct s as [|c s]; [reflexivity|]. apply IH.
    cbn [occurs] in H. now apply orb_false_iff in H as [_ H].
Qed.

Lemma finditer_skip (pre : string) :
  forall fuel s, all_chars not_lt pre = true ->
  ArtifactHandler.finditer (String.length pre + fuel) (pre ++ s)
  = ArtifactHandler.finditer fuel s.
Proof.
  induction pre as [|c pre IH]; intros fuel s H; [reflexivity|].
  cbn [all_chars] in H. apply andb_true_iff in H as [Hc H].
  cbn [String.length plus append ArtifactHandler.finditer].
  rewrite (ARTIFACT_PATTERN_head c _ Hc). now apply IH.
Qed.

Lemma remove_from_all (old s : string) :
  ArtifactHandler.remove_from old (String.length s) s = "".
Proof. induction s as [|c s IH]; [reflexivity | exact IH]. Qed.

Lemma startswith_refl (s : string) : startswith s s = true.
Proof.
  induction s as [|c s IH]; [reflexivity|]. cbn [startswith].
  now rewrite Ascii.eqb_refl.
Qed.

Lemma remove_self (old : string) : ArtifactHandler.remove old old = "".
Proof.
  unfold ArtifactHandler.remove. destruct old as [|c old]; [reflexivity|].
  cbn [ArtifactHandler.remove_from]. rewrite (startswith_refl (String c old)).
  cbn [String.length]. rewrite Nat.sub_1_r. cbn [Nat.pred].
  apply remove_from_all.
Qed.

Lemma remove_skip (old' pre s : string) :
  all_chars not_lt pre = true ->
  ArtifactHandler.remove (String "<" old') (pre ++ s)
  = pre ++ ArtifactHandler.remove (String "<" old') s.
Proof.
  unfold ArtifactHandler.remove.
  induction pre as [|c pre IH]; intros H; [reflexivity|].
  cbn [all_chars] in H. apply andb_true_iff in H as [Hc H].
  unfold not_lt in Hc. apply negb_true_iff in Hc.
  cbn [append ArtifactHandler.remove_from startswith]. rewrite Hc.
  cbn [andb]. now rewrite IH.
Qed.

Lemma remove_none (old s : string) :
  occurs old s = false -> ArtifactHandler.remove old s = s.
Proof.
  unfold ArtifactHandler.remove.
  induction s as [|c s IH]; intros H; [reflexivity|].
  cbn [occurs] in H. apply orb_false_iff in H as [H1 H2].
  cbn [ArtifactHandler.remove_from]. now rewrite H1, IH.
Qed.

Lemma finditer_empty (fuel : nat) : ArtifactHandler.finditer fuel "" = [].
Proof. destruct fuel; reflexivity. Qed.

(** X22.  A text in which the opening of a tag does not occur has no artifact
    and comes back stripped. *)
Theorem parse_artifacts_no_tag (text : string) :
  occurs "<antArtifact" text = false ->
  ArtifactHandler.parse_artifacts text = (strip text, []).
Proof.
  intros H. unfold ArtifactHandler.parse_artifacts.
  now rewrite finditer_none.
Qed.

Lemma strip_starred (title : string) :
  strip (starred title ++ nl) = starred title.
Proof.
  unfold starred. change (("*" ++ title ++ "*") ++ nl)
    with (String "*" ((title ++ "*") ++ nl)).
  rewrite strip_cons by reflexivity. rewrite append_assoc.
  rewrite rstrip_append; [reflexivity | discriminate].
Qed.

Lemma all_chars_app (p : ascii -> bool) (a b : string) :
  all_chars p (a ++ b) = all_chars p a && all_chars p b.
Proof.
  induction a as [|c a IH]; [reflexivity|]. cbn [append all_chars].
  now rewrite IH, andb_assoc.
Qed.

Lemma is_word_not_quote (s : string) :
  all_chars is_word s = true -> all_chars ArtifactHandler.not_quote s = true.
Proof.
  induction s as [|c s IH]; [reflexivity|]. cbn [all_chars].
  intros H. apply andb_true_iff in H as [Hc H]. rewrite (IH H), andb_true_r.
  unfold ArtifactHandler.not_quote.
  destruct (Ascii.eqb c (ascii_of_nat 34)) eqn:E; [|reflexivity].
  apply Ascii.eqb_eq in E. subst c. discriminate.
Qed.

Lemma artifact_type_text (label : string) :
  all_chars ArtifactHandler.not_quote (ArtifactHandler.artifact_type label) = true
  /\ ArtifactHandler.artifact_type label <> "".
Proof.
  unfold ArtifactHandler.artifact_type.
  destruct (String.eqb label "html"); [split; [reflexivity | discriminate]|].
  destruct (String.eqb label "xml"); [split; [reflexivity | discriminate]|].
  destruct (String.eqb label "mermaid"); split; (reflexivity || discriminate).
Qed.

(** A text with one match, at its end, after a text without [<]. *)
Lemma parse_artifacts_single (pre tag old' : string)
    (a : ArtifactHandler.artifact) :
  all_chars not_lt pre = true -> tag = String "<" old' ->
  ArtifactHandler.ARTIFACT_PATTERN tag = Some (a, "") ->
  ArtifactHandler.parse_artifacts (pre ++ tag) = (strip pre, [a]).
Proof.
  intros Hpre Htag M. unfold ArtifactHandler.parse_artifacts.
  replace (S (String.length (pre ++ tag)))
    with (String.length pre + S (String.length tag))
    by (rewrite (length_append pre tag); lia).
  rewrite finditer_skip by exact Hpre.
  cbn [ArtifactHandler.finditer]. rewrite M, finditer_empty.
  cbn [map fst fold_left snd]. change (String.length "") with 0.
  rewrite Nat.sub_0_r, take_all by lia.
  rewrite Htag at 1. rewrite remove_skip by exact Hpre.
  rewrite <- Htag, remove_self.
  replace (pre ++ "") with pre; [reflexivity|].
  clear. induction pre as [|c pre IH]; [reflexivity|]. cbn [append]. now f_equal.
Qed.

(** Parsing a title line followed by a tag as [reconstruct_artifacts]
    writes it. *)
Lemma parse_artifacts_title_tag (title identifier type language content : string) :
  all_chars not_lt title = true ->
  all_chars ArtifactHandler.not_quote identifier = true -> identifier <> "" ->
  all_chars ArtifactHandler.not_quote type = true -> type <> "" ->
  all_chars ArtifactHandler.not_quote language = true -> language <> "" ->
  lstrip content = content -> no_end_in content = true ->
  ArtifactHandler.parse_artifacts
    (starred title ++ nl
     ++ ArtifactHandler.artifact_tag identifier type language content)
  = (starred title,
     [{| ArtifactHandler.identifier := identifier;
         ArtifactHandler.type := type;
         ArtifactHandler.language := Some language;
         ArtifactHandler.title := "Code Block";
         ArtifactHandler.content := content |}]).
Proof.
  intros Htitle Hi Hi' Ht Ht' Hl Hl' Hc He.
  assert (Hpre : all_chars not_lt (starred title ++ nl) = true).
  { unfold starred. rewrite !all_chars_app, Htitle. reflexivity. }
  assert (Htag : exists old',
            ArtifactHandler.artifact_tag identifier type language content
            = String "<" old').
  { rewrite artifact_tag_shape. eexists. reflexivity. }
  destruct Htag as [old' Htag].
  rewrite <- (append_assoc (starred title) nl).
  rewrite (parse_artifacts_single _ _ old' _ Hpre Htag
             (ARTIFACT_PATTERN_tag _ _ _ _ Hi Hi' Ht Ht' Hl Hl' Hc He)).
  now rewrite strip_starred.
Qed.

Lemma reconstruct_fenced (a : ArtifactHandler.artifact) (label : string) :
  fence_label a = Some label ->
  all_chars is_word label = true ->
  no_fence_in (ArtifactHandler.content a) = true ->
  ArtifactHandler.reconstruct_artifacts (ArtifactHandler.artifact_to_blocks a)
  = starred (ArtifactHandler.title a) ++ nl
    ++ ArtifactHandler.artifact_tag "block-0"
         (ArtifactHandler.artifact_type label) label (ArtifactHandler.content a).
Proof.
  intros Hl Hw Hc. unfold ArtifactHandler.reconstruct_artifacts.
  pose proof (artifacts_fold_artifact a [] None) as E. cbv zeta in E.
  rewrite E, Hl, (code_match_fence label _ Hw Hc). reflexivity.
Qed.

(** X23.  From blocks to text and back to artifacts: an artifact of a fenced
    type whose label is not empty comes back with its content and its
    label; its identifier and its title are replaced, its type is the one
    the label stands for, and its title is the text left.  The content has
    no white space at its start or at its end (the pattern leaves both
    out), and holds no closing fence and no closing tag. *)
Theorem artifact_cycle (a : ArtifactHandler.artifact) (label : string) :
  fence_label a = Some label ->
  label <> "" ->
  all_chars is_word label = true ->
  all_chars not_lt (ArtifactHandler.title a) = true ->
  no_fence_in (ArtifactHandler.content a) = true ->
  lstrip (ArtifactHandler.content a) = ArtifactHandler.content a ->
  no_end_in (ArtifactHandler.content a) = true ->
  ArtifactHandler.parse_artifacts
    (ArtifactHandler.reconstruct_artifacts (ArtifactHandler.artifact_to_blocks a))
  = (starred (ArtifactHandler.title a),
     [{| ArtifactHandler.identifier := "block-0";
         ArtifactHandler.type := ArtifactHandler.artifact_type label;
         ArtifactHandler.language := Some label;
         ArtifactHandler.title := "Code Block";
         ArtifactHandler.content := ArtifactHandler.content a |}]).
Proof.
  intros Hl Hne Hw Ht Hf Hs He.
  rewrite (reconstruct_fenced a label Hl Hw Hf).
  destruct (artifact_type_text label) as [T1 T2].
  apply parse_artifacts_title_tag; trivial.
  - discriminate.
  - now apply is_word_not_quote.
Qed.

Lemma startswith_before_lt (p : string) :
  forall x r, all_chars not_lt p = true ->
  startswith (x ++ String "<" r) p = true -> startswith x p = true.
Proof.
  induction p as [|d p IH]; intros x r Hp H; [reflexivity|].
  cbn [all_chars] in Hp. apply andb_true_iff in Hp as [Hd Hp].
  unfold not_lt in Hd. apply negb_true_iff in Hd.
  destruct x as [|e x]; cbn [append startswith] in *.
  - apply andb_true_iff in H as [H _]. apply Ascii.eqb_eq in H. subst d.
    discriminate.
  - apply andb_true_iff in H as [H1 H2]. rewrite H1. now apply (IH x r).
Qed.

Lemma occurs_open_app (x r : string) :
  occurs "<antArtifact" (x ++ String "<" r) = true ->
  occurs "<antArtifact" x = true
  \/ occurs "<antArtifact" (String "<" r) = true.
Proof.
  induction x as [|c x IH]; intros H; [now right|].
  change (String c x ++ String "<" r) with (String c (x ++ String "<" r)) in H.
  cbn [occurs] in H. apply orb_true_iff in H as [H|H].
  - left. apply occurs_here.
    cbn [startswith] in *. apply andb_true_iff in H as [H1 H2]. rewrite H1.
    now apply (startswith_before_lt "antArtifact" x r).
  - destruct (IH H) as [G|G]; [left | now right]. now apply occurs_cons.
Qed.

Lemma finditer_lost (pre header s : string) :
  all_chars not_lt pre = true ->
  ArtifactHandler.ARTIFACT_PATTERN (String "<" (header ++ s)) = None ->
  all_chars not_lt header = true ->
  occurs "<antArtifact" s = false ->
  forall fuel,
  ArtifactHandler.finditer fuel (pre ++ String "<" (header ++ s)) = [].
Proof.
  intros Hpre M Hh Hs.
  assert (A : forall q fuel, all_chars not_lt q = true ->
              ArtifactHandler.finditer fuel (q ++ s) = []).
  { induction q as [|c q IH]; intros fuel Hq; [now apply finditer_none|].
    cbn [all_chars] in Hq. apply andb_true_iff in Hq as [Hc Hq].
    destruct fuel; [reflexivity|]. cbn [append ArtifactHandler.finditer].
    rewrite (ARTIFACT_PATTERN_head c _ Hc). now apply IH. }
  induction pre as [|c pre IH]; intros fuel.
  - destruct fuel; [reflexivity|]. cbn [append ArtifactHandler.finditer].
    rewrite M. now apply A.
  - cbn [all_chars] in Hpre. apply andb_true_iff in Hpre as [Hc Hpre].
    destruct fuel; [reflexivity|]. cbn [append ArtifactHandler.finditer].
    rewrite (ARTIFACT_PATTERN_head c _ Hc). now apply IH.
Qed.

(** X24.  From blocks to text and back: a code artifact without a language is
    written as a tag whose language is empty, which the pattern does not
    match; no artifact comes back. *)
Theorem artifact_without_language_lost (a : ArtifactHandler.artifact) :
  ArtifactHandler.type a = "application/vnd.ant.code" ->
  ArtifactHandler.language_or_empty a = "" ->
  all_chars not_lt (ArtifactHandler.title a) = true ->
  no_fence_in (ArtifactHandler.content a) = true ->
  occurs "<antArtifact" (ArtifactHandler.content a) = false ->
  let text :=
    ArtifactHandler.reconstruct_artifacts (ArtifactHandler.artifact_to_blocks a) in
  text = starred (ArtifactHandler.title a) ++ nl
         ++ ArtifactHandler.artifact_tag "block-0" "application/vnd.ant.code" ""
              (ArtifactHandler.content a)
  /\ ArtifactHandler.parse_artifacts text = (strip text, []).
Proof.
  intros Hty Hl Ht Hf Ho. cbv zeta.
  assert (L : fence_label a = Some "").
  { unfold fence_label. now rewrite Hty, Hl. }
  assert (E := reconstruct_fenced a "" L eq_refl Hf).
  change (ArtifactHandler.artifact_type "") with "application/vnd.ant.code" in E.
  rewrite E. split; [reflexivity|].
  set (content := ArtifactHandler.content a) in *.
  set (header := "antArtifact identifier=" ++ dq ++ "block-0" ++ dq ++ " type="
                 ++ dq ++ "application/vnd.ant.code" ++ dq ++ " language="
                 ++ dq ++ dq ++ " title=" ++ dq ++ "Code Block" ++ dq ++ ">").
  assert (T : ArtifactHandler.artifact_tag "block-0" "application/vnd.ant.code" ""
                content
              = String "<" (header ++ content ++ "</antArtifact>"))
    by reflexivity.
  assert (M : ArtifactHandler.ARTIFACT_PATTERN
                (String "<" (header ++ content ++ "</antArtifact>")) = None).
  { rewrite <- T. apply ARTIFACT_PATTERN_no_language;
      (reflexivity || discriminate). }
  assert (O : occurs "<antArtifact" (content ++ "</antArtifact>") = false).
  { destruct (occurs "<antArtifact" (content ++ "</antArtifact>")) eqn:X;
      [|reflexivity].
    apply (occurs_open_app content "/antArtifact>") in X as [X|X];
      [congruence | discriminate]. }
  assert (Hpre : all_chars not_lt (starred (ArtifactHandler.title a) ++ nl) = true).
  { unfold starred. rewrite !all_chars_app, Ht. reflexivity. }
  unfold ArtifactHandler.parse_artifacts.
  rewrite T. rewrite <- (append_assoc (starred (ArtifactHandler.title a)) nl).
  rewrite (finditer_lost _ header _ Hpre M eq_refl O). reflexivity.
Qed.

(* ------------------------------------------------------------------ *)
(** ** The code on concrete inputs: examples, counterexamples, witnesses *)

(** The example of the specification, with an integer temperature. *)
Example parse_config_block_example :
  example_parse ("<@U0BOT> @public {{ 'temperature': 2 }}" ++ nl ++ "Hello")
  = Ok ("Hello", [(IS_BOT_MENTION, PyBool true); (IS_PUBLIC, PyBool true);
                  (PyStr "temperature", PyInt 2)]).
Proof. vm_compute. reflexivity. Qed.

(** A body that is no Python expression: the text comes back whole. *)
Example parse_config_block_bad_body :
  example_parse ("<@U0BOT> {{ bad json }}" ++ nl ++ "Hi")
  = Ok ("{{ bad json }}" ++ nl ++ "Hi", [(IS_BOT_MENTION, PyBool true)]).
Proof. vm_compute. reflexivity. Qed.

(** C2: the code at the failing input.  The body [1] makes the literal the
    set [{1}]; the test that should reject it looks at [config], so
    [config.update] gets the set and raises [TypeError], which the function
    does not handle. *)
Theorem config_block_set_literal_raises :
  LiteralFragment.literal_eval "{1}" = Ok (PySet [PyInt 1%Z])
  /\ example_parse ("<@U0BOT> {{1}}" ++ nl ++ "Hi") = Raise TypeError.
Proof. split; vm_compute; reflexivity. Qed.

(** C3 fails as stated: the mention was removed and set the flag, and the
    block's [is_bot_mention] replaces it. *)
Lemma bot_mention_flag_overwritten :
  let text := "<@U0BOT> {{'is_bot_mention': False}} hi" in
  snd (strip_prefixes example_bot (String.length text) text [])
    = [(IS_BOT_MENTION, PyBool true)]
  /\ example_parse text = Ok ("hi", [(IS_BOT_MENTION, PyBool false)])
  /\ forall cleaned config,
       example_parse text = Ok (cleaned, config) ->
       dict_get config IS_BOT_MENTION <> Some (PyBool true).
Proof.
  cbv zeta. split; [vm_compute; reflexivity|].
  assert (E : example_parse "<@U0BOT> {{'is_bot_mention': False}} hi"
              = Ok ("hi", [(IS_BOT_MENTION, PyBool false)]))
    by (vm_compute; reflexivity).
  split; [exact E|].
  intros cleaned config H. rewrite E in H. injection H as _ <-.
  vm_compute. discriminate.
Qed.

Lemma parsed_block_overrides_flags_witness :
  exists config,
    example_parse "<@U0BOT> {{'is_bot_mention': False}} hi"
    = Ok (strip "hi", config)
    /\ forall name,
         dict_get config (PyStr name)
         = match dict_get (rev [(IS_BOT_MENTION, PyBool false)]) (PyStr name) with
           | Some v => Some v
           | None => dict_get [(IS_BOT_MENTION, PyBool true)] (PyStr name)
           end.
Proof.
  apply (parsed_block_overrides_flags example_bot LiteralFragment.literal_eval
           "<@U0BOT> {{'is_bot_mention': False}} hi"
           "{{'is_bot_mention': False}} hi"
           [(IS_BOT_MENTION, PyBool true)] [(IS_BOT_MENTION, PyBool false)]
           "'is_bot_mention': False" "hi");
    vm_compute; reflexivity.
Defined.

(** C5 fails as stated: the block holds a dictionary in a dictionary, the
    pattern ends its body at the first [}}], and the text comes back whole
    with an empty map. *)
Lemma nested_block_not_parsed :
  let text := "{{'a': {'b': 1}}} hi" in
  let d := [(PyStr "a", PyDict [(PyStr "b", PyInt 1%Z)])] in
  LiteralFragment.literal_eval ("{" ++ "'a': {'b': 1}" ++ "}") = Ok (PyDict d)
  /\ example_parse text = Ok (text, [])
  /\ example_parse text <> Ok ("hi", dict_merge (flags_of []) d).
Proof.
  cbv zeta. split; [vm_compute; reflexivity|].
  assert (E : example_parse "{{'a': {'b': 1}}} hi"
              = Ok ("{{'a': {'b': 1}}} hi", [])) by (vm_compute; reflexivity).
  split; [exact E|]. rewrite E. discriminate.
Qed.

Lemma parse_config_block_first_close_witness :
  let toks := [("", BotMention); (" ", PublicFlag)] in
  let d := [(PyStr "temperature", PyInt 2%Z)] in
  example_parse
    (prefixed example_bot toks
       (" " ++ "{{" ++ " 'temperature': 2 " ++ "}}" ++ (nl ++ "Hello")))
  = Ok (strip (nl ++ "Hello"), dict_merge (flags_of toks) d)
  /\ forall name,
       dict_get (dict_merge (flags_of toks) d) (PyStr name)
       = match dict_get (rev d) (PyStr name) with
         | Some v => Some v
         | None => dict_get (flags_of toks) (PyStr name)
         end.
Proof.
  cbv zeta.
  apply (parse_config_block_first_close example_bot LiteralFragment.literal_eval
           [("", BotMention); (" ", PublicFlag)] " " " 'temperature': 2 "
           (nl ++ "Hello") [(PyStr "temperature", PyInt 2%Z)]).
  - repeat constructor.
  - reflexivity.
  - vm_compute; reflexivity.
  - vm_compute; reflexivity.
Defined.

(** C4 fails as stated: after a divider, [reconstruct_artifacts] wraps the
    fenced block in an artifact tag and [reconstruct_from_slackmsg] keeps
    the fence. *)
Lemma fenced_block_not_rewrapped :
  reconstruct_from_slackmsg fenced_example
    = "Here it is" ++ nl ++ "```py" ++ nl ++ "x = 1" ++ nl ++ "```"
  /\ ArtifactHandler.reconstruct_artifacts fenced_example
    = "Here it is" ++ nl
      ++ ArtifactHandler.artifact_tag "block-1" "application/vnd.ant.code"
           "py" "x = 1"
  /\ reconstruct_from_slackmsg fenced_example
     <> ArtifactHandler.reconstruct_artifacts fenced_example.
Proof.
  split; [vm_compute; reflexivity|].
  split; [vm_compute; reflexivity|].
  vm_compute. discriminate.
Qed.

Lemma plain_blocks_example :
  Forall plain_block [section "one"; divider; section "two"].
Proof.
  repeat constructor; intros H; try discriminate; split; vm_compute; reflexivity.
Defined.

Lemma reconstruct_from_slackmsg_sections_witness :
  let blocks := [section "one"; divider; section "two"] in
  reconstruct_from_slackmsg blocks
  = join nl (map btext (filter kept_section blocks))
  /\ reconstruct_from_slackmsg blocks
     = ArtifactHandler.reconstruct_artifacts blocks.
Proof.
  cbv zeta.
  destruct (reconstruct_from_slackmsg_sections
              [section "one"; divider; section "two"]) as [A B].
  split; [exact A | exact (B plain_blocks_example)].
Defined.

(** C1: the code at two failing inputs.  In a thread whose first message
    is [{{1}} notes], with no mention of the bot, a reply gets an error
    reply: the parser raises (the defect of C2) and the handler's
    [except] answers.  In a thread for the bot that is not public, a reply
    that names no author gets one too: [msg["user"]] raises. *)
Theorem reply_gets_error_reply :
  example_handle
    (plain_event (example_message (Some "U2") "hello" "2"))
    (example_client [example_message (Some "U1") "{{1}} notes" "1";
                     example_message (Some "U2") "hello" "2"] "answer" true)
  = ([SayError TypeError (Some "1")], Ok tt)
  /\ example_handle
       (plain_event (example_message None "hello" "2"))
       (example_client [example_message (Some "U1") "<@U0BOT> hi" "1";
                        example_message None "hello" "2"] "answer" true)
     = ([SayError KeyError (Some "1")], Ok tt).
Proof. split; vm_compute; reflexivity. Qed.

(** C7: the code at the failing input.  A message that is only the mention
    starts a thread; its cleaned text is empty, and the request still
    carries a text part for it. *)
Theorem new_thread_sends_empty_text :
  example_handle (new_thread_event "<@U0BOT>") (example_client [] "answer" true)
  = ([ReactionsAdd "C1" "1";
      MessagesCreate (SystemPrompt [])
        [{| role := user; content := [TextPart "" false] |}] (PyFloat (7 # 10));
      ReactionsRemove "C1" "1";
      Say "answer" [section "answer"] (Some "1")],
     Ok tt).
Proof. vm_compute. reflexivity. Qed.

(** C10: the code at the failing input.  In a thread for the bot that is
    not public, after a message of the bot, a reply that names no author.
    The turns [format_thread] makes of the thread end with the turn of the
    assistant, and the handler posts a reply, the report of an exception:
    [msg["user"]] raises before the thread is formatted. *)
Theorem unauthored_reply_after_own_turn :
  format_thread example_bot (example_client own_turn_thread "answer" true)
    (set_first_text own_turn_thread "hi") private_config
  = Ok [{| role := user; content := [TextPart "hi" false] |};
        {| role := assistant; content := [TextPart "hello" false] |}]
  /\ example_handle (plain_event (example_message None "ping" "3"))
       (example_client own_turn_thread "answer" true)
     = ([SayError KeyError (Some "1")], Ok tt).
Proof. split; vm_compute; reflexivity. Qed.

Lemma cascade_delete_witness :
  let event := deletion_event (example_message (Some "U1") "and this?" "3") in
  let client := example_client five_messages "answer" true in
  handle_message_deleted example_bot digits_float digits_ge event client
  = (deletions example_bot "C1" (skipn 2 five_messages), Ok tt)
  /\ (forall a,
      In a (fst (handle_message_deleted example_bot digits_float digits_ge event client))
      <-> exists i m t,
            2 <= i /\ nth_error five_messages i = Some m
            /\ msg_user m = Some example_bot /\ msg_ts m = Some t
            /\ a = ChatDelete "C1" t)
  /\ (exists m, nth_error five_messages 2 = Some m
                /\ at_or_after digits_float digits_ge 3%N m)
  /\ (forall j m, j < 2 -> nth_error five_messages j = Some m ->
                  ~ at_or_after digits_float digits_ge 3%N m).
Proof.
  cbv zeta.
  apply (cascade_delete example_bot N digits_float digits_ge
           (deletion_event (example_message (Some "U1") "and this?" "3"))
           (example_client five_messages "answer" true)
           (example_message (Some "U1") "and this?" "3") "1" "3"
           five_messages 3%N 2);
    try reflexivity; discriminate.
Defined.

(** The calls of that deletion: the bot's message after the deleted one. *)
Example cascade_delete_example :
  deletions example_bot "C1" (skipn 2 five_messages) = [ChatDelete "C1" "4"].
Proof. reflexivity. Qed.

(** An edit of the first message of a thread the bot has answered: the
    last turn is the bot's, and nothing is done. *)
Lemma no_reply_after_own_turn_witness :
  example_handle edit_event (example_client edited_thread "answer" true)
  = ([], Ok tt).
Proof.
  apply (no_reply_after_own_turn example_bot "" LiteralFragment.literal_eval
           N digits_float digits_ge edit_event
           (example_client edited_thread "answer" true)
           "1" "hi there"
           (example_message (Some "U1") "<@U0BOT> hi there" "1")
           [example_message (Some "U0BOT") "hello" "2"]
           [(IS_BOT_MENTION, PyBool true)]
           [{| role := user; content := [TextPart "hi there" false] |};
            {| role := assistant; content := [TextPart "hello" false] |}]
           {| role := assistant; content := [TextPart "hello" false] |});
    first [ vm_compute; reflexivity | right; exists "U1"; reflexivity ].
Defined.


Lemma length_long_text : String.length long_text = 3001.
Proof. vm_compute. reflexivity. Defined.

Lemma handle_large_response_cases_witness :
  handle_large_response "short" (example_client [] "answer" true) "C1" (Some "1")
  = ([], Ok ("short", None))
  /\ snd (handle_large_response long_text (example_client [] "answer" true)
            "C1" (Some "1"))
     = Ok (LONGRESPONSE, Some "F1")
  /\ (snd (handle_large_response long_text (example_client [] "answer" false)
             "C1" (Some "1"))
      = Ok (take 2950 long_text ++ TRUNCATED, None)
      /\ String.length (take 2950 long_text ++ TRUNCATED) <= 3000).
Proof.
  assert (L : 3000 < String.length long_text) by (rewrite length_long_text; lia).
  split; [|split].
  - apply (proj1 (handle_large_response_cases "short"
                    (example_client [] "answer" true) "C1" (Some "1"))).
    vm_compute. lia.
  - apply (proj1 (proj2 (handle_large_response_cases long_text
                    (example_client [] "answer" true) "C1" (Some "1"))) L "F1").
    reflexivity.
  - apply (proj1 (proj2 (proj2 (handle_large_response_cases long_text
                    (example_client [] "answer" false) "C1" (Some "1")))) L).
    right. exists SlackApiError. reflexivity.
Defined.

Lemma parse_config_block_no_block_witness :
  exists cleaned flags,
    example_parse "  <@U0BOT> @public  hello " = Ok (cleaned, flags)
    /\ strip cleaned = cleaned
    /\ startswith cleaned (bot_mention example_bot) = false
    /\ startswith cleaned public_flag = false
    /\ Forall structural_flag flags
    /\ example_parse cleaned = Ok (cleaned, []).
Proof.
  apply (parse_config_block_no_block example_bot LiteralFragment.literal_eval
           "  <@U0BOT> @public  hello ").
  reflexivity.
Defined.

Lemma is_bot_mention_sets_flag_witness :
  exists cleaned config,
    example_parse " <@U0BOT>hello" = Ok (cleaned, config)
    /\ dict_get config IS_BOT_MENTION = Some (PyBool true).
Proof.
  apply (is_bot_mention_sets_flag example_bot LiteralFragment.literal_eval
           " <@U0BOT>hello"); reflexivity.
Defined.

Lemma parse_config_block_plain_witness :
  let toks := [("", BotMention); (" ", PublicFlag)] in
  example_parse (prefixed example_bot toks "  hello there ")
  = Ok (strip "  hello there ", flags_of toks).
Proof.
  cbv zeta.
  apply (parse_config_block_plain example_bot LiteralFragment.literal_eval
           [("", BotMention); (" ", PublicFlag)] "  hello there ").
  - repeat constructor.
  - reflexivity.
  - reflexivity.
  - reflexivity.
Defined.

Lemma posted_answer_read_back_witness :
  let msg := bot_message "hello" [] (convert_to_blocks "hello") in
  reconstruct_from_slackmsg (msg_blocks msg) = "hello"
  /\ format_message example_bot (example_client [] "answer" true) (Some "U1")
       private_config msg
     = Some {| role := assistant; content := [TextPart "hello" false] |}.
Proof.
  cbv zeta.
  apply (posted_answer_read_back example_bot (example_client [] "answer" true)
           (Some "U1") private_config
           (bot_message "hello" [] (convert_to_blocks "hello")) "hello");
    try reflexivity.
  discriminate.
Defined.

Lemma overflow_message_content_witness :
  let msg := bot_message LONGRESPONSE ["F3"] [] in
  let client := attachment_client [] in
  message_content example_bot client msg
  = process_attachments client (msg_files msg)
  /\ format_message example_bot client (Some "U1") private_config msg
     = match process_attachments client (msg_files msg) with
       | [] => None
       | parts => Some {| role := assistant; content := parts |}
       end.
Proof.
  cbv zeta.
  apply (overflow_message_content example_bot (attachment_client [])
           (Some "U1") private_config (bot_message LONGRESPONSE ["F3"] [])
           LONGRESPONSE); reflexivity.
Defined.

Lemma overflow_answer_read_back_witness :
  format_message example_bot (attachment_client []) (Some "U1") private_config
    (bot_message LONGRESPONSE ["F3"] [])
  = Some {| role := assistant;
            content := [TextPart (decode_ascii "a long answer") false] |}.
Proof.
  apply (overflow_answer_read_back example_bot (attachment_client [])
           Base64.b64encode decode_ascii example_files
           (Some "U1") private_config [] (bot_message LONGRESPONSE ["F3"] [])
           LONGRESPONSE "F3"
           {| fi_mimetype := Some "text/plain";
              fi_name := Some "llm_response.txt";
              fi_thumb_1024 := None;
              fi_url_private := Some "https://files/answer";
              fi_pretty_type := Some "Plain Text" |}
           "text/plain" "https://files/answer" "a long answer");
    try reflexivity.
  discriminate.
Defined.

Lemma process_attachments_parts_witness :
  snd (AttachmentHandler.process_attachments Base64.b64encode decode_ascii
         example_files [] ["F1"; "F2"; "F9"; "F1"])
  = process_attachments (attachment_client []) ["F1"; "F2"; "F9"; "F1"].
Proof.
  apply (process_attachments_parts Base64.b64encode decode_ascii example_files
           (attachment_client []) [] ["F1"; "F2"; "F9"; "F1"]).
  reflexivity.
Defined.

(** The run of that example: two downloads for four files, the second
    [F1] read from the cache, and the image encoded. *)
Example process_attachments_example :
  AttachmentHandler.process_attachments Base64.b64encode decode_ascii
    example_files [] ["F1"; "F2"; "F9"; "F1"]
  = ([("https://files/thumb", "PNG"); ("https://files/notes", "buy milk")],
     ["https://files/notes"; "https://files/thumb"],
     [TextPart ("[Plain Text content from notes.txt]:" ++ nl ++ nl ++ "buy milk")
        false;
      ImagePart "image/png" "UE5H" false;
      TextPart ("[Plain Text content from notes.txt]:" ++ nl ++ nl ++ "buy milk")
        false]).
Proof. vm_compute. reflexivity. Qed.

Lemma apply_cache_headers_marks_last_witness :
  let image := ImagePart "image/png" "UE5H" false in
  let answer := {| role := assistant; content := [TextPart "seen" false] |} in
  let thanks := {| role := user; content := [TextPart "thanks" false] |} in
  fst (apply_cache_headers "Be brief."
         ([] ++ {| role := user; content := [TextPart "look" false] ++ [image] |}
          :: [answer; thanks])%list)
  = ([] ++ {| role := user;
             content := [TextPart "look" false] ++ [set_cache image] |}
     :: [answer; thanks])%list
  /\ fst (apply_cache_headers "Be brief." [answer; thanks]) = [answer; thanks]
  /\ snd (apply_cache_headers "Be brief." [answer; thanks])
     = [TextPart "Be brief." true].
Proof.
  cbv zeta.
  destruct (apply_cache_headers_marks_last "Be brief."
              [{| role := assistant; content := [TextPart "seen" false] |};
               {| role := user; content := [TextPart "thanks" false] |}]
              []
              [{| role := assistant; content := [TextPart "seen" false] |};
               {| role := user; content := [TextPart "thanks" false] |}]
              [TextPart "look" false] (ImagePart "image/png" "UE5H" false))
    as (A & B & C).
  split; [|split].
  - apply A; [repeat constructor | discriminate].
  - apply B. repeat constructor.
  - exact C.
Defined.

Lemma deletion_only_deletes_witness :
  let event := deletion_event (example_message (Some "U1") "and this?" "3") in
  let client := example_client five_messages "answer" true in
  snd (example_handle event client) = Ok tt
  /\ forall a,
       In a (fst (example_handle event client)) ->
       exists messages m ts,
         conversations_replies client (ev_channel event)
           (msg_thread_ts (message_or_empty (ev_previous_message event)))
         = Ok messages
         /\ In m messages /\ msg_user m = Some example_bot
         /\ msg_ts m = Some ts
         /\ a = ChatDelete (ev_channel event) ts.
Proof.
  cbv zeta.
  apply (deletion_only_deletes example_bot "" LiteralFragment.literal_eval
           N digits_float digits_ge
           (deletion_event (example_message (Some "U1") "and this?" "3"))
           (example_client five_messages "answer" true)).
  reflexivity.
Defined.

Lemma thread_reply_ignored_witness :
  example_handle (plain_event (example_message (Some "U2") "hello" "2"))
    (example_client private_thread "answer" true)
  = ([], Ok tt).
Proof.
  apply (thread_reply_ignored example_bot "" LiteralFragment.literal_eval
           N digits_float digits_ge
           (plain_event (example_message (Some "U2") "hello" "2"))
           (example_client private_thread "answer" true)
           "1" "U2" "hi" (example_message (Some "U1") "<@U0BOT> hi" "1")
           [example_message (Some "U2") "hello" "2"]
           [(IS_BOT_MENTION, PyBool true)]);
    try reflexivity.
  right. split; [reflexivity | discriminate].
Defined.

(** A message that starts a thread for the bot and switches the model off
    with [0]. *)
Lemma claude_zero_reaches_request :
  reaches_request example_bot LiteralFragment.literal_eval
    (new_thread_event "<@U0BOT> {{'claude': 0}} hi")
    (example_client [] "answer" true)
    [(IS_BOT_MENTION, PyBool true); (PyStr "claude", PyInt 0)]
    [initial_turn (example_client [] "answer" true)
       (event_message (new_thread_event "<@U0BOT> {{'claude': 0}} hi")) "hi"].
Proof.
  apply (starts_thread example_bot LiteralFragment.literal_eval
           (new_thread_event "<@U0BOT> {{'claude': 0}} hi")
           (example_client [] "answer" true) "hi" "U1"
           [(IS_BOT_MENTION, PyBool true); (PyStr "claude", PyInt 0)]);
    reflexivity.
Defined.

Lemma claude_false_makes_no_call_witness :
  example_handle (new_thread_event "<@U0BOT> {{'claude': 0}} hi")
    (example_client [] "answer" true)
  = ([], Ok tt).
Proof.
  apply (claude_false_makes_no_call example_bot "" LiteralFragment.literal_eval
           N digits_float digits_ge _ _ _ _ claude_zero_reaches_request).
  reflexivity.
Defined.

(** A reply of the initiator in a thread for the bot. *)
Lemma reply_reaches_request (client : Client) :
  conversations_replies client "C1" (Some "1") = Ok reply_thread ->
  attachment client = (fun _ => None) ->
  reaches_request example_bot LiteralFragment.literal_eval
    (plain_event (example_message (Some "U1") "more" "2")) client
    private_config
    [{| role := user; content := [TextPart "hi" false] |};
     {| role := user; content := [TextPart "more" false] |}].
Proof.
  intros Hthread Hfiles.
  apply (replies_in_thread example_bot LiteralFragment.literal_eval
           (plain_event (example_message (Some "U1") "more" "2")) client
           "1" "U1" "hi" (example_message (Some "U1") "<@U0BOT> hi" "1")
           [example_message (Some "U1") "more" "2"] private_config
           [{| role := user; content := [TextPart "hi" false] |};
            {| role := user; content := [TextPart "more" false] |}]
           {| role := user; content := [TextPart "more" false] |});
    try reflexivity.
  - exact Hthread.
  - right. reflexivity.
Defined.

Lemma model_failure_keeps_reaction_witness :
  let turns := [{| role := user; content := [TextPart "hi" false] |};
                {| role := user; content := [TextPart "more" false] |}] in
  example_handle (plain_event (example_message (Some "U1") "more" "2"))
    (failing_client reply_thread)
  = ([ReactionsAdd "C1" "2"; request "" private_config turns;
      SayError APIError (Some "1")], Ok tt).
Proof.
  cbv zeta.
  apply (model_failure_keeps_reaction example_bot "" LiteralFragment.literal_eval
           N digits_float digits_ge
           (plain_event (example_message (Some "U1") "more" "2"))
           (failing_client reply_thread) private_config _ "2" APIError
           (reply_reaches_request (failing_client reply_thread)
              eq_refl eq_refl));
    reflexivity.
Defined.

Lemma hi_reaches_request (client : Client) :
  attachment client = (fun _ => None) ->
  reaches_request example_bot LiteralFragment.literal_eval
    (new_thread_event "<@U0BOT> hi") client private_config
    [initial_turn client (event_message (new_thread_event "<@U0BOT> hi")) "hi"].
Proof.
  intros _.
  apply (starts_thread example_bot LiteralFragment.literal_eval
           (new_thread_event "<@U0BOT> hi") client "hi" "U1" private_config);
    reflexivity.
Defined.

Lemma answer_delivery_witness :
  let event := new_thread_event "<@U0BOT> hi" in
  let turns client := [initial_turn client (event_message event) "hi"] in
  let before client :=
    [ReactionsAdd "C1" "1"; request "" private_config (turns client);
     ReactionsRemove "C1" "1"] in
  let cut := take 2950 long_text ++ TRUNCATED in
  example_handle event (example_client [] "answer" true)
  = ((before (example_client [] "answer" true)
      ++ [Say "answer" (convert_to_blocks "answer") (Some "1")])%list, Ok tt)
  /\ example_handle event (example_client [] long_text true)
     = ((before (example_client [] long_text true)
         ++ [FilesUpload "C1" long_text "llm_response.txt" (Some "1")])%list,
        Ok tt)
  /\ example_handle event (example_client [] long_text false)
     = ((before (example_client [] long_text false)
         ++ [FilesUpload "C1" long_text "llm_response.txt" (Some "1");
             Say cut (convert_to_blocks cut) (Some "1")])%list, Ok tt).
Proof.
  cbv zeta.
  assert (L : 3000 < String.length long_text) by (rewrite length_long_text; lia).
  split; [|split].
  - apply (proj1 (answer_delivery example_bot "" LiteralFragment.literal_eval
                    N digits_float digits_ge (new_thread_event "<@U0BOT> hi")
                    (example_client [] "answer" true) private_config _
                    "1" "answer"
                    (hi_reaches_request (example_client [] "answer" true) eq_refl)
                    eq_refl eq_refl eq_refl)).
    vm_compute. lia.
  - apply (proj1 (proj2 (answer_delivery example_bot ""
                    LiteralFragment.literal_eval
                    N digits_float digits_ge (new_thread_event "<@U0BOT> hi")
                    (example_client [] long_text true) private_config _
                    "1" long_text
                    (hi_reaches_request (example_client [] long_text true) eq_refl)
                    eq_refl eq_refl eq_refl)) L "F1").
    reflexivity.
  - apply (proj2 (proj2 (answer_delivery example_bot ""
                    LiteralFragment.literal_eval
                    N digits_float digits_ge (new_thread_event "<@U0BOT> hi")
                    (example_client [] long_text false) private_config _
                    "1" long_text
                    (hi_reaches_request (example_client [] long_text false) eq_refl)
                    eq_refl eq_refl eq_refl)) L).
    right. exists SlackApiError. reflexivity.
Defined.

Lemma reply_without_turns_gets_error_witness :
  example_handle (plain_event (example_message (Some "U1") "@aside a note" "2"))
    (example_client aside_thread "answer" true)
  = ([SayError IndexError (Some "1")], Ok tt).
Proof.
  apply (reply_without_turns_gets_error example_bot ""
           LiteralFragment.literal_eval N digits_float digits_ge
           (plain_event (example_message (Some "U1") "@aside a note" "2"))
           (example_client aside_thread "answer" true)
           "1" "U1" "" (example_message (Some "U1") "<@U0BOT>" "1")
           [example_message (Some "U1") "@aside a note" "2"] private_config);
    try reflexivity.
  right. reflexivity.
Defined.

Lemma artifact_blocks_reconstructed_witness :
  ArtifactHandler.reconstruct_artifacts
    (ArtifactHandler.artifact_to_blocks (example_artifact (Some "py")))
  = starred "Sum" ++ nl
    ++ ArtifactHandler.artifact_tag "block-0" "application/vnd.ant.code" "py"
         "x = 1".
Proof.
  apply (proj1 (artifact_blocks_reconstructed (example_artifact (Some "py")))
           "py"); reflexivity.
Defined.

Lemma convert_to_blocks_reconstructed_witness :
  let artifacts := [example_artifact (Some "py"); example_artifact (Some "js")] in
  ArtifactHandler.reconstruct_artifacts
    (ArtifactHandler.convert_to_blocks "Two ways:" artifacts)
  = join nl (["Two ways:"] ++ artifacts_lines 1 artifacts)%list.
Proof.
  cbv zeta.
  apply (convert_to_blocks_reconstructed "Two ways:"
           [example_artifact (Some "py"); example_artifact (Some "js")]).
  reflexivity.
Defined.

(** The lines of that example: the tags are named [block-1] and
    [block-3]. *)
Example artifacts_lines_example :
  artifacts_lines 1 [example_artifact (Some "py"); example_artifact (Some "js")]
  = [starred "Sum";
     ArtifactHandler.artifact_tag "block-1" "application/vnd.ant.code" "py" "x = 1";
     starred "Sum";
     ArtifactHandler.artifact_tag "block-3" "application/vnd.ant.code" "js" "x = 1"].
Proof. vm_compute. reflexivity. Qed.

Lemma parse_artifacts_no_tag_witness :
  ArtifactHandler.parse_artifacts " no tag <here> "
  = (strip " no tag <here> ", []).
Proof.
  apply (parse_artifacts_no_tag " no tag <here> "). reflexivity.
Defined.

Lemma artifact_cycle_witness :
  ArtifactHandler.parse_artifacts
    (ArtifactHandler.reconstruct_artifacts
       (ArtifactHandler.artifact_to_blocks (example_artifact (Some "py"))))
  = (starred "Sum",
     [{| ArtifactHandler.identifier := "block-0";
         ArtifactHandler.type := ArtifactHandler.artifact_type "py";
         ArtifactHandler.language := Some "py";
         ArtifactHandler.title := "Code Block";
         ArtifactHandler.content := "x = 1" |}]).
Proof.
  apply (artifact_cycle (example_artifact (Some "py")) "py");
    try reflexivity.
  discriminate.
Defined.

Lemma artifact_without_language_lost_witness :
  let text :=
    ArtifactHandler.reconstruct_artifacts
      (ArtifactHandler.artifact_to_blocks (example_artifact None)) in
  text = starred "Sum" ++ nl
         ++ ArtifactHandler.artifact_tag "block-0" "application/vnd.ant.code" ""
              "x = 1"
  /\ ArtifactHandler.parse_artifacts text = (strip text, []).
Proof.
  cbv zeta.
  apply (artifact_without_language_lost (example_artifact None)); reflexivity.
Defined.
